(** * Procurement Request System: extraction pipeline, VAT validation and
      request store

    A shallow embedding of
      - app/models.py            (VAT_ID_PATTERN, ProcurementRequest.vat_id)
      - app/routes/ai.py         (extract_text_with_ocr, extract_document_endpoint)
      - app/services/database.py (document cache, request store)
    followed by the properties the specification states about them.

    Python values are embedded as an inductive type of JSON-shaped values,
    text as lists of Unicode code points, the candidate records returned by
    the field extractor as finite maps from keys to values, and the SQLite
    tables as lists of rows in insertion order. *)

From Stdlib Require Import ZArith NArith List String Ascii Bool Lia.
From Stdlib Require Import Decimal DecimalString DecimalN DecimalZ.
From stdpp Require Import base option list sorting gmap sets strings.
Import ListNotations.
#[local] Set Warnings "-register-all,-clear-no-such-hyp".

(* ===================================================================== *)
(** * Python text and values                                              *)
(* ===================================================================== *)

Module Py.

(** A Python [str] is a sequence of Unicode code points. *)
Abbreviation str := (list N).

(** Python [bytes]. *)
Abbreviation bytes := (list Byte.byte).

(** String literals of the source, written as code points. *)
Definition lit (s : string) : str := N_of_ascii <$> list_ascii_of_string s.
Arguments lit : simpl never.

(** The part of the Unicode character database the code depends on through
    [str.upper], [str.lower] and [repr].  On ASCII the three operations are
    defined below; beyond ASCII they are whatever the database says. *)
Record unicode_db := {
  upper_ext : N -> str;                 (* full upper-case mapping of a code point *)
  lower_ext : str -> nat -> N -> str;   (* lower-case mapping, in its context *)
  printable_ext : N -> bool             (* str.isprintable of a code point *)
}.

(** [str.isspace] for one code point: the White_Space code points of the
    Unicode database together with the separators FS, GS, RS, US. *)
Definition isspace (c : N) : bool :=
  ((0x09 <=? c) && (c <=? 0x0D) || (0x1C <=? c) && (c <=? 0x20)
   || (c =? 0x85) || (c =? 0xA0) || (c =? 0x1680)
   || (0x2000 <=? c) && (c <=? 0x200A)
   || (c =? 0x2028) || (c =? 0x2029) || (c =? 0x202F)
   || (c =? 0x205F) || (c =? 0x3000))%N.

Fixpoint lstrip (s : str) : str :=
  match s with
  | c :: s' => if isspace c then lstrip s' else s
  | [] => []
  end.

Definition rstrip (s : str) : str := rev (lstrip (rev s)).

(** [s.strip()] *)
Definition strip (s : str) : str := rstrip (lstrip s).

Definition ascii_upper (c : N) : N :=
  if ((0x61 <=? c) && (c <=? 0x7A))%N then (c - 32)%N else c.

Definition ascii_lower (c : N) : N :=
  if ((0x41 <=? c) && (c <=? 0x5A))%N then (c + 32)%N else c.

Section Unicode.
Context (udb : unicode_db).

  (** [s.upper()] *)
Definition upper (s : str) : str :=
    flat_map (fun c => if (c <? 128)%N then [ascii_upper c] else upper_ext udb c) s.

  (** [s.lower()] *)
Definition lower (s : str) : str :=
    concat (imap (fun i c => if (c <? 128)%N then [ascii_lower c]
                             else lower_ext udb s i c) s).

Definition isprintable (c : N) : bool :=
    if (c <? 128)%N then (0x20 <=? c)%N && (c <? 0x7F)%N else printable_ext udb c.
End Unicode.

(** [s.replace(old, new)] for a one-character [old]. *)
Definition replace1 (old : N) (new : str) (s : str) : str :=
  flat_map (fun c => if (c =? old)%N then new else [c]) s.

(** [s.endswith(t)] *)
Definition endswith (s t : str) : bool := bool_decide (t `suffix_of` s).

(** JSON-shaped Python values: what [json.loads] and the output parser of
    the language-model chain can produce.  A float is carried by its [repr]
    (the shortest decimal text that reads back to it); a nested dict keeps
    its insertion order, which [str] shows. *)
Inductive value :=
| PNone
| PBool (b : bool)
| PInt (z : Z)
| PFloat (r : str)
| PStr (s : str)
| PList (l : list value)
| PDict (d : list (str * value)).

(** Truth value of an object in a condition ([if v], [not v]). *)
Definition truthy (v : value) : bool :=
  match v with
  | PNone => false
  | PBool b => b
  | PInt z => negb (z =? 0)%Z
  | PFloat r => negb (bool_decide (r = lit "0.0") || bool_decide (r = lit "-0.0"))
  | PStr s => negb (bool_decide (s = []))
  | PList l => negb (bool_decide (length l = 0))
  | PDict d => negb (bool_decide (length d = 0))
  end.

Definition str_of_Z (z : Z) : str := lit (NilZero.string_of_int (Z.to_int z)).
Arguments str_of_Z : simpl never.

Definition hex_digit (d : N) : N := if (d <? 10)%N then (0x30 + d)%N else (0x57 + d)%N.

(** [w] lower-case hexadecimal digits of [c], most significant first. *)
Fixpoint hex (w : nat) (c : N) : str :=
  match w with
  | 0 => []
  | S w' => hex w' (c / 16)%N ++ [hex_digit (c mod 16)%N]
  end.

Section Repr.
Context (udb : unicode_db).

Definition repr_char (quote c : N) : str :=
    if ((c =? quote) || (c =? 0x5C))%N then [0x5C; c]%N
    else if (c =? 0x09)%N then lit "\t"
    else if (c =? 0x0A)%N then lit "\n"
    else if (c =? 0x0D)%N then lit "\r"
    else if ((c <? 0x20) || (c =? 0x7F))%N then lit "\x" ++ hex 2 c
    else if isprintable udb c then [c]
    else if (c <? 0x100)%N then lit "\x" ++ hex 2 c
    else if (c <? 0x10000)%N then lit "\u" ++ hex 4 c
    else lit "\U" ++ hex 8 c.

  (** [repr(s)] of a string: single quotes unless the text has a single
      quote and no double quote. *)
Definition repr_str (s : str) : str :=
    let quote := if bool_decide (0x27%N ∈ s) && negb (bool_decide (0x22%N ∈ s))
                 then 0x22%N else 0x27%N in
    [quote] ++ flat_map (repr_char quote) s ++ [quote].

  (** [", ".join(l)] and the like. *)
Fixpoint join (sep : str) (l : list str) : str :=
    match l with
    | [] => []
    | [x] => x
    | x :: l' => x ++ sep ++ join sep l'
    end.

Fixpoint repr (v : value) : str :=
    match v with
    | PNone => lit "None"
    | PBool true => lit "True"
    | PBool false => lit "False"
    | PInt z => str_of_Z z
    | PFloat r => r
    | PStr s => repr_str s
    | PList l => lit "[" ++ join (lit ", ") (map repr l) ++ lit "]"
    | PDict d =>
        lit "{" ++ join (lit ", ")
                     (map (fun kv => repr_str (fst kv) ++ lit ": " ++ repr (snd kv)) d)
        ++ lit "}"
    end.

  (** [str(v)] *)
Definition to_str (v : value) : str :=
    match v with
    | PStr s => s
    | _ => repr v
    end.
End Repr.

(** [len(v)]; numbers, booleans and [None] have no length. *)
Definition len (v : value) : option nat :=
  match v with
  | PStr s => Some (length s)
  | PList l => Some (length l)
  | PDict d => Some (length d)
  | _ => None
  end.

(** [isinstance(v, list)] *)
Definition is_list (v : value) : bool :=
  match v with PList _ => true | _ => false end.

(** A dict as the endpoint handles it: keys are only compared, so a finite
    map.  Iteration order is not observed by the code. *)
Abbreviation dict := (gmap string value).

(** [d.get(k, dflt)] *)
Definition get (d : dict) (k : string) (dflt : value) : value :=
  default dflt (d !! k).

(** Exceptions the modelled code raises or lets through. *)
Inductive exn :=
| ValueError (msg : str)
| TypeError (msg : str)
| Exception (msg : str)
| LibraryError (msg : str)              (* raised inside PyPDF2, PyMuPDF or a model client *)
| IntegrityError (msg : str)            (* sqlite3.IntegrityError *)
| OverflowError (msg : str)             (* an int that sqlite3 cannot bind *)
| HTTPException (status_code : Z) (detail : str).

(** [str(e)] *)
Definition exn_str (e : exn) : str :=
  match e with
  | ValueError m | TypeError m | Exception m | LibraryError m | IntegrityError m
  | OverflowError m => m
  | HTTPException c d => str_of_Z c ++ lit ": " ++ d
  end.

Inductive result (A : Type) :=
| Ok (a : A)
| Raise (e : exn).
Arguments Ok {A} a.
Arguments Raise {A} e.

End Py.

(* ===================================================================== *)
(** * Regular expressions, as far as [VAT_ID_PATTERN] uses them           *)
(* ===================================================================== *)

Module Re.
Import Py.

Inductive re :=
| Chr (c : N)                          (* a literal character *)
| Cls (p : N -> bool)                  (* a character class [...] *)
| Cat (r1 r2 : re)                     (* r1 r2 *)
| Alt (r1 r2 : re)                     (* r1|r2 *)
| Rep (r : re) (lo hi : nat).          (* r{lo,hi}, greedy *)

(** A greedy bounded repetition of the matcher [mr]: one more round is
    tried before stopping, and stopping needs [lo] rounds done. *)
Fixpoint rep (mr : str -> (str -> bool) -> bool) (k : str -> bool)
             (lo hi : nat) (s : str) {struct hi} : bool :=
  match hi with
  | 0 => match lo with 0 => k s | S _ => false end
  | S hi' =>
      mr s (fun s' => rep mr k (pred lo) hi' s')
      || match lo with 0 => k s | S _ => false end
  end.

(** Backtracking matcher: [m r s k] tries to match [r] at the front of [s]
    and hands the rest to the continuation [k]; alternatives are tried in
    order. *)
Fixpoint m (r : re) (s : str) (k : str -> bool) : bool :=
  match r with
  | Chr c => match s with x :: s' => (x =? c)%N && k s' | [] => false end
  | Cls p => match s with x :: s' => p x && k s' | [] => false end
  | Cat r1 r2 => m r1 s (fun s' => m r2 s' k)
  | Alt r1 r2 => m r1 s k || m r2 s k
  | Rep r lo hi => rep (m r) k lo hi s
  end.

(** [$] without MULTILINE: the end of the text, or just before a line feed
    that ends the text. *)
Definition at_end (s : str) : bool :=
  match s with
  | [] => true
  | [c] => (c =? 0x0A)%N
  | _ => false
  end.

(** [re.compile("^(" r ")$").match(s)] as a truth value. *)
Definition match_anchored (r : re) (s : str) : bool := m r s at_end.

Definition in_range (lo hi : N) (c : N) : bool := ((lo <=? c) && (c <=? hi))%N.

End Re.

(* ===================================================================== *)
(** * app/models.py                                                       *)
(* ===================================================================== *)

Module Models.
Import Py Re.

Definition upper_AZ : N -> bool := in_range 0x41 0x5A.          (* [A-Z] *)
Definition digit : N -> bool := in_range 0x30 0x39.             (* [0-9] *)
Definition digit_or_AZ (c : N) : bool := digit c || upper_AZ c. (* [0-9A-Z] *)

(** VAT ID patterns for common formats (EU countries, US EIN, etc.) *)
Definition VAT_ID_PATTERN : re :=
  Alt (Cat (Rep (Cls upper_AZ) 2 2) (Rep (Cls digit_or_AZ) 2 13))   (* EU VAT *)
 (Alt (Cat (Rep (Cls digit) 2 2) (Cat (Chr 0x2D) (Rep (Cls digit) 7 7))) (* US EIN *)
      (Rep (Cls digit) 9 12)).                                       (* generic numeric *)

Definition vat_message : string :=
  "Invalid VAT ID format. Expected formats: EU VAT (e.g., DE123456789), US EIN (e.g., 12-3456789), or 9-12 digit number".

Section WithUnicode.
Context (udb : unicode_db).

  (** [v.strip().upper().replace(" ", "")] *)
Definition clean (v : str) : str := replace1 0x20 [] (upper udb (strip v)).

  (** ProcurementRequest.validate_vat_id *)
Definition validate_vat_id (v : str) : result str :=
    let v_clean := clean v in
    if negb (match_anchored VAT_ID_PATTERN v_clean)
    then Raise (ValueError (lit vat_message))
    else Ok v_clean.

  (** What validating the field [vat_id: str = Field(..., min_length=1,
      max_length=20)] does with a string: the length constraints of the
      field are checked on the raw input, then the field validator runs
      (it is an after-validator).  [None] is a validation error. *)
Definition vat_id_field (v : str) : option str :=
    if length v <? 1 then None
    else if 20 <? length v then None
    else match validate_vat_id v with
         | Ok w => Some w
         | Raise _ => None
         end.
End WithUnicode.

(** StatusUpdate: [status: Literal["Open", "In Progress", "Closed"]].  A
    validated body holds one of the three values. *)
Inductive StatusUpdate :=
| StatusOpen
| StatusInProgress
| StatusClosed.

(** [update.status] *)
Definition status_text (update : StatusUpdate) : string :=
  match update with
  | StatusOpen => "Open"
  | StatusInProgress => "In Progress"
  | StatusClosed => "Closed"
  end.

End Models.

(* ===================================================================== *)
(** * app/routes/ai.py                                                    *)
(* ===================================================================== *)

Module Ai.
Import Py.

(** ** What the endpoint does to the outside: log lines and calls *)

Inductive level := INFO | ERROR.

Inductive call_site :=
| OnStructural      (* extract_document(pypdf_text) *)
| OnOcr.            (* extract_document(ocr_text) *)

Inductive event :=
| Log (lv : level) (msg : str)                 (* logger.info / logger.error *)
| CallPdfReader (content : bytes)          (* PyPDF2.PdfReader(...) *)
| CallOcr (content : bytes)                (* extract_text_with_ocr(content) *)
| CallExtract (site : call_site) (text : str). (* extract_document(text) *)

(** ** The libraries and services behind the endpoint

    What PyPDF2, PyMuPDF with the vision model, and the extraction chain
    answer.  Every answer may be an exception. *)
Record world := {
  (* PdfReader on the bytes, then page.extract_text() of each page *)
  pdf_pages : bytes -> result (list (result (option str)));
  (* fitz.open on the bytes, then for each page the transcription
     response.choices[0].message.content of its rendered image *)
  ocr_pages : bytes -> result (list (result str));
  (* extraction_chain.invoke on a document text *)
  chain_invoke : call_site -> str -> result dict
}.

(** ** Computations that log, call out and may raise

    A computation is its result together with the events it produced. *)

Definition M (A : Type) : Type := result A * list event.

Definition ret {A} (a : A) : M A := (Ok a, []).

Definition bind {A B} (c : M A) (f : A -> M B) : M B :=
  match c with
  | (Ok a, t) => let (r, t') := f a in (r, t ++ t')
  | (Raise e, t) => (Raise e, t)
  end.

Definition raise {A} (e : exn) : M A := (Raise e, []).

(** try: c  except Exception as e: h e *)
Definition try_except {A} (c : M A) (h : exn -> M A) : M A :=
  match c with
  | (Ok a, t) => (Ok a, t)
  | (Raise e, t) => let (r, t') := h e in (r, t ++ t')
  end.

Definition emit (e : event) : M unit := (Ok tt, [e]).

Definition lift {A} (r : result A) : M A := (r, []).

(** What a computation returns or raises, and what it logged and called,
    in order. *)
Definition outcome {A} (c : M A) : result A := fst c.
Definition trace {A} (c : M A) : list event := snd c.

Declare Scope py_scope.
Delimit Scope py_scope with py.
Notation "x <- c ;; k" := (bind c (fun x => k))
  (at level 100, c at next level, right associativity) : py_scope.
Notation "c ;; k" := (bind c (fun _ => k))
  (at level 100, right associativity) : py_scope.
Local Open Scope py_scope.

Definition info (msg : str) : M unit := emit (Log INFO msg).
Definition error (msg : str) : M unit := emit (Log ERROR msg).

Definition str_of_nat (n : nat) : str := str_of_Z (Z.of_nat n).

(** Maximum PDF file size: 10 MB *)
Definition MAX_PDF_SIZE_BYTES : N := 10 * 1024 * 1024.

Definition PAGE_BREAK : str :=
  [0x0A; 0x0A]%N ++ lit "=== PAGE BREAK ===" ++ [0x0A; 0x0A]%N.

(** [x or ""] for the result of page.extract_text() *)
Definition or_empty (x : option str) : str :=
  match x with
  | Some s => s
  | None => []
  end.

(** Truth value of a dict, and of a dict-or-None variable. *)
Definition dict_truthy (d : dict) : bool := negb (bool_decide (d = ∅)).

Definition opt_truthy (o : option dict) : bool :=
  match o with
  | Some d => dict_truthy d
  | None => false
  end.

Section Endpoint.
Context (udb : unicode_db) (w : world).

  (** app.services.ai_service.extract_document *)
Definition extract_document (site : call_site) (text : str) : M dict :=
    emit (CallExtract site text) ;;
    lift (chain_invoke w site text).

  (** The page loop of extract_text_with_ocr: one model call per page, the
      first failure ends the loop. *)
Fixpoint ocr_loop (pages : list (result str)) (all_text : list str) : M (list str) :=
    match pages with
    | [] => ret all_text
    | page :: rest =>
        content <- lift page ;;
        ocr_loop rest (all_text ++ [content])
    end.

  (** Extract text from scanned PDF using Mistral OCR (Pixtral) *)
Definition extract_text_with_ocr (pdf_content : bytes) : M str :=
    emit (CallOcr pdf_content) ;;
    pdf_document <-
      try_except (lift (ocr_pages w pdf_content))
                 (fun e => raise (Exception (lit "Failed to open PDF: " ++ exn_str e))) ;;
    all_text <- ocr_loop pdf_document [] ;;
    ret (join PAGE_BREAK all_text).

  (** Lines 95-98: the PyPDF2 reader and its page loop. *)
Fixpoint pypdf_loop (pages : list (result (option str))) (pypdf_text : str) : M str :=
    match pages with
    | [] => ret pypdf_text
    | page :: rest =>
        t <- lift page ;;
        pypdf_loop rest (pypdf_text ++ or_empty t)
    end.

Definition structural_text (content : bytes) : M str :=
    emit (CallPdfReader content) ;;
    pages <- lift (pdf_pages w content) ;;
    pypdf_loop pages [].

  (** [str(d.get(k, '')).strip()] *)
Definition stripped (d : dict) (k : string) : str :=
    strip (to_str udb (get d k (PStr []))).

  (** [str(v).strip() if v else ''] *)
Definition str_or_empty (v : value) : str :=
    if truthy v then strip (to_str udb v) else [].

  (** Lines 111-138: is the extraction missing critical fields? *)
Definition quality_gate (pypdf_result : option dict) : M bool :=
    match pypdf_result with
    | Some r =>
        if negb (dict_truthy r) then
          info (lit "No PyPDF2 result, will use OCR") ;; ret true
        else
          let vat_id := stripped r "vat_id" in
          let vendor_name := stripped r "vendor_name" in
          let department := stripped r "department" in
          let title := stripped r "title" in
          let order_lines := get r "order_lines" (PList []) in
          if negb (truthy (PStr vat_id)) then
            info (lit "VAT ID missing, will use OCR") ;; ret true
          else if negb (truthy (PStr vendor_name)) then
            info (lit "Vendor name missing, will use OCR") ;; ret true
          else if negb (truthy (PStr department)) then
            info (lit "Department missing, will use OCR") ;; ret true
          else if negb (truthy (PStr title)) then
            info (lit "Title missing, will use OCR") ;; ret true
          else if negb (truthy order_lines) then
            info (lit "No order lines found, will use OCR") ;; ret true
          else
            match len order_lines with
            | None => raise (TypeError (lit "object has no len()"))
            | Some n =>
                if n =? 0 then
                  info (lit "No order lines found, will use OCR") ;; ret true
                else ret false
            end
    | None =>
        info (lit "No PyPDF2 result, will use OCR") ;; ret true
    end.

  (** Lines 181-209: the value chosen for one field of the merged record. *)
Definition merge_field (field : string) (pypdf_val ocr_val : value) : value :=
    if bool_decide (field = "order_lines") then
      let pypdf_lines := if is_list pypdf_val then pypdf_val else PList [] in
      let ocr_lines := if is_list ocr_val then ocr_val else PList [] in
      if bool_decide (default 0 (len ocr_lines) <= default 0 (len pypdf_lines))
      then pypdf_lines else ocr_lines
    else if bool_decide (field = "vendor_name") || bool_decide (field = "department") then
      let ocr_str := str_or_empty ocr_val in
      if truthy (PStr ocr_str) then ocr_val else pypdf_val
    else
      let pypdf_str := str_or_empty pypdf_val in
      let ocr_str := str_or_empty ocr_val in
      if negb (truthy (PStr pypdf_str)) && truthy (PStr ocr_str) then ocr_val
      else if negb (truthy (PStr ocr_str)) && truthy (PStr pypdf_str) then pypdf_val
      else if bool_decide (length pypdf_str < length ocr_str) then ocr_val
      else pypdf_val.

  (** Lines 176-209: [merged = {}] and the loop over the union of the keys. *)
Definition merge_results (pypdf_result ocr_result : dict) : dict :=
    let all_fields : gset string := dom pypdf_result ∪ dom ocr_result in
    set_fold (fun field merged =>
                <[field := merge_field field (get pypdf_result field (PStr []))
                                             (get ocr_result field (PStr []))]> merged)
             ∅ all_fields.

  (** [next((r for src, r in results if src == name), {})] *)
Fixpoint next_of (name : string) (results : list (string * dict)) : dict :=
    match results with
    | [] => ∅
    | (src, r) :: rest => if bool_decide (src = name) then r else next_of name rest
    end.

  (** Lines 102-109: try extraction with PyPDF2 text. *)
Definition pypdf_extraction (pypdf_text : str) : M (option dict) :=
    if truthy (PStr (strip pypdf_text)) then
      try_except
        (r <- extract_document OnStructural pypdf_text ;;
         info (lit "PyPDF2 extraction result: VAT ID = "
               ++ to_str udb (get r "vat_id" (PStr (lit "MISSING")))) ;;
         ret (Some r))
        (fun e =>
           error (lit "PyPDF2 AI extraction failed: " ++ exn_str e) ;;
           ret None)
    else ret None.

  (** Lines 140-156: use OCR only if necessary. *)
Definition ocr_extraction (content : bytes) (pypdf_result : option dict)
                            (needs_ocr : bool) : M (option dict) :=
    if needs_ocr then
      try_except
        (info (lit "Starting OCR extraction with Mistral Pixtral (critical fields missing)...") ;;
         ocr_text <- extract_text_with_ocr content ;;
         info (lit "OCR extracted " ++ str_of_nat (length ocr_text) ++ lit " characters") ;;
         r <- extract_document OnOcr ocr_text ;;
         info (lit "OCR extraction result: VAT ID = "
               ++ to_str udb (get r "vat_id" (PStr (lit "MISSING")))) ;;
         ret (Some r))
        (fun e =>
           error (lit "OCR extraction failed: " ++ exn_str e) ;;
           if negb (opt_truthy pypdf_result) then
             raise (HTTPException 400
                      (lit "Could not extract text from PDF. PyPDF2 and OCR both failed."))
           else ret None)
    else ret None.

  (** Lines 158-212: prepare the results, return the only one or merge. *)
Definition select_or_merge (pypdf_result ocr_result : option dict) : M dict :=
    let results : list (string * dict) :=
      (if opt_truthy pypdf_result then [("pypdf", default ∅ pypdf_result)] else [])
      ++ (if opt_truthy ocr_result then [("ocr", default ∅ ocr_result)] else []) in
    match results with
    | [] => raise (HTTPException 400 (lit "Could not extract data from PDF"))
    | [(_, r)] => ret r
    | _ =>
        (* Merge PyPDF2 and OCR results *)
        let pypdf_result := next_of "pypdf" results in
        let ocr_result := next_of "ocr" results in
        let merged := merge_results pypdf_result ocr_result in
        info (lit "Final merged result: VAT ID = "
              ++ to_str udb (get merged "vat_id" (PStr (lit "MISSING")))) ;;
        ret merged
    end.

  (** Extract procurement info from uploaded PDF using AI (uses both
      PyPDF2 + OCR for best results) *)
Definition extract_document_endpoint (name : option str) (content : bytes) : M dict :=
    (* Validate file type *)
    if match name with
       | None => true
       | Some f => negb (truthy (PStr f)) || negb (endswith (lower udb f) (lit ".pdf"))
       end
    then raise (HTTPException 400 (lit "Only PDF files are allowed"))
    (* Validate file size *)
    else if (MAX_PDF_SIZE_BYTES <? N.of_nat (length content))%N
    then raise (HTTPException 400 (lit "File too large. Maximum size is 10 MB"))
    else
      (* 1. Try PyPDF2 first (fast, free, good for digital text) *)
      pypdf_text <- structural_text content ;;
      info (lit "PyPDF2 extracted " ++ str_of_nat (length pypdf_text) ++ lit " characters") ;;
      (* 2. Try extraction with PyPDF2 text *)
      pypdf_result <- pypdf_extraction pypdf_text ;;
      (* 3. Check if extraction quality is poor (missing critical fields) *)
      needs_ocr <- quality_gate pypdf_result ;;
      (* 4. Use OCR only if necessary *)
      ocr_result <- ocr_extraction content pypdf_result needs_ocr ;;
      (* 5. Prepare results for merging; merge results *)
      select_or_merge pypdf_result ocr_result.
End Endpoint.

End Ai.

(* ===================================================================== *)
(** * app/services/database.py                                            *)
(* ===================================================================== *)

Module Database.
Import Py.

(** SQLite column types: TEXT as a string, INTEGER as an integer, REAL as
    a float carried by its [repr] (as in [Py.value]). *)
Abbreviation text := string.
Abbreviation real := Py.str.

(** An INTEGER is stored in 64 bits, signed.  A Python int has no bound:
    sqlite3 refuses to bind one outside that range as a parameter. *)
Definition fits_integer (z : Z) : bool :=
  ((-9223372036854775808 <=? z) && (z <=? 9223372036854775807))%Z.

Definition too_large : exn :=
  OverflowError (lit "Python int too large to convert to SQLite INTEGER").

Definition bind_integer (z : Z) : result Z :=
  if fits_integer z then Ok z else Raise too_large.

(** ** Rows of the four tables *)

Record cache_row := {
  file_hash : text;                (* PRIMARY KEY *)
  filename : text;
  extracted_data : dict;           (* the JSON text of the dict; dumps and loads are inverse *)
  cache_created_at : text
}.

Record request_row := {
  req_id : text;                   (* PRIMARY KEY *)
  req_requestor_name : text;
  req_title : text;
  req_vendor_name : text;
  req_vat_id : text;
  req_commodity_group_id : text;
  req_total_cost : real;
  req_department : text;
  req_status : text;
  req_created_at : text
}.

Record order_line_row := {
  ol_id : N;                       (* INTEGER PRIMARY KEY AUTOINCREMENT *)
  ol_request_id : text;
  ol_description : text;
  ol_unit_price : real;
  ol_amount : Z;
  ol_unit : text;
  ol_total_price : real
}.

Record history_row := {
  h_id : N;                        (* INTEGER PRIMARY KEY AUTOINCREMENT *)
  h_request_id : text;
  h_status : text;
  h_timestamp : text
}.

(** The database file: each table in insertion order, and the two
    AUTOINCREMENT counters (the largest row id handed out so far). *)
Record db := {
  document_cache : list cache_row;
  procurement_requests : list request_row;
  order_lines : list order_line_row;
  status_history : list history_row;
  order_lines_seq : N;
  status_history_seq : N
}.

(** ** The dicts that go in and out *)

Record order_line := {
  description : text;
  unit_price : real;
  amount : Z;
  line_unit : text;
  total_price : real
}.

Record request_data := {
  requestor_name : text;
  title : text;
  vendor_name : text;
  vat_id : text;
  commodity_group_id : text;
  data_order_lines : list order_line;
  total_cost : real;
  department : text
}.

Record history_entry := {
  status : text;
  timestamp : text
}.

(** What get_request returns. *)
Record request_record := {
  rec_id : text;
  rec_data : request_data;
  rec_status : text;
  rec_status_history : list history_entry;
  rec_created_at : text
}.

(** Initialize database tables, on a new file. *)
Definition init_database : db :=
  {| document_cache := []; procurement_requests := []; order_lines := [];
     status_history := []; order_lines_seq := 0; status_history_seq := 0 |}.

Section Hash.
  (** hashlib.sha256(content).hexdigest() *)
Context (sha256_hexdigest : bytes -> text).

  (** Compute SHA-256 hash of file content *)
Definition compute_file_hash (content : bytes) : text := sha256_hexdigest content.
End Hash.

(** ** Document cache functions *)

(** Get cached extraction result by file hash *)
Definition get_cached_extraction (d : db) (hash : text) : option dict :=
  match filter (fun r => file_hash r = hash) (document_cache d) with
  | row :: _ => Some (extracted_data row)
  | [] => None
  end.

(** Cache extraction result: INSERT OR REPLACE deletes the row that has the
    same primary key, then inserts. *)
Definition cache_extraction (d : db) (hash name : text) (data : dict) (now : text) : db :=
  {| document_cache :=
       filter (fun r => file_hash r <> hash) (document_cache d)
       ++ [{| file_hash := hash; filename := name; extracted_data := data;
              cache_created_at := now |}];
     procurement_requests := procurement_requests d;
     order_lines := order_lines d;
     status_history := status_history d;
     order_lines_seq := order_lines_seq d;
     status_history_seq := status_history_seq d |}.

(** ** Request counter management *)

Definition decimal (n : N) : text := NilEmpty.string_of_uint (N.to_uint n).

Fixpoint zeros (n : nat) : text :=
  match n with
  | 0 => ""
  | S n' => String "0" (zeros n')
  end.

(** The format [04d]: zero-padded to at least four digits. *)
Definition pad4 (digits : text) : text :=
  zeros (4 - String.length digits) +:+ digits.

(** The text [REQ-] followed by the number in the format [04d]. *)
Definition format_request_id (k : N) : text := "REQ-" +:+ pad4 (decimal k).

(** Get next request ID *)
Definition get_next_request_id (d : db) : text :=
  let count := N.of_nat (length (procurement_requests d)) in
  format_request_id (count + 1).

(** ** Procurement request functions *)

(** ORDER BY id: insertion sort on the row id. *)
Fixpoint insert_by_id (h : history_row) (l : list history_row) : list history_row :=
  match l with
  | [] => [h]
  | x :: l' => if (h_id h <? h_id x)%N then h :: l else x :: insert_by_id h l'
  end.

Definition order_by_id (l : list history_row) : list history_row :=
  foldr insert_by_id [] l.

(** Get a specific procurement request *)
Definition get_request (d : db) (request_id : text) : option request_record :=
  match filter (fun r => req_id r = request_id) (procurement_requests d) with
  | [] => None
  | row :: _ =>
      let lines :=
        (fun line => {| description := ol_description line;
                        unit_price := ol_unit_price line;
                        amount := ol_amount line;
                        line_unit := ol_unit line;
                        total_price := ol_total_price line |})
        <$> filter (fun line => ol_request_id line = request_id) (order_lines d) in
      let history :=
        (fun h => {| status := h_status h; timestamp := h_timestamp h |})
        <$> order_by_id (filter (fun h => h_request_id h = request_id) (status_history d)) in
      Some {| rec_id := req_id row;
              rec_data := {| requestor_name := req_requestor_name row;
                             title := req_title row;
                             vendor_name := req_vendor_name row;
                             vat_id := req_vat_id row;
                             commodity_group_id := req_commodity_group_id row;
                             data_order_lines := lines;
                             total_cost := req_total_cost row;
                             department := req_department row |};
              rec_status := req_status row;
              rec_status_history := history;
              rec_created_at := req_created_at row |}
  end.

(** INSERT INTO order_lines, one row whose amount has been bound. *)
Definition insert_order_line (request_id : text) (d : db) (line : order_line) : db :=
  let rowid := (order_lines_seq d + 1)%N in
  {| document_cache := document_cache d;
     procurement_requests := procurement_requests d;
     order_lines :=
       order_lines d ++
       [{| ol_id := rowid; ol_request_id := request_id;
           ol_description := description line; ol_unit_price := unit_price line;
           ol_amount := amount line; ol_unit := line_unit line;
           ol_total_price := total_price line |}];
     status_history := status_history d;
     order_lines_seq := rowid;
     status_history_seq := status_history_seq d |}.

(** The loop over request_data["order_lines"]: one INSERT per line, each
    binding the line's amount to the INTEGER column; the first amount that
    cannot be bound raises and ends the loop. *)
Fixpoint insert_order_lines (request_id : text) (d : db) (lines : list order_line)
  : result db :=
  match lines with
  | [] => Ok d
  | line :: rest =>
      match bind_integer (amount line) with
      | Ok _ => insert_order_lines request_id (insert_order_line request_id d line) rest
      | Raise e => Raise e
      end
  end.

(** INSERT INTO status_history, one row. *)
Definition insert_status_history (request_id st ts : text) (d : db) : db :=
  let rowid := (status_history_seq d + 1)%N in
  {| document_cache := document_cache d;
     procurement_requests := procurement_requests d;
     order_lines := order_lines d;
     status_history :=
       status_history d ++
       [{| h_id := rowid; h_request_id := request_id; h_status := st; h_timestamp := ts |}];
     order_lines_seq := order_lines_seq d;
     status_history_seq := rowid |}.

(** INSERT INTO procurement_requests, one row (the key is known to be free). *)
Definition insert_request (row : request_row) (d : db) : db :=
  {| document_cache := document_cache d;
     procurement_requests := procurement_requests d ++ [row];
     order_lines := order_lines d;
     status_history := status_history d;
     order_lines_seq := order_lines_seq d;
     status_history_seq := status_history_seq d |}.

(** Create a new procurement request.  [now] is datetime.now().isoformat().
    A primary-key conflict or an amount that cannot be bound raises inside
    the [with] block: get_db closes the connection without commit, so
    nothing is stored, the rows already inserted included. *)
Definition create_request (d : db) (data : request_data) (now : text)
  : result (option request_record) * db :=
  let request_id := get_next_request_id d in
  let created_at := now in
  if bool_decide (request_id ∈ req_id <$> procurement_requests d) then
    (Raise (IntegrityError (lit "UNIQUE constraint failed: procurement_requests.id")), d)
  else
    (* Insert main request *)
    let d1 := insert_request
                {| req_id := request_id;
                   req_requestor_name := requestor_name data;
                   req_title := title data;
                   req_vendor_name := vendor_name data;
                   req_vat_id := vat_id data;
                   req_commodity_group_id := commodity_group_id data;
                   req_total_cost := total_cost data;
                   req_department := department data;
                   req_status := "Open";
                   req_created_at := created_at |} d in
    (* Insert order lines *)
    match insert_order_lines request_id d1 (data_order_lines data) with
    | Raise e => (Raise e, d)
    | Ok d2 =>
        (* Insert initial status history *)
        let d3 := insert_status_history request_id "Open" created_at d2 in
        (Ok (get_request d3 request_id), d3)
    end.

(** UPDATE procurement_requests SET status = ? WHERE id = ? *)
Definition set_status (request_id st : text) (row : request_row) : request_row :=
  if bool_decide (req_id row = request_id) then
    {| req_id := req_id row;
       req_requestor_name := req_requestor_name row;
       req_title := req_title row;
       req_vendor_name := req_vendor_name row;
       req_vat_id := req_vat_id row;
       req_commodity_group_id := req_commodity_group_id row;
       req_total_cost := req_total_cost row;
       req_department := req_department row;
       req_status := st;
       req_created_at := req_created_at row |}
  else row.

(** Update the status of a procurement request *)
Definition update_request_status (d : db) (request_id st now : text)
  : option request_record * db :=
  (* Check if request exists *)
  match filter (fun r => req_id r = request_id) (procurement_requests d) with
  | [] => (None, d)
  | _ :: _ =>
      (* Update status *)
      let d1 :=
        {| document_cache := document_cache d;
           procurement_requests := set_status request_id st <$> procurement_requests d;
           order_lines := order_lines d;
           status_history := status_history d;
           order_lines_seq := order_lines_seq d;
           status_history_seq := status_history_seq d |} in
      (* Add to status history *)
      let d2 := insert_status_history request_id st now d1 in
      (get_request d2 request_id, d2)
  end.

(** ORDER BY created_at DESC: insertion sort on the TEXT column, greatest
    first (TEXT compares byte by byte); rows with equal keys keep their
    table order. *)
Fixpoint insert_by_created_at (r : request_row) (l : list request_row) : list request_row :=
  match l with
  | [] => [r]
  | x :: l' =>
      if String.ltb (req_created_at r) (req_created_at x)
      then x :: insert_by_created_at r l'
      else r :: l
  end.

Definition order_by_created_at_desc (l : list request_row) : list request_row :=
  foldr insert_by_created_at [] l.

(** Get all procurement requests *)
Definition get_all_requests (d : db) : list (option request_record) :=
  let request_ids := req_id <$> order_by_created_at_desc (procurement_requests d) in
  get_request d <$> request_ids.

End Database.

(* ===================================================================== *)
(** * The application: handlers over the database                         *)
(* ===================================================================== *)

Module App.
Import Py Ai Database.

(** POST /api/extract-document, run against the database.  The handler and
    the module it lives in (app/routes/ai.py) import nothing from
    app.services.database, so the database is handed back as it came. *)
Definition post_extract_document (udb : unicode_db) (w : world) (d : db)
    (name : option str) (content : bytes) : M dict * db :=
  (extract_document_endpoint udb w name content, d).

(** The operations of the store, with the clock reading each one takes. *)
Inductive op :=
| CreateRequest (data : request_data) (now : text)
| UpdateStatus (request_id st now : text)
| CacheExtraction (hash name : text) (data : dict) (now : text).

Definition apply_op (d : db) (o : op) : db :=
  match o with
  | CreateRequest data now => snd (create_request d data now)
  | UpdateStatus request_id st now => snd (update_request_status d request_id st now)
  | CacheExtraction hash name data now => cache_extraction d hash name data now
  end.

(** The states the database can be in: from the initialised file, by the
    operations above. *)
Inductive reachable : db -> Prop :=
| reach_init : reachable init_database
| reach_step d o : reachable d -> reachable (apply_op d o).

End App.

(* ===================================================================== *)
(** * The specification's vocabulary                                      *)
(* ===================================================================== *)

Module Spec.
Import Py Ai Database.

(** ** Regular languages *)

Fixpoint power (L : str -> Prop) (n : nat) (s : str) : Prop :=
  match n with
  | 0 => s = []
  | S n' => exists s1 s2, s = s1 ++ s2 /\ L s1 /\ power L n' s2
  end.

Fixpoint lang (r : Re.re) (s : str) : Prop :=
  match r with
  | Re.Chr c => s = [c]
  | Re.Cls p => exists x, s = [x] /\ p x = true
  | Re.Cat r1 r2 => exists s1 s2, s = s1 ++ s2 /\ lang r1 s1 /\ lang r2 s2
  | Re.Alt r1 r2 => lang r1 s \/ lang r2 s
  | Re.Rep r lo hi => exists n, lo <= n <= hi /\ power (lang r) n s
  end.

(** ** VAT IDs, in the words of the data model *)

Definition letter (c : N) : Prop := (0x41 <= c <= 0x5A)%N.       (* A..Z *)
Definition numeric (c : N) : Prop := (0x30 <= c <= 0x39)%N.      (* 0..9 *)
Definition alphanumeric (c : N) : Prop := letter c \/ numeric c.

(** Two-letter country code followed by 2-13 alphanumerics. *)
Definition eu_vat (s : str) : Prop :=
  exists a b rest, s = a :: b :: rest /\ letter a /\ letter b /\
                   2 <= length rest <= 13 /\ Forall alphanumeric rest.

(** NN-NNNNNNN *)
Definition us_ein (s : str) : Prop :=
  exists front back, s = front ++ 0x2D%N :: back /\
                     length front = 2 /\ Forall numeric front /\
                     length back = 7 /\ Forall numeric back.

(** 9-12 digits *)
Definition generic_numeric (s : str) : Prop :=
  9 <= length s <= 12 /\ Forall numeric s.

Definition vat_shape (s : str) : Prop := eu_vat s \/ us_ein s \/ generic_numeric s.

(** What the Unicode database guarantees about upper-casing and that the
    validator relies on: a non-ASCII code point never upper-cases to
    nothing, nor to text with a line feed or a space in it. *)
Definition upper_sane (udb : unicode_db) : Prop :=
  forall c, (128 <= c)%N ->
    upper_ext udb c <> [] /\ (0x0A%N ∉ upper_ext udb c) /\ (0x20%N ∉ upper_ext udb c).

(** ** Candidate records and the quality gate, in the words of section 4.4 *)

(** The trimmed string form of a value: a text without its surrounding
    whitespace; a value that counts as false has the empty form. *)
Definition trimmed (udb : unicode_db) (v : value) : str :=
  match v with
  | PStr s => strip s
  | _ => if truthy v then strip (to_str udb v) else []
  end.

(** The text of a field for the completeness check: the trimmed string
    form of its value; a field that is missing (absent, or null) reads as
    empty. *)
Definition field_text (udb : unicode_db) (r : dict) (k : string) : str :=
  match r !! k with
  | Some v => trimmed udb v
  | None => []
  end.

(** The line items of a record: the list under [order_lines], none when
    the field is absent or is not a list. *)
Definition lines_of (r : dict) : list value :=
  match r !! "order_lines" with
  | Some (PList l) => l
  | _ => []
  end.

(** The five-field completeness check: vat_id, vendor_name, department
    and title non-empty after trimming, order_lines non-empty. *)
Definition complete (udb : unicode_db) (r : dict) : Prop :=
  field_text udb r "vat_id" <> [] /\
  field_text udb r "vendor_name" <> [] /\
  field_text udb r "department" <> [] /\
  field_text udb r "title" <> [] /\
  lines_of r <> [].

(** A record keeps to the data model in its [order_lines]: absent, null,
    or a list. *)
Definition lines_wellformed (r : dict) : Prop :=
  match r !! "order_lines" with
  | None | Some PNone | Some (PList _) => True
  | Some _ => False
  end.

(** The upload endpoint takes the file: a non-empty name that ends in
    .pdf whatever the case, and at most 10 MiB. *)
Definition accepted (udb : unicode_db) (name : option str) (content : bytes) : Prop :=
  exists f, name = Some f /\ f <> [] /\ lit ".pdf" `suffix_of` lower udb f /\
            (N.of_nat (length content) <= 10 * 1024 * 1024)%N.

(** Candidate A: what the field extractor makes of the structural text;
    none when the text is empty or whitespace only, when the extractor
    fails, or when it returns an empty mapping. *)
Definition candidate_A (w : world) (text : str) : option dict :=
  if bool_decide (strip text = []) then None
  else match chain_invoke w OnStructural text with
       | Ok r => if bool_decide (r = ∅) then None else Some r
       | Raise _ => None
       end.

(** The OCR stage fails: the OCR extractor raises, or the field extractor
    raises on its text. *)
Definition ocr_stage_fails (w : world) (content : bytes) : Prop :=
  match outcome (extract_text_with_ocr w content) with
  | Raise _ => True
  | Ok ocr_text =>
      match chain_invoke w OnOcr ocr_text with
      | Raise _ => True
      | Ok _ => False
      end
  end.

(** Candidate B: what the OCR path yields. *)
Definition candidate_B (w : world) (content : bytes) : option dict :=
  match outcome (extract_text_with_ocr w content) with
  | Raise _ => None
  | Ok ocr_text =>
      match chain_invoke w OnOcr ocr_text with
      | Ok r => if bool_decide (r = ∅) then None else Some r
      | Raise _ => None
      end
  end.

(** ** The request store, in the words of sections 3 and 4.6 *)

(** A request the store can hold: every amount is an integer of the
    INTEGER column, 64 bits with sign. *)
Definition storable (data : request_data) : Prop :=
  Forall (fun line => (- 2 ^ 63 <= amount line < 2 ^ 63)%Z) (data_order_lines data).

(** The history rows of one request, in table order. *)
Definition history_rows (d : db) (request_id : text) : list history_row :=
  filter (fun h => h_request_id h = request_id) (status_history d).

(** What holds of every state the store can reach. *)
Record store_inv (d : db) : Prop := {
  (* the k-th request created has the id REQ-000k *)
  inv_ids :
    req_id <$> procurement_requests d
    = (fun k => format_request_id (N.of_nat k)) <$> seq 1 (length (procurement_requests d));
  (* history rows are in the order of their row ids, all handed out so far *)
  inv_sorted : StronglySorted (fun a b => (h_id a < h_id b)%N) (status_history d);
  inv_bound : Forall (fun h => (h_id h <= status_history_seq d)%N) (status_history d);
  (* every history row belongs to a stored request *)
  inv_owner :
    Forall (fun h => h_request_id h ∈ req_id <$> procurement_requests d) (status_history d);
  (* the history of a request starts with Open at its creation time and
     ends with its current status *)
  inv_status :
    Forall (fun row =>
              exists first rest,
                history_rows d (req_id row) = first :: rest
                /\ h_status first = "Open"
                /\ h_timestamp first = req_created_at row
                /\ h_status <$> last (first :: rest) = Some (req_status row))
           (procurement_requests d);
  (* one cache row per hash *)
  inv_cache : NoDup (file_hash <$> document_cache d)
}.

(** A client-facing error: an HTTP status of the 4xx class. *)
Definition client_error {A} (r : result A) : Prop :=
  exists code detail, r = Raise (HTTPException code detail) /\ (400 <= code < 500)%Z.

End Spec.

(* ===================================================================== *)
(** * Concrete inputs used in the examples below                          *)
(* ===================================================================== *)

Module Examples.
Import Py Ai Database.

(** A Unicode database that leaves every non-ASCII code point alone. *)
Definition ascii_only_db : unicode_db :=
  {| upper_ext := fun c => [c]; lower_ext := fun _ _ c => [c];
     printable_ext := fun _ => true |}.

(** The two candidates of the merge example of section 8, for line items
    [x] and [y]. *)
Definition example_A (x y : value) : dict :=
  <["order_lines" := PList [x; y]]>
    (<["vendor_name" := PStr (lit "")]> (<["title" := PStr (lit "ACME Corp")]> ∅)).

Definition example_B (x : value) : dict :=
  <["order_lines" := PList [x]]>
    (<["vendor_name" := PStr (lit "Foo GmbH")]> (<["title" := PStr (lit "A")]> ∅)).


(** Records as the field extractor returns them. *)
Definition line_item : value :=
  PDict [(lit "description", PStr (lit "Laptop"));
         (lit "unit_price", PFloat (lit "999.0"));
         (lit "amount", PInt 2);
         (lit "unit", PStr (lit "pcs"));
         (lit "total_price", PFloat (lit "1998.0"))].

Definition complete_record : dict :=
  <["vat_id" := PStr (lit "DE123456789")]>
    (<["vendor_name" := PStr (lit "ACME GmbH")]>
       (<["department" := PStr (lit "IT")]>
          (<["title" := PStr (lit "Laptops")]>
             (<["order_lines" := PList [line_item]]>
                (<["total_cost" := PFloat (lit "2377.62")]> ∅))))).

(** The same record without a VAT ID. *)
Definition record_without_vat : dict := <["vat_id" := PStr (lit "")]> complete_record.

Definition offer_text : str := lit "ACME GmbH Angebot Laptops USt-IdNr DE123456789".

Definition upload_name : option str := Some (lit "Offer.PDF").
Definition upload_content : bytes := [Byte.x25; Byte.x50; Byte.x44; Byte.x46].

(** A digital PDF: the text layer is there and the extractor finds every
    field. *)
Definition digital_world : world :=
  {| pdf_pages := fun _ => Ok [Ok (Some offer_text)];
     ocr_pages := fun _ => Ok [Ok offer_text];
     chain_invoke := fun _ _ => Ok complete_record |}.

(** A scan: no text layer; the OCR text yields a record without VAT ID. *)
Definition scan_world : world :=
  {| pdf_pages := fun _ => Ok [Ok None; Ok (Some (lit "  "))];
     ocr_pages := fun _ => Ok [Ok offer_text; Ok (lit "Seite 2")];
     chain_invoke := fun _ _ => Ok record_without_vat |}.

(** The structural candidate lacks the VAT ID and the OCR extractor cannot
    open the file. *)
Definition ocr_down_world : world :=
  {| pdf_pages := fun _ => Ok [Ok (Some offer_text)];
     ocr_pages := fun _ => Raise (LibraryError (lit "cannot open broken document"));
     chain_invoke := fun _ _ => Ok record_without_vat |}.

(** Nothing can be read on either path. *)
Definition unreadable_world : world :=
  {| pdf_pages := fun _ => Ok [Ok None];
     ocr_pages := fun _ => Raise (LibraryError (lit "cannot open broken document"));
     chain_invoke := fun _ _ => Ok complete_record |}.

(** A PDF whose second page makes page.extract_text() raise, while the
    first page has the text and OCR would read the whole document. *)
Definition bad_page_world : world :=
  {| pdf_pages := fun _ => Ok [Ok (Some offer_text);
                               Raise (LibraryError (lit "malformed content stream"))];
     ocr_pages := fun _ => Ok [Ok offer_text; Ok (lit "Seite 2")];
     chain_invoke := fun _ _ => Ok complete_record |}.

(** A request as the create endpoint hands it to the store. *)
Definition example_request : request_data :=
  {| requestor_name := "Jo Doe"; title := "Laptops"; vendor_name := "ACME GmbH";
     vat_id := "DE123456789"; commodity_group_id := "031";
     data_order_lines :=
       [{| description := "Laptop"; unit_price := lit "999.0"; amount := 2;
           line_unit := "pcs"; total_price := lit "1998.0" |}];
     total_cost := lit "2377.62"; department := "IT" |}.

(** The same request for 2**63 laptops: the validation of OrderLine asks
    for an integer above 0 and lets it through. *)
Definition big_request : request_data :=
  {| requestor_name := "Jo Doe"; title := "Laptops"; vendor_name := "ACME GmbH";
     vat_id := "DE123456789"; commodity_group_id := "031";
     data_order_lines :=
       [{| description := "Laptop"; unit_price := lit "999.0";
           amount := 9223372036854775808;
           line_unit := "pcs"; total_price := lit "1998.0" |}];
     total_cost := lit "2377.62"; department := "IT" |}.

(** A stand-in for SHA-256 in examples: any function of the bytes will do. *)
Definition example_digest (content : bytes) : text :=
  Database.decimal (N.of_nat (length content)).

End Examples.

(* ===================================================================== *)
(** * app/routes/requests.py                                              *)
(* ===================================================================== *)

Module Requests.
Import Py Models Database.

(** Create a new procurement request.  The body has passed the validation
    of ProcurementRequest; [request] is its model_dump(). *)
Definition create_request_endpoint (d : db) (request : request_data) (now : text)
  : result (option request_record) * db :=
  create_request d request now.

(** Get all procurement requests *)
Definition get_requests (d : db) : list (option request_record) :=
  get_all_requests d.

Definition not_found : exn := HTTPException 404 (lit "Request not found").

(** Get a specific procurement request *)
Definition get_request_endpoint (d : db) (request_id : text) : result request_record :=
  match get_request d request_id with
  | Some found => Ok found
  | None => Raise not_found
  end.

(** Update the status of a procurement request *)
Definition update_status (d : db) (request_id : text) (update : StatusUpdate) (now : text)
  : result request_record * db :=
  match update_request_status d request_id (status_text update) now with
  | (Some updated, d') => (Ok updated, d')
  | (None, d') => (Raise not_found, d')
  end.

End Requests.

(* ===================================================================== *)
(** * Further vocabulary for the properties of the code                   *)
(* ===================================================================== *)

Module Props.
Import Py Models Ai Database App Requests Spec.

(** ** The request store *)

(** Every order line belongs to a stored request. *)
Definition lines_owned (d : db) : Prop :=
  Forall (fun line => ol_request_id line ∈ req_id <$> procurement_requests d)
         (order_lines d).

(** The states the database reaches through the HTTP handlers. *)
Inductive served : db -> Prop :=
| served_init : served init_database
| served_create d request now :
    served d -> served (snd (create_request_endpoint d request now))
| served_update d request_id update now :
    served d -> served (snd (update_status d request_id update now)).

(** One of the three values of the workflow. *)
Definition workflow_status (s : text) : Prop :=
  s = "Open" \/ s = "In Progress" \/ s = "Closed".

(** A run of store operations, from a state. *)
Definition run_ops (d : db) (ops : list op) : db := foldl apply_op d ops.

(** The data of the last cache write for a hash in a run. *)
Fixpoint last_cached (hash : text) (ops : list op) : option dict :=
  match ops with
  | [] => None
  | o :: rest =>
      match last_cached hash rest with
      | Some data => Some data
      | None =>
          match o with
          | CacheExtraction h _ data _ => if bool_decide (h = hash) then Some data else None
          | _ => None
          end
      end
  end.

(** ** The quality gate of the endpoint *)

(** The gate lets a record through: each of the four texts that lines
    118-121 compute, str(value).strip() of the field or of the default, is
    not empty, and there is a line item.  A null under a field reads as the
    text None here, which is not empty. *)
Definition passes_gate (udb : unicode_db) (r : dict) : Prop :=
  stripped udb r "vat_id" <> [] /\
  stripped udb r "vendor_name" <> [] /\
  stripped udb r "department" <> [] /\
  stripped udb r "title" <> [] /\
  lines_of r <> [].

(** ** The endpoint's calls *)

(** An event that is a call to a library or a service, not a log line. *)
Definition is_call (e : event) : bool :=
  match e with
  | Log _ _ => false
  | _ => true
  end.

(** The calls of a trace, in order. *)
Definition calls (t : list event) : list event := List.filter is_call t.

(** ** VAT IDs *)

(** The characters an accepted VAT ID is made of: A-Z, 0-9 and the hyphen. *)
Definition vat_char (c : N) : Prop := alphanumeric c \/ c = 0x2D%N.

(** A record whose [order_lines], when present, is a list. *)
Definition lines_listed (r : dict) : Prop :=
  match r !! "order_lines" with
  | None | Some (PList _) => True
  | Some _ => False
  end.

End Props.

Module MoreExamples.
Import Py Ai Database App Examples.

(** The text layer yields a record without VAT ID, the OCR text the whole
    record. *)
Definition two_path_world : world :=
  {| pdf_pages := fun _ => Ok [Ok (Some offer_text)];
     ocr_pages := fun _ => Ok [Ok offer_text];
     chain_invoke := fun site _ =>
                       match site with
                       | OnStructural => Ok record_without_vat
                       | OnOcr => Ok complete_record
                       end |}.

(** The structural candidate lacks the VAT ID and the extractor returns an
    empty mapping for the OCR text. *)
Definition empty_ocr_world : world :=
  {| pdf_pages := fun _ => Ok [Ok (Some offer_text)];
     ocr_pages := fun _ => Ok [Ok offer_text];
     chain_invoke := fun site _ =>
                       match site with
                       | OnStructural => Ok record_without_vat
                       | OnOcr => Ok ∅
                       end |}.

(** The extractor returns a number where the line items should be. *)
Definition record_with_count : dict := <["order_lines" := PInt 3]> complete_record.

Definition count_world : world :=
  {| pdf_pages := fun _ => Ok [Ok (Some offer_text)];
     ocr_pages := fun _ => Ok [Ok offer_text];
     chain_invoke := fun _ _ => Ok record_with_count |}.

(** The extractor returns null for the VAT ID. *)
Definition record_with_null_vat : dict := <["vat_id" := PNone]> complete_record.

Definition null_vat_world : world :=
  {| pdf_pages := fun _ => Ok [Ok (Some offer_text)];
     ocr_pages := fun _ => Ok [Ok offer_text];
     chain_invoke := fun _ _ => Ok record_with_null_vat |}.

(** The store after two requests, created a day apart. *)
Definition two_requests : db :=
  apply_op (apply_op init_database (CreateRequest example_request "2026-01-05T09:00:00"))
           (CreateRequest example_request "2026-01-06T10:30:00").

End MoreExamples.

(* ===================================================================== *)
(** * Proofs: the matcher and the VAT ID validator                        *)
(* ===================================================================== *)

Section RegexFacts.
Import Py Re Spec.

Lemma rep_spec (mr : str -> (str -> bool) -> bool) (L : str -> Prop) :
    (forall s k, mr s k = true <-> exists s1 s2, s = s1 ++ s2 /\ L s1 /\ k s2 = true) ->
    forall k hi lo s,
      rep mr k lo hi s = true <->
      exists n s1 s2, s = s1 ++ s2 /\ lo <= n <= hi /\ power L n s1 /\ k s2 = true.
  Proof.
    intros Hmr k hi. induction hi as [|hi IH]; intros lo s; simpl.
    - destruct lo as [|lo].
      + split.
        * intros Hk. exists 0, [], s. simpl. auto with lia.
        * intros (n & s1 & s2 & -> & Hn & Hp & Hk).
          assert (n = 0) as -> by lia. simpl in Hp. by subst.
      + split; [done|]. intros (n & _ & _ & _ & Hn & _). lia.
    - rewrite orb_true_iff, Hmr. split.
      + intros [(a & b & -> & HL & Hrep)|Hstop].
        * apply IH in Hrep as (n & s1 & s2 & -> & Hn & Hp & Hk).
          exists (S n), (a ++ s1), s2. rewrite <- app_assoc.
          repeat split; [lia..| |done]. simpl. by exists a, s1.
        * destruct lo; [|done]. exists 0, [], s. simpl. auto with lia.
      + intros (n & s1 & s2 & -> & Hn & Hp & Hk). destruct n as [|n].
        * right. simpl in Hp. subst. assert (lo = 0) as -> by lia. done.
        * left. simpl in Hp. destruct Hp as (a & b & -> & HL & Hp).
          exists a, (b ++ s2). rewrite <- app_assoc. repeat split; [done|].
          apply IH. exists n, b, s2. repeat split; [lia..|done|done].
  Qed.

  (** The backtracking matcher finds a split of the text exactly when one
      exists: a front in the language of the expression and a rest the
      continuation accepts. *)
Lemma m_spec (r : re) :
    forall s k, m r s k = true <-> exists s1 s2, s = s1 ++ s2 /\ lang r s1 /\ k s2 = true.
  Proof.
    induction r as [c|p|r1 IH1 r2 IH2|r1 IH1 r2 IH2|r IH lo hi]; intros s k; simpl.
    - destruct s as [|x s].
      + split; [done|]. intros (s1 & s2 & Hs & -> & _). done.
      + rewrite andb_true_iff, N.eqb_eq. split.
        * intros [-> Hk]. by exists [c], s.
        * intros (s1 & s2 & Hs & -> & Hk). simpl in Hs. by simplify_eq.
    - destruct s as [|x s].
      + split; [done|]. intros (s1 & s2 & Hs & (y & -> & _) & _). done.
      + rewrite andb_true_iff. split.
        * intros [Hp Hk]. exists [x], s. eauto.
        * intros (s1 & s2 & Hs & (y & -> & Hp) & Hk). simpl in Hs. by simplify_eq.
    - rewrite IH1. split.
      + intros (a & b & -> & Ha & Hb). apply IH2 in Hb as (b1 & b2 & -> & Hb1 & Hk).
        exists (a ++ b1), b2. rewrite <- app_assoc. repeat split; [|done]. by exists a, b1.
      + intros (s1 & s2 & -> & (a & b & -> & Ha & Hb) & Hk).
        exists a, (b ++ s2). rewrite <- app_assoc. repeat split; [done|].
        apply IH2. by exists b, s2.
    - rewrite orb_true_iff, IH1, IH2. split.
      + intros [(a & b & ? & ? & ?)|(a & b & ? & ? & ?)]; exists a, b; auto.
      + intros (a & b & ? & [?|?] & ?); [left|right]; exists a, b; auto.
    - rewrite (rep_spec (m r) (lang r) IH). split.
      + intros (n & s1 & s2 & ? & ? & ? & ?). exists s1, s2. repeat split; [done| |done].
        by exists n.
      + intros (s1 & s2 & ? & (n & ? & ?) & ?). by exists n, s1, s2.
  Qed.

Lemma at_end_spec (s : str) : at_end s = true <-> s = [] \/ s = [0x0A%N].
  Proof.
    destruct s as [|c [|d s]]; simpl.
    - naive_solver.
    - rewrite N.eqb_eq. naive_solver.
    - naive_solver.
  Qed.

  (** A match anchored with [$] accepts the language, and also a text of
      the language followed by one line feed. *)
Lemma match_anchored_spec (r : re) (s : str) :
    match_anchored r s = true <-> lang r s \/ exists s', s = s' ++ [0x0A%N] /\ lang r s'.
  Proof.
    unfold match_anchored. rewrite m_spec. split.
    - intros (s1 & s2 & -> & HL & [->| ->]%at_end_spec).
      + left. by rewrite app_nil_r.
      + right. by exists s1.
    - intros [HL|(s' & -> & HL)].
      + exists s, []. by rewrite app_nil_r.
      + by exists s', [0x0A%N].
  Qed.

  (** Repeating a character class [n] times: [n] characters of the class. *)
Lemma power_cls (p : N -> bool) (n : nat) (s : str) :
    power (lang (Cls p)) n s <-> length s = n /\ Forall (fun c => p c = true) s.
  Proof.
    revert s. induction n as [|n IH]; intros s; simpl.
    - split.
      + intros ->. by split.
      + intros [Hl _]. by destruct s.
    - split.
      + intros (s1 & s2 & -> & (x & -> & Hp) & Hpow). apply IH in Hpow as [Hl Hall].
        simpl. split; [lia|]. by constructor.
      + intros [Hl Hall]. destruct s as [|x s]; [done|].
        apply Forall_cons in Hall as [Hx Hall]. exists [x], s. repeat split.
        * by exists x.
        * apply IH. simpl in Hl. split; [lia|done].
  Qed.

Lemma lang_rep_cls (p : N -> bool) (lo hi : nat) (s : str) :
    lang (Rep (Cls p) lo hi) s <-> lo <= length s <= hi /\ Forall (fun c => p c = true) s.
  Proof.
    simpl. split.
    - intros (n & Hn & [Hl Hall]%power_cls). split; [lia|done].
    - intros [Hl Hall]. exists (length s). split; [lia|]. by apply power_cls.
  Qed.
End RegexFacts.

Section VatFacts.
Import Py Re Models Spec.

Lemma upper_AZ_letter (c : N) : upper_AZ c = true <-> letter c.
  Proof. unfold upper_AZ, in_range, letter. rewrite andb_true_iff, !N.leb_le. done. Qed.

Lemma digit_numeric (c : N) : digit c = true <-> numeric c.
  Proof. unfold digit, in_range, numeric. rewrite andb_true_iff, !N.leb_le. done. Qed.

Lemma digit_or_AZ_alphanumeric (c : N) : digit_or_AZ c = true <-> alphanumeric c.
  Proof.
    unfold digit_or_AZ, alphanumeric. rewrite orb_true_iff, upper_AZ_letter, digit_numeric.
    tauto.
  Qed.

Lemma Forall_digit (s : str) : Forall (fun c => digit c = true) s <-> Forall numeric s.
  Proof. apply Forall_proper; [intros c; apply digit_numeric|done]. Qed.

Lemma Forall_digit_or_AZ (s : str) :
    Forall (fun c => digit_or_AZ c = true) s <-> Forall alphanumeric s.
  Proof. apply Forall_proper; [intros c; apply digit_or_AZ_alphanumeric|done]. Qed.

Lemma Forall_upper_AZ (s : str) : Forall (fun c => upper_AZ c = true) s <-> Forall letter s.
  Proof. apply Forall_proper; [intros c; apply upper_AZ_letter|done]. Qed.

Lemma or_iff_both (A B C D : Prop) : (A <-> B) -> (C <-> D) -> (A \/ C <-> B \/ D).
  Proof. tauto. Qed.

  (** The language of the compiled pattern is the three formats of the
      data model. *)
Lemma lang_VAT_ID_PATTERN (s : str) : lang VAT_ID_PATTERN s <-> vat_shape s.
  Proof.
    unfold VAT_ID_PATTERN, vat_shape.
    change (lang (Alt ?a (Alt ?b ?c)) s) with (lang a s \/ lang b s \/ lang c s).
    apply or_iff_both; [|apply or_iff_both].
    - change (lang (Cat ?a ?b) s)
        with (exists s1 s2, s = s1 ++ s2 /\ lang a s1 /\ lang b s2).
      unfold eu_vat. split.
      + intros (s1 & s2 & -> & [Hl1 Ha1]%lang_rep_cls & [Hl2 Ha2]%lang_rep_cls).
        destruct s1 as [|a [|b [|? ?]]]; simpl in Hl1; try lia.
        apply Forall_upper_AZ in Ha1. apply Forall_digit_or_AZ in Ha2.
        apply Forall_cons in Ha1 as [Ha Ha1]. apply Forall_cons in Ha1 as [Hb _].
        by exists a, b, s2.
      + intros (a & b & rest & -> & Ha & Hb & Hl & Hall).
        exists [a; b], rest. repeat split.
        * apply lang_rep_cls. split; [simpl; lia|]. apply Forall_upper_AZ. apply Forall_cons_2; [done|]. apply Forall_cons_2; [done|]. apply Forall_nil_2.
        * apply lang_rep_cls. split; [done|]. by apply Forall_digit_or_AZ.
    - change (lang (Cat ?a (Cat (Chr ?c) ?b)) s)
        with (exists s1 s2, s = s1 ++ s2 /\ lang a s1 /\
                exists t1 t2, s2 = t1 ++ t2 /\ t1 = [c] /\ lang b t2).
      unfold us_ein. split.
      + intros (s1 & s2 & -> & [Hl1 Ha1]%lang_rep_cls
                & (t1 & t2 & -> & -> & [Hl2 Ha2]%lang_rep_cls)).
        exists s1, t2. apply Forall_digit in Ha1, Ha2. repeat split; [lia|done|lia|done].
      + intros (front & back & -> & Hl1 & Ha1 & Hl2 & Ha2).
        exists front, (0x2D%N :: back). repeat split.
        * apply lang_rep_cls. split; [lia|]. by apply Forall_digit.
        * exists [0x2D%N], back. repeat split. apply lang_rep_cls.
          split; [lia|]. by apply Forall_digit.
    - rewrite lang_rep_cls, Forall_digit. done.
  Qed.

  (** ** What cleaning leaves at the end of the text *)

Lemma lstrip_head (s : str) :
    lstrip s = [] \/ exists c t, lstrip s = c :: t /\ isspace c = false.
  Proof.
    induction s as [|c s IH]; simpl; [by left|].
    destruct (isspace c) eqn:Hc; [done|]. right. by exists c, s.
  Qed.

Lemma strip_last (s : str) :
    strip s = [] \/ exists t c, strip s = t ++ [c] /\ isspace c = false.
  Proof.
    unfold strip, rstrip. destruct (lstrip_head (rev (lstrip s))) as [->|(c & t & -> & Hc)].
    - by left.
    - right. by exists (rev t), c.
  Qed.

Lemma isspace_false_ascii (c : N) : isspace c = false -> c <> 0x0A%N /\ c <> 0x20%N.
  Proof. intros Hc. split; intros ->; discriminate Hc. Qed.

Section Clean.
Context (udb : unicode_db) (Hsane : upper_sane udb).

    (** Cleaned text is empty or ends in a character that is neither a
        line feed nor a space. *)
Lemma clean_last (v : str) :
      clean udb v = [] \/ exists t c, clean udb v = t ++ [c] /\ c <> 0x0A%N.
    Proof.
      unfold clean. destruct (strip_last v) as [->|(t & c & -> & Hc)]; [by left|].
      right. apply isspace_false_ascii in Hc as [Hnl Hsp].
      unfold upper. rewrite flat_map_app. simpl. rewrite app_nil_r.
      set (front := flat_map _ t).
      assert (exists y d, (if (c <? 128)%N then [ascii_upper c] else upper_ext udb c) = y ++ [d]
                          /\ d <> 0x0A%N /\ d <> 0x20%N) as (y & d & -> & Hd1 & Hd2).
      { destruct (c <? 128)%N eqn:Hlt.
        - exists [], (ascii_upper c). split; [done|]. unfold ascii_upper.
          destruct (_ && _)%N eqn:Hr; [|done].
          apply andb_true_iff in Hr as [H1%N.leb_le H2%N.leb_le]. lia.
        - apply N.ltb_ge in Hlt. destruct (Hsane c Hlt) as (Hne & Hnl' & Hsp').
          destruct (upper_ext udb c) as [|x l] using rev_ind; [done|].
          exists l, x. split; [done|]. split; intros ->.
          + apply Hnl'. apply elem_of_app. right. by apply list_elem_of_singleton.
          + apply Hsp'. apply elem_of_app. right. by apply list_elem_of_singleton. }
      exists (replace1 0x20 [] (front ++ y)), d. split; [|done].
      unfold replace1. rewrite app_assoc, flat_map_app. simpl.
      rewrite app_nil_r. destruct (d =? 0x20)%N eqn:Hd; [|done].
      apply N.eqb_eq in Hd. done.
    Qed.

    (** On cleaned text the anchored match is membership in the language:
        the line-feed allowance of [$] never applies. *)
Lemma match_clean (v : str) :
      match_anchored VAT_ID_PATTERN (clean udb v) = true <-> vat_shape (clean udb v).
    Proof.
      rewrite match_anchored_spec, lang_VAT_ID_PATTERN. split; [|by left].
      intros [H|(s' & Heq & _)]; [done|]. exfalso.
      destruct (clean_last v) as [Hnil|(t & c & Hc & Hnl)].
      - rewrite Hnil in Heq. by destruct s'.
      - rewrite Hc in Heq. apply app_inj_tail in Heq as [_ ->]. done.
    Qed.

Lemma validate_vat_id_spec (v : str) :
      (vat_shape (clean udb v) /\ validate_vat_id udb v = Ok (clean udb v))
      \/ (~ vat_shape (clean udb v)
          /\ validate_vat_id udb v = Raise (ValueError (lit vat_message))).
    Proof.
      unfold validate_vat_id. cbv zeta.
      destruct (match_anchored VAT_ID_PATTERN (clean udb v)) eqn:Hm; simpl.
      - left. split; [|done]. by apply match_clean.
      - right. split; [|done]. intros Hs%match_clean. congruence.
    Qed.

Lemma vat_id_field_spec (v w : str) :
      vat_id_field udb v = Some w <->
      length v <= 20 /\ w = clean udb v /\ vat_shape (clean udb v).
    Proof.
      unfold vat_id_field.
      destruct (length v <? 1) eqn:Hmin.
      - apply Nat.ltb_lt in Hmin. destruct v; [|simpl in Hmin; lia].
        split; [done|]. intros (_ & _ & Hs). exfalso.
        destruct (validate_vat_id_spec []) as [[_ H]|[H _]]; [|done].
        unfold validate_vat_id in H. vm_compute in H. done.
      - destruct (20 <? length v) eqn:Hmax.
        + apply Nat.ltb_lt in Hmax. split; [done|]. intros (? & _). lia.
        + apply Nat.ltb_ge in Hmax.
          destruct (validate_vat_id_spec v) as [[Hs ->]|[Hs ->]].
          * split; [intros [= <-]; done|]. by intros (_ & -> & _).
          * split; [done|]. by intros (_ & _ & ?).
    Qed.
End Clean.
End VatFacts.

Section VatClaim.
Import Py Re Models Spec Examples.

(** C8.  After its normalisation (strip, upper-case, spaces removed) the
    VAT ID validator accepts exactly the texts of one of the three formats
    -- two-letter country code followed by 2-13 alphanumerics, NN-NNNNNNN,
    9-12 digits -- and returns the normalised text; every other input is a
    validation error, never a coerced value.  It accepts DE123456789,
    ATU12345678, 12-3456789 and 123456789012, and the field rejects abc,
    the empty string and every string longer than 20 characters. *)
Theorem C8_vat_id_validator (udb : unicode_db) (Hsane : upper_sane udb) :
  (forall v,
      (vat_shape (clean udb v) /\ validate_vat_id udb v = Ok (clean udb v))
      \/ (~ vat_shape (clean udb v) /\ exists msg, validate_vat_id udb v = Raise (ValueError msg)))
  /\ (forall v w, vat_id_field udb v = Some w <->
                  length v <= 20 /\ w = clean udb v /\ vat_shape (clean udb v))
  /\ vat_id_field udb (lit "DE123456789") = Some (lit "DE123456789")
  /\ vat_id_field udb (lit "ATU12345678") = Some (lit "ATU12345678")
  /\ vat_id_field udb (lit "12-3456789") = Some (lit "12-3456789")
  /\ vat_id_field udb (lit "123456789012") = Some (lit "123456789012")
  /\ vat_id_field udb (lit "abc") = None
  /\ vat_id_field udb (lit "") = None
  /\ (forall v, 20 < length v -> vat_id_field udb v = None).
Proof.
  split; [|split].
  - intros v. destruct (validate_vat_id_spec udb Hsane v) as [?|[? ?]]; [by left|].
    right. split; [done|]. by eexists.
  - apply vat_id_field_spec, Hsane.
  - repeat split; try reflexivity.
    intros v Hv. unfold vat_id_field.
    destruct (length v <? 1); [done|].
    apply Nat.ltb_lt in Hv. by rewrite Hv.
Qed.

Lemma C8_vat_id_validator_witness :
  upper_sane ascii_only_db
  /\ vat_id_field ascii_only_db (lit " de 123 456 789") = Some (lit "DE123456789").
Proof.
  assert (upper_sane ascii_only_db) as Hsane.
  { intros c Hc. simpl. split; [done|].
    split; intros H%list_elem_of_singleton; lia. }
  split; [exact Hsane|].
  apply (proj1 (proj2 (C8_vat_id_validator ascii_only_db Hsane))).
  split; [vm_compute; lia|]. split; [reflexivity|].
  left. exists 0x44%N, 0x45%N, (lit "123456789").
  split; [reflexivity|]. split; [unfold letter; lia|]. split; [unfold letter; lia|].
  split; [simpl; lia|].
  let digits := eval vm_compute in (lit "123456789") in change (lit "123456789") with digits.
  repeat (apply Forall_cons_2; [right; unfold numeric; lia|]). apply Forall_nil_2.
Defined.
End VatClaim.

(* ===================================================================== *)
(** * Proofs: the merge engine                                            *)
(* ===================================================================== *)

Section MergeFacts.
Import Py Ai Spec.
Context (udb : unicode_db).

  (** A loop that assigns [f field] to every field of a set builds the map
      that holds [f] on the set. *)
Lemma assign_all_lookup (f : string -> value) (fields : gset string) (k : string) :
    set_fold (fun field (merged : dict) => <[field := f field]> merged) ∅ fields !! k
    = if decide (k ∈ fields) then Some (f k) else None.
  Proof.
    pose (P := fun (merged : dict) (X : gset string) =>
                 merged !! k = if decide (k ∈ X) then Some (f k) else None).
    change (P (set_fold (fun field (merged : dict) => <[field := f field]> merged) ∅ fields)
              fields).
    apply set_fold_ind_L; unfold P.
    - rewrite lookup_empty. by rewrite decide_False by set_solver.
    - intros field X merged Hnew IH.
      destruct (decide (field = k)) as [->|Hne].
      + rewrite lookup_insert_eq. by rewrite decide_True by set_solver.
      + rewrite lookup_insert_ne by done. rewrite IH.
        destruct (decide (k ∈ X)).
        * by rewrite decide_True by set_solver.
        * by rewrite decide_False by set_solver.
  Qed.

  (** The merge loop assigns every key of either record once. *)
Lemma merge_results_lookup (A B : dict) (k : string) :
    merge_results udb A B !! k =
      if decide (k ∈ dom A ∪ dom B)
      then Some (merge_field udb k (get A k (PStr [])) (get B k (PStr [])))
      else None.
  Proof.
    unfold merge_results. cbv zeta.
    apply (assign_all_lookup
             (fun field => merge_field udb field (get A field (PStr []))
                                       (get B field (PStr [])))).
  Qed.

Lemma merge_results_dom (A B : dict) : dom (merge_results udb A B) = dom A ∪ dom B.
  Proof.
    apply set_eq. intros k. rewrite elem_of_dom, merge_results_lookup.
    destruct (decide (k ∈ dom A ∪ dom B)); split; done.
  Qed.

  (** The code's string form of a value is the trimmed string form. *)
Lemma str_or_empty_trimmed (v : value) : str_or_empty udb v = trimmed udb v.
  Proof.
    destruct v; try reflexivity.
    unfold str_or_empty, trimmed. simpl. case_bool_decide as Hs; [|done]. by subst.
  Qed.

Lemma truthy_PStr (s : str) : truthy (PStr s) = true <-> s <> [].
  Proof. simpl. rewrite negb_true_iff, bool_decide_eq_false. done. Qed.

Lemma truthy_PStr_false (s : str) : truthy (PStr s) = false <-> s = [].
  Proof. simpl. rewrite negb_false_iff, bool_decide_eq_true. done. Qed.

  (** The list the code compares for [order_lines] is [lines_of]. *)
Lemma merge_field_order_lines (A B : dict) :
    merge_field udb "order_lines" (get A "order_lines" (PStr [])) (get B "order_lines" (PStr []))
    = PList (if bool_decide (length (lines_of B) <= length (lines_of A))
             then lines_of A else lines_of B).
  Proof.
    unfold merge_field. rewrite bool_decide_eq_true_2 by done.
    unfold get, lines_of.
    destruct (A !! "order_lines") as [[| | | | |la|]|]; simpl;
      destruct (B !! "order_lines") as [[| | | | |lb|]|]; simpl;
      try rewrite (bool_decide_eq_true_2 (0 <= _)) by lia; try done;
      by case_bool_decide.
  Qed.
End MergeFacts.

Section MergeClaims.
Import Py Ai Spec Examples.

(** C2.  In the merged record [order_lines] is the structural candidate's
    list of line items whenever that list is at least as long as the OCR
    candidate's, and the OCR candidate's list otherwise; equal counts give
    the structural candidate's list. *)
Theorem C2_order_lines_by_count (udb : unicode_db) (A B : dict) :
  let merged := merge_results udb A B in
  (length (lines_of B) <= length (lines_of A) -> lines_of merged = lines_of A)
  /\ (length (lines_of A) < length (lines_of B) -> lines_of merged = lines_of B)
  /\ (length (lines_of A) = length (lines_of B) -> lines_of merged = lines_of A)
  /\ ("order_lines" ∈ dom A ∪ dom B ->
      merged !! "order_lines" = Some (PList (lines_of merged))).
Proof.
  intros merged.
  assert (lines_of merged =
          if bool_decide (length (lines_of B) <= length (lines_of A))
          then lines_of A else lines_of B) as Hlines.
  { unfold lines_of at 1. subst merged. rewrite merge_results_lookup.
    destruct (decide ("order_lines" ∈ dom A ∪ dom B)) as [Hin|Hout].
    - by rewrite merge_field_order_lines.
    - apply not_elem_of_union in Hout as [HA%not_elem_of_dom HB%not_elem_of_dom].
      unfold lines_of. rewrite HA, HB. by case_bool_decide. }
  repeat split.
  - intros Hle. by rewrite Hlines, bool_decide_eq_true_2.
  - intros Hlt. rewrite Hlines, bool_decide_eq_false_2; [done|lia].
  - intros Heq. rewrite Hlines, bool_decide_eq_true_2; [done|lia].
  - intros Hin. rewrite Hlines. subst merged.
    rewrite merge_results_lookup, decide_True by done.
    by rewrite merge_field_order_lines.
Qed.

(** C3.  For [vendor_name] and [department] the merged record takes the
    OCR candidate's value whenever its trimmed string form is not empty,
    whatever the lengths of the two values, and the structural
    candidate's value only when the OCR value is empty after trimming. *)
Theorem C3_vendor_department_prefer_ocr (udb : unicode_db) (A B : dict) (field : string)
    (Hfield : field = "vendor_name" \/ field = "department")
    (Hin : field ∈ dom A ∪ dom B) :
  let pypdf_val := get A field (PStr []) in
  let ocr_val := get B field (PStr []) in
  (trimmed udb ocr_val <> [] -> merge_results udb A B !! field = Some ocr_val)
  /\ (trimmed udb ocr_val = [] -> merge_results udb A B !! field = Some pypdf_val).
Proof.
  intros pypdf_val ocr_val.
  rewrite merge_results_lookup, decide_True by done.
  fold pypdf_val ocr_val. unfold merge_field.
  assert (bool_decide (field = "order_lines") = false) as ->.
  { apply bool_decide_eq_false. by destruct Hfield as [-> | ->]. }
  assert (bool_decide (field = "vendor_name") || bool_decide (field = "department") = true)
    as ->.
  { destruct Hfield as [-> | ->]; by vm_compute. }
  cbv zeta. rewrite str_or_empty_trimmed. split; intros Hocr.
  - by rewrite (proj2 (truthy_PStr _) Hocr).
  - by rewrite (proj2 (truthy_PStr_false _) Hocr).
Qed.

Lemma C3_vendor_department_prefer_ocr_witness :
  merge_results ascii_only_db (example_A PNone PNone) (example_B PNone) !! "vendor_name"
  = Some (PStr (lit "Foo GmbH")).
Proof.
  refine (proj1 (C3_vendor_department_prefer_ocr ascii_only_db
                   (example_A PNone PNone) (example_B PNone) "vendor_name" _ _) _).
  - by left.
  - apply elem_of_union. left. apply elem_of_dom. vm_compute. by eexists.
  - vm_compute. discriminate.
Defined.


End MergeClaims.

(* ===================================================================== *)
(** * Proofs: the upload endpoint                                         *)
(* ===================================================================== *)

Section MonadFacts.
Import Py Ai.
Context {A B : Type}.

Lemma bind_ok (c : M A) (f : A -> M B) (a : A) :
    outcome c = Ok a -> bind c f = (outcome (f a), trace c ++ trace (f a)).
  Proof.
    destruct c as [[a'|e] t]; simpl; intros [= ->].
    by destruct (f a) as [r t'].
  Qed.

Lemma bind_raise (c : M A) (f : A -> M B) (e : exn) :
    outcome c = Raise e -> bind c f = (Raise e, trace c).
  Proof. destruct c as [[a'|e'] t]; simpl; intros [= ->]. done. Qed.

Lemma M_eta (c : M A) : c = (outcome c, trace c).
  Proof. by destruct c. Qed.
End MonadFacts.

Section EndpointFacts.
Import Py Ai Spec Props.
Context (udb : unicode_db) (w : world).

  (** ** The two text extractors call out once and log nothing *)

Lemma pypdf_loop_trace pages acc : trace (pypdf_loop pages acc) = [].
  Proof.
    revert acc. induction pages as [|[t|e] pages IH]; intros acc; simpl; [done| |done].
    specialize (IH (acc ++ or_empty t)). unfold trace in IH.
    destruct (pypdf_loop pages (acc ++ or_empty t)). simpl in *. done.
  Qed.

Lemma structural_text_trace content :
    trace (structural_text w content) = [CallPdfReader content].
  Proof.
    unfold structural_text. simpl. destruct (pdf_pages w content) as [pages|e]; simpl; [|done].
    pose proof (pypdf_loop_trace pages []) as H. unfold trace in H.
    destruct (pypdf_loop pages []). simpl in *. by subst.
  Qed.

Lemma ocr_loop_trace pages acc : trace (ocr_loop pages acc) = [].
  Proof.
    revert acc. induction pages as [|[t|e] pages IH]; intros acc; simpl; [done| |done].
    specialize (IH (acc ++ [t])). unfold trace in IH.
    destruct (ocr_loop pages (acc ++ [t])). simpl in *. done.
  Qed.

Lemma extract_text_with_ocr_trace content :
    trace (extract_text_with_ocr w content) = [CallOcr content].
  Proof.
    unfold extract_text_with_ocr. simpl.
    destruct (ocr_pages w content) as [pages|e]; simpl; [|done].
    pose proof (ocr_loop_trace pages []) as H. unfold trace in H.
    destruct (ocr_loop pages []) as [[texts|e] t]; simpl in *; by subst.
  Qed.

  (** ** Step 2: the structural candidate *)

Lemma pypdf_extraction_spec text :
    exists o,
      outcome (pypdf_extraction udb w text) = Ok o
      /\ candidate_A w text = (if opt_truthy o then o else None)
      /\ (forall r, o = Some r -> chain_invoke w OnStructural text = Ok r)
      /\ (forall c, CallOcr c ∉ trace (pypdf_extraction udb w text)).
  Proof.
    unfold pypdf_extraction, candidate_A. simpl truthy.
    case_bool_decide as Hblank; simpl.
    - exists None. repeat split; [done|]. intros c Hc. by apply elem_of_nil in Hc.
    - unfold extract_document. simpl.
      destruct (chain_invoke w OnStructural text) as [r|e]; simpl.
      + exists (Some r). simpl. unfold dict_truthy. split; [done|]. split.
        { by case_bool_decide. }
        split; [by intros ? [= ->]|]. intros c Hc. set_solver.
      + exists None. simpl. repeat split; [done|]. intros c Hc. set_solver.
  Qed.

  (** ** Step 3: the quality gate *)

Lemma passes_gate_nonempty (r : dict) : passes_gate udb r -> r <> ∅.
  Proof.
    intros (Hvat & _) ->. apply Hvat. unfold stripped, get. by rewrite lookup_empty.
  Qed.

  (** A field with text in the words of the completeness check has text as
      the gate reads it; the converse fails for a value that counts as
      false and is no string, null among them. *)
Lemma field_text_stripped (r : dict) (k : string) :
    field_text udb r k <> [] -> stripped udb r k <> [].
  Proof.
    unfold field_text, stripped, get, trimmed. destruct (r !! k) as [v|]; [|done].
    destruct v; simpl; try done;
      match goal with |- (if ?c then _ else _) <> _ -> _ => by destruct c end.
  Qed.

Lemma complete_passes_gate (r : dict) : complete udb r -> passes_gate udb r.
  Proof.
    intros (H1 & H2 & H3 & H4 & H5). repeat split; try done; by apply field_text_stripped.
  Qed.

  (** One test of the gate: the field is blank and the gate asks for OCR,
      or it is not and the next test runs. *)
Ltac gate_says_ocr :=
    exists true; repeat split;
    [done
    |intros (r' & [= <-] & Hc); unfold passes_gate in Hc; tauto
    |intros c Hc; set_solver].

Ltac gate_field udb r k :=
    let Hf := fresh "Hf" in
    destruct (decide (stripped udb r k = [])) as [Hf|Hf];
    [rewrite (bool_decide_eq_true_2 _ Hf); simpl; gate_says_ocr
    |rewrite (bool_decide_eq_false_2 _ Hf); simpl].

Lemma quality_gate_spec (o : option dict) :
    (forall r, o = Some r -> lines_wellformed r) ->
    exists b,
      outcome (quality_gate udb o) = Ok b
      /\ (b = false <-> exists r, o = Some r /\ passes_gate udb r)
      /\ (forall c, CallOcr c ∉ trace (quality_gate udb o)).
  Proof.
    intros Hwf. destruct o as [r|]; simpl.
    2:{ exists true. repeat split; [done|by intros (? & ? & _)|]. intros c Hc. set_solver. }
    specialize (Hwf r eq_refl).
    unfold dict_truthy. case_bool_decide as Hempty; simpl.
    { exists true. repeat split; [done| |].
      - intros (r' & [= <-] & Hc). by apply passes_gate_nonempty in Hc.
      - intros c Hc. set_solver. }
    gate_field udb r "vat_id". gate_field udb r "vendor_name".
    gate_field udb r "department". gate_field udb r "title".
    unfold lines_wellformed in Hwf. unfold get.
    destruct (r !! "order_lines") as [[| | | | |l|]|] eqn:Hlines; simpl in *; try done.
    - exists true. repeat split; [done| |intros c Hc; set_solver].
      intros (r' & [= <-] & (_ & _ & _ & _ & Hl)). unfold lines_of in Hl.
      by rewrite Hlines in Hl.
    - destruct l as [|x l]; simpl.
      + exists true. repeat split; [done| |intros c Hc; set_solver].
        intros (r' & [= <-] & (_ & _ & _ & _ & Hl)). unfold lines_of in Hl.
        by rewrite Hlines in Hl.
      + exists false. repeat split; [|intros c Hc; set_solver].
        intros _. exists r. unfold passes_gate, lines_of. rewrite Hlines. done.
    - exists true. repeat split; [done| |intros c Hc; set_solver].
      intros (r' & [= <-] & (_ & _ & _ & _ & Hl)). unfold lines_of in Hl.
      by rewrite Hlines in Hl.
  Qed.

  (** ** Step 4: the OCR candidate *)

  (** Finds an event in an explicit trace. *)
Ltac find_event := repeat first [apply list_elem_of_here | apply list_elem_of_further].

Lemma ocr_extraction_skipped content o :
    ocr_extraction udb w content o false = (Ok None, []).
  Proof. done. Qed.

Lemma ocr_extraction_calls content o :
    CallOcr content ∈ trace (ocr_extraction udb w content o true).
  Proof.
    unfold ocr_extraction. simpl.
    rewrite (M_eta (extract_text_with_ocr w content)), extract_text_with_ocr_trace.
    destruct (outcome (extract_text_with_ocr w content)) as [text|e]; simpl.
    - unfold extract_document. simpl.
      destruct (chain_invoke w OnOcr text) as [r|e]; simpl.
      + find_event.
      + destruct (negb (opt_truthy o)); simpl; find_event.
    - destruct (negb (opt_truthy o)); simpl; find_event.
  Qed.

Lemma ocr_extraction_ok content o ocr_text r :
    outcome (extract_text_with_ocr w content) = Ok ocr_text ->
    chain_invoke w OnOcr ocr_text = Ok r ->
    outcome (ocr_extraction udb w content o true) = Ok (Some r).
  Proof.
    intros Htext Hr. unfold ocr_extraction. simpl.
    rewrite (M_eta (extract_text_with_ocr w content)), Htext. simpl.
    unfold extract_document. simpl. by rewrite Hr.
  Qed.

Lemma ocr_extraction_fails content o :
    ocr_stage_fails w content ->
    outcome (ocr_extraction udb w content o true)
    = (if opt_truthy o then Ok None
       else Raise (HTTPException 400
                     (lit "Could not extract text from PDF. PyPDF2 and OCR both failed.")))
    /\ exists msg, Log ERROR msg ∈ trace (ocr_extraction udb w content o true).
  Proof.
    unfold ocr_stage_fails, ocr_extraction. simpl.
    rewrite (M_eta (extract_text_with_ocr w content)), extract_text_with_ocr_trace.
    destruct (outcome (extract_text_with_ocr w content)) as [text|e]; simpl.
    - unfold extract_document. simpl.
      destruct (chain_invoke w OnOcr text) as [r|e]; simpl; [done|]. intros _.
      destruct (opt_truthy o); simpl; (split; [done|]); eexists; find_event.
    - intros _. destruct (opt_truthy o); simpl; (split; [done|]); eexists; find_event.
  Qed.

  (** ** Step 5: one result is returned as it is, two are merged *)

Lemma select_or_merge_none o1 o2 :
    opt_truthy o1 = false -> opt_truthy o2 = false ->
    outcome (select_or_merge udb o1 o2)
    = Raise (HTTPException 400 (lit "Could not extract data from PDF")).
  Proof. intros H1 H2. unfold select_or_merge. by rewrite H1, H2. Qed.

Lemma select_or_merge_left r o2 :
    r <> ∅ -> opt_truthy o2 = false ->
    select_or_merge udb (Some r) o2 = (Ok r, []).
  Proof.
    intros H1 H2. unfold select_or_merge. rewrite H2. simpl. unfold dict_truthy.
    by rewrite bool_decide_eq_false_2.
  Qed.

Lemma select_or_merge_right o1 r :
    opt_truthy o1 = false -> r <> ∅ ->
    select_or_merge udb o1 (Some r) = (Ok r, []).
  Proof.
    intros H1 H2. unfold select_or_merge. rewrite H1. simpl. unfold dict_truthy.
    by rewrite bool_decide_eq_false_2.
  Qed.

Lemma select_or_merge_both r1 r2 :
    r1 <> ∅ -> r2 <> ∅ ->
    outcome (select_or_merge udb (Some r1) (Some r2)) = Ok (merge_results udb r1 r2).
  Proof.
    intros H1 H2. unfold select_or_merge. simpl. unfold dict_truthy.
    by rewrite !bool_decide_eq_false_2.
  Qed.

Lemma select_or_merge_no_ocr o1 o2 c : CallOcr c ∉ trace (select_or_merge udb o1 o2).
  Proof.
    unfold select_or_merge.
    destruct (opt_truthy o1), (opt_truthy o2); simpl; set_solver.
  Qed.

  (** ** The endpoint as the sequence of its steps *)

Lemma accepted_passes name content :
    accepted udb name content ->
    extract_document_endpoint udb w name content
    = bind (structural_text w content) (fun pypdf_text =>
        bind (info (lit "PyPDF2 extracted " ++ str_of_nat (length pypdf_text)
                    ++ lit " characters")) (fun _ =>
        bind (pypdf_extraction udb w pypdf_text) (fun pypdf_result =>
        bind (quality_gate udb pypdf_result) (fun needs_ocr =>
        bind (ocr_extraction udb w content pypdf_result needs_ocr) (fun ocr_result =>
        select_or_merge udb pypdf_result ocr_result))))).
  Proof.
    intros (f & -> & Hf & Hpdf & Hsize). unfold extract_document_endpoint.
    rewrite (proj2 (truthy_PStr f) Hf). unfold endswith.
    rewrite (bool_decide_eq_true_2 _ Hpdf). simpl negb. simpl orb. cbv iota.
    unfold MAX_PDF_SIZE_BYTES.
    by rewrite (proj2 (N.ltb_ge _ _) Hsize).
  Qed.

  (** With the file accepted and the structural text read, what is left is
      the OCR step and the choice of the result. *)
Lemma endpoint_steps name content text o b :
    accepted udb name content ->
    outcome (structural_text w content) = Ok text ->
    outcome (pypdf_extraction udb w text) = Ok o ->
    outcome (quality_gate udb o) = Ok b ->
    let rest := bind (ocr_extraction udb w content o b) (select_or_merge udb o) in
    outcome (extract_document_endpoint udb w name content) = outcome rest
    /\ trace (extract_document_endpoint udb w name content)
       = [CallPdfReader content;
          Log INFO (lit "PyPDF2 extracted " ++ str_of_nat (length text) ++ lit " characters")]
         ++ trace (pypdf_extraction udb w text) ++ trace (quality_gate udb o) ++ trace rest.
  Proof.
    intros Hacc Htext Ho Hb rest. rewrite (accepted_passes _ _ Hacc).
    rewrite (bind_ok _ _ _ Htext), structural_text_trace.
    rewrite (bind_ok (info _) _ tt eq_refl).
    rewrite (bind_ok _ _ _ Ho), (bind_ok _ _ _ Hb). simpl. done.
  Qed.
End EndpointFacts.

Section EndpointClaims.
Import Py Ai Spec Props Examples.

Lemma trace_bind_incl {A B} (c : M A) (f : A -> M B) (e : event) :
    e ∈ trace c -> e ∈ trace (bind c f).
  Proof.
    destruct c as [[a|x] t]; simpl; [|done].
    destruct (f a) as [r t']. simpl. intros He. apply elem_of_app. by left.
  Qed.

  (** The structural candidate, the gate's verdict and the run of the
      endpoint, put together. *)
Lemma endpoint_analysis udb w name content text :
    accepted udb name content ->
    outcome (structural_text w content) = Ok text ->
    (forall r, chain_invoke w OnStructural text = Ok r -> lines_wellformed r) ->
    exists o b,
      candidate_A w text = (if opt_truthy o then o else None)
      /\ (b = false <-> exists r, o = Some r /\ passes_gate udb r)
      /\ outcome (extract_document_endpoint udb w name content)
         = outcome (bind (ocr_extraction udb w content o b) (select_or_merge udb o))
      /\ (forall e, e ∈ trace (bind (ocr_extraction udb w content o b) (select_or_merge udb o))
                    -> e ∈ trace (extract_document_endpoint udb w name content))
      /\ (forall c, CallOcr c ∈ trace (extract_document_endpoint udb w name content) ->
                    CallOcr c ∈ trace (bind (ocr_extraction udb w content o b)
                                            (select_or_merge udb o))).
  Proof.
    intros Hacc Htext Hwf.
    destruct (pypdf_extraction_spec udb w text) as (o & Ho & Hcand & Hchain & Hquiet2).
    destruct (quality_gate_spec udb o) as (b & Hb & Hgate & Hquiet3).
    { intros r ->. by apply Hwf, Hchain. }
    destruct (endpoint_steps udb w name content text o b Hacc Htext Ho Hb) as [Hout Htr].
    exists o, b. repeat split; try done; try apply Hgate.
    - intros e He. rewrite Htr. rewrite !elem_of_app. auto.
    - intros c. rewrite Htr. rewrite !elem_of_app, !elem_of_cons, elem_of_nil.
      intros [[?|[?|[]]]|[?|[?|?]]]; try done.
      + by destruct (Hquiet2 c).
      + by destruct (Hquiet3 c).
  Qed.

End EndpointClaims.

Section EndpointFailures.
Import Py Ai Spec Props Examples MoreExamples.

Lemma accepted_upload : accepted ascii_only_db upload_name upload_content.
  Proof.
    exists (lit "Offer.PDF"). split; [done|]. split; [done|].
    split; [by exists (lit "offer")|]. vm_compute. discriminate.
  Defined.

(** C1.  The upload of a digital PDF for which the field extractor returns
    a structural candidate with every field but the VAT ID, null in its
    place.  The candidate fails the five-field completeness check (its
    vat_id is missing: empty after trimming), so the OCR path is to run.
    The endpoint does not run it: lines 118-124 test str(value).strip(),
    which for null is the text None, the gate lets the candidate through,
    the OCR extractor is never called and the candidate is returned with
    its null VAT ID.  The merge on lines 192-199 reads the same value as
    empty, by its guard [if v else '']. *)
Theorem C1_null_vat_id_skips_ocr :
  let run := extract_document_endpoint ascii_only_db null_vat_world upload_name upload_content in
  accepted ascii_only_db upload_name upload_content
  /\ outcome (structural_text null_vat_world upload_content) = Ok offer_text
  /\ candidate_A null_vat_world offer_text = Some record_with_null_vat
  /\ record_with_null_vat !! "vat_id" = Some PNone
  /\ field_text ascii_only_db record_with_null_vat "vat_id" = []
  /\ ~ complete ascii_only_db record_with_null_vat
  /\ stripped ascii_only_db record_with_null_vat "vat_id" = lit "None"
  /\ str_or_empty ascii_only_db PNone = []
  /\ (forall c, CallOcr c ∉ trace run)
  /\ outcome run = Ok record_with_null_vat.
Proof.
  intros run.
  split; [exact accepted_upload|]. split; [reflexivity|]. split; [reflexivity|].
  split; [reflexivity|]. split; [reflexivity|].
  split; [intros (Hvat & _); by apply Hvat|].
  split; [reflexivity|]. split; [reflexivity|].
  split; [|reflexivity].
  intros c Hc. subst run. vm_compute in Hc.
  repeat (apply elem_of_cons in Hc as [Hc|Hc]; [discriminate Hc|]).
  by apply elem_of_nil in Hc.
Qed.

Lemma quality_gate_falsy udb (o : option dict) :
    opt_truthy o = false -> outcome (quality_gate udb o) = Ok true.
  Proof.
    destruct o as [r|]; simpl; [|done]. intros ->. done.
  Qed.

Lemma candidate_A_none udb w text o :
    outcome (pypdf_extraction udb w text) = Ok o ->
    candidate_A w text = (if opt_truthy o then o else None) ->
    candidate_A w text = None -> opt_truthy o = false.
  Proof.
    intros _ Hcand Hnone. rewrite Hnone in Hcand.
    destruct (opt_truthy o) eqn:Ht; [|done]. subst o. done.
  Qed.

Lemma candidate_A_some w text o r :
    candidate_A w text = (if opt_truthy o then o else None) ->
    candidate_A w text = Some r -> o = Some r /\ r <> ∅.
  Proof.
    intros Hcand Hr. rewrite Hcand in Hr. destruct o as [r'|]; simpl in *; [|done].
    unfold dict_truthy in Hr. case_bool_decide; simpl in Hr; [done|]. by simplify_eq.
  Qed.

(** C10.  The completeness check is applied to the structural candidate
    only: when the structural path yields no candidate and the OCR path
    yields a candidate B, the endpoint returns B exactly as produced,
    whatever B holds in vat_id, vendor_name, department, title and
    order_lines. *)
Theorem C10_ocr_candidate_unchecked
    (udb : unicode_db) (w : world) (name : option str) (content : bytes) (text : str)
    (B : dict)
    (Hacc : accepted udb name content)
    (Htext : outcome (structural_text w content) = Ok text)
    (HnoA : candidate_A w text = None)
    (HB : candidate_B w content = Some B) :
  outcome (extract_document_endpoint udb w name content) = Ok B.
Proof.
  destruct (pypdf_extraction_spec udb w text) as (o & Ho & Hcand & _ & _).
  pose proof (candidate_A_none udb w text o Ho Hcand HnoA) as Hfalsy.
  pose proof (quality_gate_falsy udb o Hfalsy) as Hb.
  destruct (endpoint_steps udb w name content text o true Hacc Htext Ho Hb) as [-> _].
  unfold candidate_B in HB.
  destruct (outcome (extract_text_with_ocr w content)) as [ocr_text|e] eqn:Hocr; [|done].
  destruct (chain_invoke w OnOcr ocr_text) as [r|e] eqn:Hr; [|done].
  case_bool_decide as Hne; [done|]. simplify_eq.
  rewrite (bind_ok _ _ _ (ocr_extraction_ok udb w content o ocr_text B Hocr Hr)).
  simpl. by rewrite (select_or_merge_right udb o B Hfalsy Hne).
Qed.

Lemma C10_ocr_candidate_unchecked_witness :
  field_text ascii_only_db record_without_vat "vat_id" = []
  /\ outcome (extract_document_endpoint ascii_only_db scan_world upload_name upload_content)
     = Ok record_without_vat.
Proof.
  split; [reflexivity|].
  apply (C10_ocr_candidate_unchecked ascii_only_db scan_world upload_name upload_content
           (lit "  ") record_without_vat accepted_upload); reflexivity.
Defined.

(** C6.  When the OCR stage raises: with no structural candidate the
    endpoint fails with a client-facing error (status 400, not a server
    error); with a structural candidate A the request does not fail, A is
    returned alone, and the error of the OCR stage that ran is logged. *)
Theorem C6_ocr_failure
    (udb : unicode_db) (w : world) (name : option str) (content : bytes) (text : str)
    (Hacc : accepted udb name content)
    (Htext : outcome (structural_text w content) = Ok text)
    (Hwf : forall r, chain_invoke w OnStructural text = Ok r -> lines_wellformed r)
    (Hfail : ocr_stage_fails w content) :
  let run := extract_document_endpoint udb w name content in
  (candidate_A w text = None ->
     client_error (outcome run) /\ exists msg, Log ERROR msg ∈ trace run)
  /\ (forall r, candidate_A w text = Some r ->
        outcome run = Ok r
        /\ (CallOcr content ∈ trace run -> exists msg, Log ERROR msg ∈ trace run)).
Proof.
  intros run. subst run.
  destruct (endpoint_analysis udb w name content text Hacc Htext Hwf)
    as (o & b & Hcand & Hgate & Hout & Hin & Hocr).
  destruct (ocr_extraction_fails udb w content o Hfail) as [Hres (msg & Hlog)].
  split.
  - intros HnoA. rewrite HnoA in Hcand.
    assert (opt_truthy o = false) as Hfalsy.
    { destruct (opt_truthy o) eqn:Ht; [|done]. subst o. done. }
    assert (b = true) as ->.
    { destruct b; [done|]. destruct (proj1 Hgate eq_refl) as (r & -> & Hc).
      apply passes_gate_nonempty in Hc. simpl in Hfalsy. unfold dict_truthy in Hfalsy.
      by rewrite bool_decide_eq_false_2 in Hfalsy. }
    rewrite Hfalsy in Hres. split.
    + rewrite Hout, (bind_raise _ _ _ Hres). simpl.
      eexists _, _. split; [done|]. lia.
    + exists msg. by apply Hin, trace_bind_incl.
  - intros r HcA. destruct (candidate_A_some w text o r Hcand HcA) as [-> Ht].
    assert (opt_truthy (Some r) = true) as Htruthy.
    { simpl. unfold dict_truthy. by rewrite bool_decide_eq_false_2. }
    rewrite Htruthy in Hres.
    destruct b.
    + split.
      * rewrite Hout, (bind_ok _ _ _ Hres). simpl.
        by rewrite (select_or_merge_left udb r None Ht eq_refl).
      * intros _. exists msg. by apply Hin, trace_bind_incl.
    + rewrite ocr_extraction_skipped in Hout, Hocr. simpl in Hout, Hocr.
      rewrite (select_or_merge_left udb r None Ht eq_refl) in Hout, Hocr.
      split; [done|]. intros Hcall%Hocr. simpl in Hcall. by apply elem_of_nil in Hcall.
Qed.

Lemma C6_ocr_failure_witness :
  outcome (extract_document_endpoint ascii_only_db ocr_down_world upload_name upload_content)
  = Ok record_without_vat
  /\ client_error
       (outcome (extract_document_endpoint ascii_only_db unreadable_world
                   upload_name upload_content)).
Proof.
  split.
  - refine (proj1 (proj2 (C6_ocr_failure ascii_only_db ocr_down_world upload_name
                            upload_content offer_text accepted_upload eq_refl _ _)
                         record_without_vat _)).
    + intros r [= <-]. vm_compute. exact I.
    + exact I.
    + vm_compute. reflexivity.
  - refine (proj1 (proj1 (C6_ocr_failure ascii_only_db unreadable_world upload_name
                            upload_content [] accepted_upload eq_refl _ _) _)).
    + intros r [= <-]. vm_compute. exact I.
    + exact I.
    + reflexivity.
Defined.

(** C5.  A page without readable text adds the empty string to the
    structural text; but a page on which page.extract_text() raises is not
    skipped: the exception leaves the endpoint, no OCR is tried and the
    request fails with a server error, although the first page had the text
    and OCR could read the document. *)
Theorem C5_unreadable_page_fails_request :
  (forall rest acc, pypdf_loop (Ok None :: rest) acc = pypdf_loop rest acc)
  /\ (forall rest acc, pypdf_loop (Ok (Some []) :: rest) acc = pypdf_loop rest acc)
  /\ extract_document_endpoint ascii_only_db bad_page_world upload_name upload_content
     = (Raise (LibraryError (lit "malformed content stream")), [CallPdfReader upload_content])
  /\ outcome (extract_document_endpoint ascii_only_db
                {| pdf_pages := fun _ => Ok [Ok (Some offer_text)];
                   ocr_pages := ocr_pages bad_page_world;
                   chain_invoke := chain_invoke bad_page_world |}
                upload_name upload_content)
     = Ok complete_record.
Proof.
  split; [|split; [|split]].
  - intros rest acc. simpl. rewrite app_nil_r.
    by destruct (pypdf_loop rest acc).
  - intros rest acc. simpl. rewrite app_nil_r.
    by destruct (pypdf_loop rest acc).
  - reflexivity.
  - reflexivity.
Qed.
End EndpointFailures.

(* ===================================================================== *)
(** * Proofs: the request store and the document cache                    *)
(* ===================================================================== *)

Section StoreFacts.
Import Py Database App Spec.

  (** ** Request ids are told apart by their number *)

Lemma zeros_parse (k : nat) (s : text) (u : Decimal.uint) :
    NilEmpty.uint_of_string s = Some u ->
    exists u', NilEmpty.uint_of_string (zeros k +:+ s) = Some u'
               /\ N.of_uint u' = N.of_uint u.
  Proof.
    intros Hs. induction k as [|k (u' & Hu' & Heq)]; simpl.
    - by exists u.
    - exists (Decimal.D0 u'). split; [|exact Heq].
      change (String.append (zeros k) s) with (zeros k +:+ s). by rewrite Hu'.
  Qed.

Lemma format_request_id_inj (k1 k2 : N) :
    format_request_id k1 = format_request_id k2 -> k1 = k2.
  Proof.
    unfold format_request_id. intros Heq. simpl in Heq.
    assert (pad4 (decimal k1) = pad4 (decimal k2)) as Hpad by (by simplify_eq).
    unfold pad4, decimal in Hpad.
    destruct (zeros_parse (4 - String.length (NilEmpty.string_of_uint (N.to_uint k1)))
                _ _ (NilEmpty.usu (N.to_uint k1))) as (u1 & Hu1 & Hn1).
    destruct (zeros_parse (4 - String.length (NilEmpty.string_of_uint (N.to_uint k2)))
                _ _ (NilEmpty.usu (N.to_uint k2))) as (u2 & Hu2 & Hn2).
    rewrite Hpad, Hu2 in Hu1. simplify_eq.
    rewrite !DecimalN.Unsigned.of_to in *. congruence.
  Qed.

  (** In a state whose ids are REQ-0001 .. REQ-000n the next id is new. *)
Lemma next_request_id_fresh (d : db) :
    store_inv d -> get_next_request_id d ∉ req_id <$> procurement_requests d.
  Proof.
    intros Hinv. rewrite (inv_ids d Hinv). unfold get_next_request_id.
    intros (k & Heq & Hk)%list_elem_of_fmap.
    apply format_request_id_inj in Heq. apply elem_of_seq in Hk. lia.
  Qed.

Lemma ids_NoDup (d : db) : store_inv d -> NoDup (req_id <$> procurement_requests d).
  Proof.
    intros Hinv. rewrite (inv_ids d Hinv). apply NoDup_fmap_2_strong; [|apply NoDup_seq].
    intros i j _ _ Heq. apply format_request_id_inj in Heq. lia.
  Qed.

  (** ** ORDER BY id on rows that are already in id order *)

Lemma order_by_id_sorted (l : list history_row) :
    StronglySorted (fun a b => (h_id a < h_id b)%N) l -> order_by_id l = l.
  Proof.
    induction 1 as [|x l Hl IH Hx]; [done|]. unfold order_by_id in *. simpl. rewrite IH.
    destruct l as [|y l]; [done|]. simpl.
    apply Forall_cons in Hx as [Hxy _]. by rewrite (proj2 (N.ltb_lt _ _) Hxy).
  Qed.

Lemma StronglySorted_filter {A} (R : relation A) (P : A -> Prop)
        `{forall x, Decision (P x)} (l : list A) :
    StronglySorted R l -> StronglySorted R (filter P l).
  Proof.
    induction 1 as [|x l Hl IH Hx]; [constructor|].
    rewrite filter_cons. destruct (decide (P x)); [|done].
    constructor; [done|]. apply Forall_forall. intros y [_ Hy]%list_elem_of_filter.
    by apply (proj1 (Forall_forall _ _) Hx).
  Qed.

Lemma history_rows_ordered (d : db) (request_id : text) :
    store_inv d -> order_by_id (history_rows d request_id) = history_rows d request_id.
  Proof.
    intros Hinv. apply order_by_id_sorted, StronglySorted_filter, (inv_sorted d Hinv).
  Qed.
End StoreFacts.

Section StoreSteps.
Import Py Database App Spec.

  (** ** What the three writes do to the tables *)

  (** Inserting order lines touches the order lines only. *)
Lemma insert_order_lines_other (request_id : text) (lines : list order_line) (d : db) :
    let d' := foldl (insert_order_line request_id) d lines in
    procurement_requests d' = procurement_requests d
    /\ status_history d' = status_history d
    /\ status_history_seq d' = status_history_seq d
    /\ document_cache d' = document_cache d.
  Proof.
    revert d. induction lines as [|line lines IH]; intros d; simpl; [done|].
    destruct (IH (insert_order_line request_id d line)) as (-> & -> & -> & ->). done.
  Qed.

  (** ** Binding the amounts *)

Lemma fits_integer_spec (z : Z) : fits_integer z = true <-> (- 2 ^ 63 <= z < 2 ^ 63)%Z.
  Proof.
    unfold fits_integer. rewrite andb_true_iff, !Z.leb_le.
    change (2 ^ 63)%Z with 9223372036854775808%Z. lia.
  Qed.

Lemma storable_dec (data : request_data) : {storable data} + {~ storable data}.
  Proof. unfold storable. apply Forall_dec. intros line. apply _. Qed.

Lemma insert_order_lines_ok (request_id : text) (lines : list order_line) (d : db) :
    Forall (fun line => (- 2 ^ 63 <= amount line < 2 ^ 63)%Z) lines ->
    insert_order_lines request_id d lines
    = Ok (foldl (insert_order_line request_id) d lines).
  Proof.
    intros Hfit. revert d. induction Hfit as [|line lines Hline _ IH]; intros d; [done|].
    simpl. unfold bind_integer. by rewrite (proj2 (fits_integer_spec _) Hline), IH.
  Qed.

Lemma insert_order_lines_overflow (request_id : text) (lines : list order_line) (d : db) :
    ~ Forall (fun line => (- 2 ^ 63 <= amount line < 2 ^ 63)%Z) lines ->
    insert_order_lines request_id d lines = Raise too_large.
  Proof.
    revert d. induction lines as [|line lines IH]; intros d Hbig.
    - destruct Hbig. constructor.
    - simpl. unfold bind_integer. destruct (fits_integer (amount line)) eqn:Hline; [|done].
      apply IH. intros Hrest. apply Hbig. constructor; [|done].
      by apply fits_integer_spec.
  Qed.

  (** With amounts that can be bound, creation is the three inserts. *)
Lemma create_request_storable (d : db) (data : request_data) (now : text) :
    storable data ->
    create_request d data now
    = let request_id := get_next_request_id d in
      if bool_decide (request_id ∈ req_id <$> procurement_requests d) then
        (Raise (IntegrityError (lit "UNIQUE constraint failed: procurement_requests.id")), d)
      else
        let d1 := insert_request
                    {| req_id := request_id;
                       req_requestor_name := requestor_name data;
                       req_title := title data;
                       req_vendor_name := vendor_name data;
                       req_vat_id := vat_id data;
                       req_commodity_group_id := commodity_group_id data;
                       req_total_cost := total_cost data;
                       req_department := department data;
                       req_status := "Open";
                       req_created_at := now |} d in
        let d2 := foldl (insert_order_line request_id) d1 (data_order_lines data) in
        let d3 := insert_status_history request_id "Open" now d2 in
        (Ok (get_request d3 request_id), d3).
  Proof.
    intros Hfit. unfold create_request. cbv zeta. case_bool_decide; [done|].
    by rewrite (insert_order_lines_ok _ _ _ Hfit).
  Qed.

  (** With an amount that cannot be bound, nothing is stored. *)
Lemma create_request_unstorable (d : db) (data : request_data) (now : text) :
    ~ storable data -> exists e, create_request d data now = (Raise e, d).
  Proof.
    intros Hbig. unfold create_request. cbv zeta. case_bool_decide; [by eexists|].
    rewrite (insert_order_lines_overflow _ _ _ Hbig). by eexists.
  Qed.

Lemma create_request_overflow (d : db) (data : request_data) (now : text) :
    store_inv d -> ~ storable data -> create_request d data now = (Raise too_large, d).
  Proof.
    intros Hinv Hbig. unfold create_request. cbv zeta.
    rewrite bool_decide_eq_false_2 by by apply next_request_id_fresh.
    by rewrite (insert_order_lines_overflow _ _ _ Hbig).
  Qed.

Lemma create_request_shape (d : db) (data : request_data) (now : text) :
    store_inv d -> storable data ->
    exists d' row,
      create_request d data now = (Ok (get_request d' (get_next_request_id d)), d')
      /\ procurement_requests d' = procurement_requests d ++ [row]
      /\ req_id row = get_next_request_id d
      /\ req_status row = "Open"
      /\ req_created_at row = now
      /\ status_history d'
         = status_history d
           ++ [{| h_id := status_history_seq d + 1; h_request_id := get_next_request_id d;
                  h_status := "Open"; h_timestamp := now |}]
      /\ status_history_seq d' = (status_history_seq d + 1)%N
      /\ document_cache d' = document_cache d.
  Proof.
    intros Hinv Hfit. rewrite (create_request_storable _ _ _ Hfit). cbv zeta.
    rewrite bool_decide_eq_false_2 by by apply next_request_id_fresh.
    set (d1 := insert_request _ d).
    destruct (insert_order_lines_other (get_next_request_id d) (data_order_lines data) d1)
      as (Hrows & Hhist & Hseq & Hcache).
    eexists _, _. split; [done|]. simpl. rewrite Hrows, Hhist, Hseq, Hcache.
    repeat split; done.
  Qed.

Lemma update_request_status_shape (d : db) (request_id st now : text) :
    ((request_id ∉ req_id <$> procurement_requests d)
     /\ update_request_status d request_id st now = (None, d))
    \/ (request_id ∈ req_id <$> procurement_requests d
        /\ exists d',
             update_request_status d request_id st now = (get_request d' request_id, d')
             /\ procurement_requests d' = set_status request_id st <$> procurement_requests d
             /\ status_history d'
                = status_history d
                  ++ [{| h_id := status_history_seq d + 1; h_request_id := request_id;
                         h_status := st; h_timestamp := now |}]
             /\ status_history_seq d' = (status_history_seq d + 1)%N
             /\ document_cache d' = document_cache d).
  Proof.
    unfold update_request_status.
    destruct (filter (fun r => req_id r = request_id) (procurement_requests d))
      as [|row rows] eqn:Hf.
    - left. split; [|done]. intros (row & Hid & Hrow)%list_elem_of_fmap.
      exact (filter_nil_not_elem_of _ _ row Hf (eq_sym Hid) Hrow).
    - right. split.
      + assert (row ∈ filter (fun r => req_id r = request_id) (procurement_requests d))
          as [<- Hrow]%list_elem_of_filter by (rewrite Hf; left).
        by apply list_elem_of_fmap_2.
      + eexists. split; [done|]. simpl. done.
  Qed.

  (** ** The history of a request after a write *)

Lemma history_rows_snoc (d d' : db) (h : history_row) (request_id : text) :
    status_history d' = status_history d ++ [h] ->
    history_rows d' request_id
    = history_rows d request_id ++ (if decide (h_request_id h = request_id) then [h] else []).
  Proof.
    intros Hd'. unfold history_rows. by rewrite Hd', filter_app, filter_cons, filter_nil.
  Qed.

Lemma history_rows_unknown (d : db) (request_id : text) :
    store_inv d -> request_id ∉ req_id <$> procurement_requests d ->
    history_rows d request_id = [].
  Proof.
    intros Hinv Hnew. unfold history_rows.
    induction (inv_owner d Hinv) as [|h l Hh _ IH]; [done|].
    rewrite filter_cons_False; [done|]. intros <-. done.
  Qed.

Lemma history_snoc_sorted (d : db) (h : history_row) :
    store_inv d -> h_id h = (status_history_seq d + 1)%N ->
    StronglySorted (fun a b => (h_id a < h_id b)%N) (status_history d ++ [h])
    /\ Forall (fun x => (h_id x <= status_history_seq d + 1)%N) (status_history d ++ [h]).
  Proof.
    intros Hinv Hid. pose proof (inv_bound d Hinv) as Hbound. split.
    - apply StronglySorted_app_2; [|apply (inv_sorted d Hinv)|repeat constructor].
      intros x1 x2 Hx1 ->%list_elem_of_singleton.
      apply (proj1 (Forall_forall _ _) Hbound) in Hx1. lia.
    - apply Forall_app. split.
      + eapply Forall_impl; [exact Hbound|]. simpl. intros. lia.
      + apply Forall_singleton. lia.
  Qed.

  (** ** Every write keeps the invariant *)

Lemma init_database_inv : store_inv init_database.
  Proof. split; simpl; try done; constructor. Qed.

Lemma create_request_inv (d : db) (data : request_data) (now : text) :
    store_inv d -> store_inv (snd (create_request d data now)).
  Proof.
    intros Hinv. destruct (storable_dec data) as [Hfit|Hbig].
    2:{ by destruct (create_request_unstorable d data now Hbig) as [e ->]. }
    destruct (create_request_shape d data now Hinv Hfit)
      as (d' & row & -> & Hrows & Hid & Hst & Hat & Hhist & Hseq & Hcache). simpl.
    pose proof (next_request_id_fresh d Hinv) as Hfresh.
    set (h := {| h_id := _ |}) in Hhist.
    destruct (history_snoc_sorted d h Hinv eq_refl) as [Hsorted Hbound].
    split.
    - rewrite Hrows, length_app, fmap_app, Nat.add_comm. simpl length.
      rewrite seq_S, fmap_app, <- (inv_ids d Hinv). simpl. f_equal.
      rewrite Hid. unfold get_next_request_id. do 3 f_equal. lia.
    - by rewrite Hhist.
    - by rewrite Hhist, Hseq.
    - rewrite Hhist, Hrows, fmap_app. apply Forall_app. split.
      + eapply Forall_impl; [apply (inv_owner d Hinv)|]. simpl. intros x Hx.
        apply elem_of_app. by left.
      + apply Forall_singleton. simpl. rewrite Hid. apply elem_of_app. right. left.
    - rewrite Hrows. apply Forall_app. split.
      + apply Forall_forall. intros r Hr.
        destruct (proj1 (Forall_forall _ _) (inv_status d Hinv) r Hr)
          as (first & rest & Hh & H1 & H2 & H3).
        exists first, rest. rewrite (history_rows_snoc d d' h _ Hhist), Hh.
        rewrite decide_False, app_nil_r; [done|]. simpl. intros Heq.
        apply Hfresh. rewrite Heq. by apply list_elem_of_fmap_2.
      + apply Forall_singleton. exists h, [].
        rewrite (history_rows_snoc d d' h _ Hhist), Hid.
        rewrite (history_rows_unknown d _ Hinv Hfresh), decide_True by done.
        simpl. by rewrite Hst, Hat.
    - rewrite Hcache. apply (inv_cache d Hinv).
  Qed.

Lemma req_id_set_status request_id st row : req_id (set_status request_id st row) = req_id row.
  Proof. unfold set_status. by case_bool_decide. Qed.

Lemma update_request_status_inv (d : db) (request_id st now : text) :
    store_inv d -> store_inv (snd (update_request_status d request_id st now)).
  Proof.
    intros Hinv.
    destruct (update_request_status_shape d request_id st now)
      as [[_ ->]|(Hknown & d' & -> & Hrows & Hhist & Hseq & Hcache)]; [done|]. simpl.
    set (h := {| h_id := _ |}) in Hhist.
    destruct (history_snoc_sorted d h Hinv eq_refl) as [Hsorted Hbound].
    assert (req_id <$> procurement_requests d' = req_id <$> procurement_requests d) as Hids.
    { rewrite Hrows, <- list_fmap_compose. apply list_fmap_ext.
      intros i r _. apply req_id_set_status. }
    split.
    - rewrite Hids, (inv_ids d Hinv). by rewrite Hrows, length_fmap.
    - by rewrite Hhist.
    - by rewrite Hhist, Hseq.
    - rewrite Hhist, Hids. apply Forall_app. split; [apply (inv_owner d Hinv)|].
      by apply Forall_singleton.
    - rewrite Hrows. apply Forall_fmap, Forall_forall. intros r Hr. simpl.
      destruct (proj1 (Forall_forall _ _) (inv_status d Hinv) r Hr)
        as (first & rest & Hh & H1 & H2 & H3).
      rewrite req_id_set_status, (history_rows_snoc d d' h _ Hhist), Hh.
      unfold set_status. simpl h_request_id.
      destruct (decide (request_id = req_id r)) as [->|Hne].
      + rewrite bool_decide_eq_true_2 by done. exists first, (rest ++ [h]).
        repeat split; try done. simpl. by rewrite app_comm_cons, last_snoc.
      + rewrite bool_decide_eq_false_2 by done. exists first, rest.
        by rewrite app_nil_r.
    - rewrite Hcache. apply (inv_cache d Hinv).
  Qed.

Lemma cache_extraction_inv (d : db) (hash name : text) (data : dict) (now : text) :
    store_inv d -> store_inv (cache_extraction d hash name data now).
  Proof.
    intros Hinv. split; try apply Hinv. simpl.
    rewrite fmap_app. apply NoDup_app. split; [|split].
    - apply (NoDup_fmap_2_strong _ _).
      + intros x y [Hx Hx']%list_elem_of_filter [Hy Hy']%list_elem_of_filter Heq.
        pose proof (inv_cache d Hinv) as Hnd. clear Hx Hy.
        induction (document_cache d) as [|z l IH]; [by apply elem_of_nil in Hx'|].
        simpl in Hnd. apply NoDup_cons in Hnd as [Hz Hnd].
        apply elem_of_cons in Hx' as [->|Hx'], Hy' as [->|Hy']; try done.
        * destruct Hz. rewrite Heq. by apply list_elem_of_fmap_2.
        * destruct Hz. rewrite <- Heq. by apply list_elem_of_fmap_2.
        * by apply IH.
      + apply NoDup_filter. eapply NoDup_fmap_1, (inv_cache d Hinv).
    - intros x (r & -> & [Hr _]%list_elem_of_filter)%list_elem_of_fmap
             Heq%list_elem_of_singleton. done.
    - apply NoDup_singleton.
  Qed.

  (** Every reachable state of the store satisfies the invariant. *)
Lemma reachable_inv (d : db) : reachable d -> store_inv d.
  Proof.
    induction 1 as [|d o _ IH]; [apply init_database_inv|].
    destruct o; simpl.
    - by apply create_request_inv.
    - by apply update_request_status_inv.
    - by apply cache_extraction_inv.
  Qed.
End StoreSteps.

Section StoreViews.
Import Py Database App Spec.

Lemma filter_set_status (request_id st : text) (rows : list request_row) :
    filter (fun r => req_id r = request_id) (set_status request_id st <$> rows)
    = set_status request_id st <$> filter (fun r => req_id r = request_id) rows.
  Proof.
    induction rows as [|r rows IH]; [done|]. rewrite fmap_cons, !filter_cons, IH.
    rewrite req_id_set_status. by destruct (decide (req_id r = request_id)).
  Qed.

Lemma filter_other_status (request_id other st : text) (rows : list request_row) :
    other <> request_id ->
    filter (fun r => req_id r = request_id) (set_status other st <$> rows)
    = filter (fun r => req_id r = request_id) rows.
  Proof.
    intros Hne. induction rows as [|r rows IH]; [done|]. rewrite fmap_cons, !filter_cons, IH.
    rewrite req_id_set_status. destruct (decide (req_id r = request_id)) as [Heq|]; [|done].
    f_equal. unfold set_status. rewrite bool_decide_eq_false_2; [done|]. congruence.
  Qed.

Lemma update_request_status_order_lines (d : db) (request_id st now : text) :
    order_lines (snd (update_request_status d request_id st now)) = order_lines d.
  Proof.
    unfold update_request_status.
    by destruct (filter (fun r => req_id r = request_id) (procurement_requests d)).
  Qed.

  (** A request is found exactly when its id is stored. *)
Lemma get_request_known (d : db) (request_id : text) :
    is_Some (get_request d request_id) <-> request_id ∈ req_id <$> procurement_requests d.
  Proof.
    unfold get_request.
    destruct (filter (fun r => req_id r = request_id) (procurement_requests d))
      as [|row rows] eqn:Hf.
    - split; [by intros [? ?]|]. intros (row & Hid & Hrow)%list_elem_of_fmap.
      destruct (filter_nil_not_elem_of _ _ row Hf (eq_sym Hid) Hrow).
    - split; [|by eexists]. intros _.
      assert (row ∈ filter (fun r => req_id r = request_id) (procurement_requests d))
        as [<- Hrow]%list_elem_of_filter by (rewrite Hf; left).
      by apply list_elem_of_fmap_2.
  Qed.

  (** What get_request reports of the status and the history: the columns
      of a stored row with that id, and the history rows in table order. *)
Lemma get_request_view (d : db) (request_id : text) (rec : request_record) :
    store_inv d -> get_request d request_id = Some rec ->
    rec_id rec = request_id
    /\ rec_status_history rec
       = (fun h => {| status := h_status h; timestamp := h_timestamp h |})
         <$> history_rows d request_id
    /\ exists row, row ∈ procurement_requests d /\ req_id row = request_id
                   /\ rec_status rec = req_status row
                   /\ rec_created_at rec = req_created_at row.
  Proof.
    intros Hinv. unfold get_request.
    destruct (filter (fun r => req_id r = request_id) (procurement_requests d))
      as [|row rows] eqn:Hf; [done|]. intros [= <-]. simpl.
    assert (row ∈ filter (fun r => req_id r = request_id) (procurement_requests d))
      as [Hid Hrow]%list_elem_of_filter by (rewrite Hf; left).
    split; [done|]. split.
    - change (filter (fun h => h_request_id h = request_id) (status_history d))
        with (history_rows d request_id).
      by rewrite (history_rows_ordered d request_id Hinv).
    - by exists row.
  Qed.

  (** ** Creation *)

Lemma create_request_spec (d : db) (data : request_data) (now : text) :
    store_inv d -> storable data ->
    exists rec d',
      create_request d data now = (Ok (Some rec), d')
      /\ get_request d' (get_next_request_id d) = Some rec
      /\ rec_id rec = get_next_request_id d
      /\ rec_status rec = "Open"
      /\ rec_created_at rec = now
      /\ rec_status_history rec = [{| status := "Open"; timestamp := now |}].
  Proof.
    intros Hinv Hfit.
    pose proof (create_request_inv d data now Hinv) as Hinv'.
    destruct (create_request_shape d data now Hinv Hfit)
      as (d' & row & Hrun & Hrows & Hid & Hst & Hat & Hhist & Hseq & Hcache).
    rewrite Hrun in Hinv'. simpl in Hinv'.
    pose proof (next_request_id_fresh d Hinv) as Hfresh.
    destruct (proj2 (get_request_known d' (get_next_request_id d))) as [rec Hrec].
    { rewrite Hrows, fmap_app, <- Hid. apply elem_of_app. right. left. }
    exists rec, d'. rewrite Hrun, Hrec. split; [done|]. split; [done|].
    destruct (get_request_view d' _ rec Hinv' Hrec) as (Hrid & Hh & r & Hr & Hrid' & Hs & Hc).
    assert (r = row) as ->.
    { rewrite Hrows in Hr. apply elem_of_app in Hr as [Hr|Hr%list_elem_of_singleton]; [|done].
      destruct Hfresh. rewrite <- Hrid'. by apply list_elem_of_fmap_2. }
    rewrite Hs, Hc, Hh. repeat split; try done.
    rewrite (history_rows_snoc d d' _ _ Hhist), (history_rows_unknown d _ Hinv Hfresh).
    simpl. by rewrite decide_True.
  Qed.

  (** ** Status update *)

Lemma update_request_status_spec (d : db) (request_id st now : text)
        (old : request_record) :
    store_inv d -> get_request d request_id = Some old ->
    exists new d',
      update_request_status d request_id st now = (Some new, d')
      /\ get_request d' request_id = Some new
      /\ rec_status new = st
      /\ rec_status_history new
         = rec_status_history old ++ [{| status := st; timestamp := now |}]
      /\ rec_id new = rec_id old
      /\ rec_data new = rec_data old
      /\ rec_created_at new = rec_created_at old.
  Proof.
    intros Hinv Hold.
    pose proof (update_request_status_inv d request_id st now Hinv) as Hinv'.
    pose proof (update_request_status_order_lines d request_id st now) as Hlines.
    destruct (update_request_status_shape d request_id st now)
      as [[Hunknown _]|(_ & d' & Hrun & Hrows & Hhist & Hseq & Hcache)].
    { destruct Hunknown. apply get_request_known. by eexists. }
    rewrite Hrun in Hinv', Hlines. simpl in Hinv', Hlines. rewrite Hrun.
    destruct (get_request_view d _ old Hinv Hold) as (_ & Hhold & _).
    assert (exists new, get_request d' request_id = Some new) as [new Hnew].
    { apply get_request_known. rewrite Hrows, <- list_fmap_compose.
      erewrite list_fmap_ext; [apply get_request_known; by eexists|].
      intros i r _. simpl. apply req_id_set_status. }
    exists new, d'. rewrite Hnew. split; [done|]. split; [done|].
    destruct (get_request_view d' _ new Hinv' Hnew) as (_ & Hhnew & _).
    rewrite Hhnew, Hhold, (history_rows_snoc d d' _ _ Hhist). simpl.
    rewrite decide_True, fmap_app by done. simpl.
    unfold get_request in Hold, Hnew. rewrite Hrows, filter_set_status, Hlines in Hnew.
    destruct (filter (fun r => req_id r = request_id) (procurement_requests d))
      as [|row rows] eqn:Hf; [done|].
    assert (row ∈ filter (fun r => req_id r = request_id) (procurement_requests d))
      as [Hid _]%list_elem_of_filter by (rewrite Hf; left).
    simpl in Hnew. unfold set_status in Hnew. rewrite bool_decide_eq_true_2 in Hnew by done.
    simplify_eq. simpl. done.
  Qed.

Lemma update_request_status_unknown (d : db) (request_id st now : text) :
    get_request d request_id = None ->
    update_request_status d request_id st now = (None, d).
  Proof.
    unfold get_request, update_request_status.
    by destruct (filter (fun r => req_id r = request_id) (procurement_requests d)).
  Qed.

  (** ** No write modifies or removes a history entry *)

Lemma apply_op_grows (d : db) (o : op) :
    store_inv d ->
    (exists more, status_history (apply_op d o) = status_history d ++ more)
    /\ (forall request_id, request_id ∈ req_id <$> procurement_requests d ->
                           request_id ∈ req_id <$> procurement_requests (apply_op d o)).
  Proof.
    intros Hinv. destruct o as [data now|request_id st now|hash name data now]; simpl.
    - destruct (storable_dec data) as [Hfit|Hbig].
      2:{ destruct (create_request_unstorable d data now Hbig) as [e ->]. simpl.
          split; [|done]. exists []. by rewrite app_nil_r. }
      destruct (create_request_shape d data now Hinv Hfit)
        as (d' & row & -> & Hrows & _ & _ & _ & Hhist & _). simpl. split.
      + by eexists.
      + intros k Hk. rewrite Hrows, fmap_app. apply elem_of_app. by left.
    - destruct (update_request_status_shape d request_id st now)
        as [[_ ->]|(_ & d' & -> & Hrows & Hhist & _)]; simpl.
      + split; [|done]. exists []. by rewrite app_nil_r.
      + split; [by eexists|]. intros k Hk. rewrite Hrows, <- list_fmap_compose.
        erewrite list_fmap_ext; [exact Hk|]. intros i r _. simpl. apply req_id_set_status.
    - split; [|done]. exists []. by rewrite app_nil_r.
  Qed.

Lemma apply_op_inv (d : db) (o : op) : store_inv d -> store_inv (apply_op d o).
  Proof.
    intros Hinv. destruct o; simpl.
    - by apply create_request_inv.
    - by apply update_request_status_inv.
    - by apply cache_extraction_inv.
  Qed.

Lemma history_append_only (d : db) (o : op) (request_id : text) (old : request_record) :
    store_inv d -> get_request d request_id = Some old ->
    exists new, get_request (apply_op d o) request_id = Some new
                /\ rec_status_history old `prefix_of` rec_status_history new.
  Proof.
    intros Hinv Hold. pose proof (apply_op_inv d o Hinv) as Hinv'.
    destruct (apply_op_grows d o Hinv) as [[more Hmore] Hids].
    destruct (proj2 (get_request_known (apply_op d o) request_id)) as [new Hnew].
    { apply Hids, get_request_known. by eexists. }
    exists new. split; [done|].
    destruct (get_request_view d _ old Hinv Hold) as (_ & -> & _).
    destruct (get_request_view _ _ new Hinv' Hnew) as (_ & -> & _).
    unfold history_rows. rewrite Hmore, filter_app, fmap_app. by eexists.
  Qed.

  (** ** The history agrees with the status *)

Lemma history_consistent (d : db) (request_id : text) (rec : request_record) :
    store_inv d -> get_request d request_id = Some rec ->
    exists rest,
      rec_status_history rec
      = {| status := "Open"; timestamp := rec_created_at rec |} :: rest
      /\ status <$> last (rec_status_history rec) = Some (rec_status rec).
  Proof.
    intros Hinv Hrec.
    destruct (get_request_view d _ rec Hinv Hrec) as (_ & -> & row & Hrow & Hid & -> & ->).
    destruct (proj1 (Forall_forall _ _) (inv_status d Hinv) row Hrow)
      as (first & rest & Hh & H1 & H2 & H3).
    rewrite Hid in Hh. rewrite Hh.
    exists ((fun h => {| status := h_status h; timestamp := h_timestamp h |}) <$> rest).
    split.
    - rewrite fmap_cons. by rewrite H1, H2.
    - rewrite fmap_last, <- H3. by destruct (last (first :: rest)).
  Qed.
End StoreViews.

Section StoreClaims.
Import Py Ai Database App Spec Examples.

Lemma example_request_storable : storable example_request.
  Proof.
    apply Forall_singleton. cbn [amount example_request].
    change (2 ^ 63)%Z with 9223372036854775808%Z. lia.
  Qed.

Lemma big_request_not_storable : ~ storable big_request.
  Proof.
    intros Hfit. unfold storable in Hfit. apply Forall_inv in Hfit.
    cbn [amount big_request] in Hfit.
    change (2 ^ 63)%Z with 9223372036854775808%Z in Hfit. lia.
  Qed.

  (** Three writes in a row: create, then In Progress, then Closed. *)
Lemma lifecycle_three_entries (d : db) (data : request_data) (t0 t1 t2 : text) :
    store_inv d -> storable data ->
    let request_id := get_next_request_id d in
    let d1 := snd (create_request d data t0) in
    let d2 := snd (update_request_status d1 request_id "In Progress" t1) in
    let d3 := snd (update_request_status d2 request_id "Closed" t2) in
    exists rec,
      get_request d3 request_id = Some rec
      /\ rec_status rec = "Closed"
      /\ rec_status_history rec
         = [{| status := "Open"; timestamp := t0 |};
            {| status := "In Progress"; timestamp := t1 |};
            {| status := "Closed"; timestamp := t2 |}].
  Proof.
    intros Hinv Hfit request_id d1 d2 d3.
    pose proof (create_request_inv d data t0 Hinv) as Hinv1. fold d1 in Hinv1.
    destruct (create_request_spec d data t0 Hinv Hfit)
      as (rec0 & d1' & Hrun0 & Hget0 & _ & _ & _ & Hh0).
    assert (d1' = d1) as -> by (subst d1; by rewrite Hrun0).
    pose proof (update_request_status_inv d1 request_id "In Progress" t1 Hinv1) as Hinv2.
    fold d2 in Hinv2.
    destruct (update_request_status_spec d1 request_id "In Progress" t1 rec0 Hinv1 Hget0)
      as (rec1 & d2' & Hrun1 & Hget1 & _ & Hh1 & _).
    assert (d2' = d2) as -> by (subst d2; by rewrite Hrun1).
    destruct (update_request_status_spec d2 request_id "Closed" t2 rec1 Hinv2 Hget1)
      as (rec2 & d3' & Hrun2 & Hget2 & Hs2 & Hh2 & _).
    assert (d3' = d3) as -> by (subst d3; by rewrite Hrun2).
    exists rec2. split; [done|]. split; [done|]. by rewrite Hh2, Hh1, Hh0.
  Qed.

(** C9.  In every reachable state of the store the status history of a
    request is append-only and agrees with its status: creation seeds the
    history with the one entry (Open, created_at) and sets the status to
    Open; a status update appends one entry (status, timestamp) and sets
    the status to that value; no write modifies or removes an entry; so
    after updates to In Progress and then Closed, get_request reports the
    status Closed and the three entries in the order they were written.
    Creation stores a request whose amounts fit the INTEGER column; for
    any other it raises OverflowError and the store stays as it was, no
    request and no history entry written. *)
Theorem C9_status_history_append_only (d : db) (Hd : reachable d) :
  (forall data now,
      storable data ->
      exists rec d',
        create_request d data now = (Ok (Some rec), d')
        /\ get_request d' (get_next_request_id d) = Some rec
        /\ rec_id rec = get_next_request_id d
        /\ rec_status rec = "Open"
        /\ rec_created_at rec = now
        /\ rec_status_history rec = [{| status := "Open"; timestamp := now |}])
  /\ (forall data now,
        ~ storable data -> create_request d data now = (Raise too_large, d))
  /\ (forall request_id st now old,
        get_request d request_id = Some old ->
        exists new d',
          update_request_status d request_id st now = (Some new, d')
          /\ get_request d' request_id = Some new
          /\ rec_status new = st
          /\ rec_status_history new
             = rec_status_history old ++ [{| status := st; timestamp := now |}]
          /\ rec_id new = rec_id old
          /\ rec_data new = rec_data old
          /\ rec_created_at new = rec_created_at old)
  /\ (forall request_id st now,
        get_request d request_id = None ->
        update_request_status d request_id st now = (None, d))
  /\ (forall o request_id old,
        get_request d request_id = Some old ->
        exists new, get_request (apply_op d o) request_id = Some new
                    /\ rec_status_history old `prefix_of` rec_status_history new)
  /\ (forall request_id rec,
        get_request d request_id = Some rec ->
        exists rest,
          rec_status_history rec
          = {| status := "Open"; timestamp := rec_created_at rec |} :: rest
          /\ status <$> last (rec_status_history rec) = Some (rec_status rec))
  /\ (forall data t0 t1 t2,
        storable data ->
        let request_id := get_next_request_id d in
        let d1 := snd (create_request d data t0) in
        let d2 := snd (update_request_status d1 request_id "In Progress" t1) in
        let d3 := snd (update_request_status d2 request_id "Closed" t2) in
        exists rec,
          get_request d3 request_id = Some rec
          /\ rec_status rec = "Closed"
          /\ rec_status_history rec
             = [{| status := "Open"; timestamp := t0 |};
                {| status := "In Progress"; timestamp := t1 |};
                {| status := "Closed"; timestamp := t2 |}]).
Proof.
  pose proof (reachable_inv d Hd) as Hinv.
  split; [|split; [|split; [|split; [|split; [|split]]]]].
  - intros data now Hfit. by apply create_request_spec.
  - intros data now Hbig. by apply create_request_overflow.
  - intros request_id st now old. by apply update_request_status_spec.
  - intros request_id st now. by apply update_request_status_unknown.
  - intros o request_id old. by apply history_append_only.
  - intros request_id rec. by apply history_consistent.
  - intros data t0 t1 t2 Hfit. by apply lifecycle_three_entries.
Qed.

Lemma C9_status_history_append_only_witness :
  reachable init_database
  /\ storable example_request
  /\ ~ storable big_request
  /\ create_request init_database big_request "2026-01-05T09:00:00"
     = (Raise too_large, init_database)
  /\ exists rec,
       get_request
         (snd (update_request_status
                 (snd (update_request_status
                         (snd (create_request init_database example_request "2026-01-05T09:00:00"))
                         "REQ-0001" "In Progress" "2026-01-06T10:30:00"))
                 "REQ-0001" "Closed" "2026-01-09T16:45:00"))
         "REQ-0001" = Some rec
       /\ rec_status rec = "Closed"
       /\ rec_status_history rec
          = [{| status := "Open"; timestamp := "2026-01-05T09:00:00" |};
             {| status := "In Progress"; timestamp := "2026-01-06T10:30:00" |};
             {| status := "Closed"; timestamp := "2026-01-09T16:45:00" |}].
Proof.
  split; [apply reach_init|]. split; [exact example_request_storable|].
  split; [exact big_request_not_storable|]. split.
  - exact (proj1 (proj2 (C9_status_history_append_only init_database reach_init))
             big_request "2026-01-05T09:00:00" big_request_not_storable).
  - exact (proj2 (proj2 (proj2 (proj2 (proj2 (proj2
             (C9_status_history_append_only init_database reach_init))))))
             example_request "2026-01-05T09:00:00" "2026-01-06T10:30:00"
             "2026-01-09T16:45:00" example_request_storable).
Defined.

  (** ** The document cache *)

Lemma filter_hash_complement (hash : text) (rows : list cache_row) :
    filter (fun r => file_hash r = hash) (filter (fun r => file_hash r <> hash) rows) = [].
  Proof.
    induction rows as [|r rows IH]; [done|]. rewrite (filter_cons (fun r => file_hash r <> hash)).
    destruct (decide (file_hash r <> hash)); [|done]. by rewrite filter_cons_False.
  Qed.

Lemma filter_hash_other (hash other : text) (rows : list cache_row) :
    other <> hash ->
    filter (fun r => file_hash r = other) (filter (fun r => file_hash r <> hash) rows)
    = filter (fun r => file_hash r = other) rows.
  Proof.
    intros Hne. induction rows as [|r rows IH]; [done|].
    rewrite (filter_cons (fun r => file_hash r <> hash)).
    rewrite (filter_cons (fun r => file_hash r = other) r rows).
    destruct (decide (file_hash r <> hash)) as [Hr|Hr].
    - rewrite filter_cons, IH. done.
    - rewrite IH. apply dec_stable in Hr. rewrite decide_False; [done|]. congruence.
  Qed.

Lemma cache_extraction_rows (d : db) (hash name : text) (data : dict) (now : text) :
    filter (fun r => file_hash r = hash)
           (document_cache (cache_extraction d hash name data now))
    = [{| file_hash := hash; filename := name; extracted_data := data;
          cache_created_at := now |}].
  Proof.
    simpl. rewrite filter_app, filter_hash_complement, filter_cons_True by done. done.
  Qed.

(** C7.  A cache entry is written by cache_extraction -- which the upload
    endpoint does not call: the upload leaves the cache as it was.  The
    entry is keyed by the hash it is given, the content hash of the PDF
    bytes when the caller computes it with compute_file_hash, and stores
    the filename and the extraction result.  Writing an entry for a hash
    that is already there overwrites the previous entry (last write wins)
    and leaves exactly one row for that hash, and one row at most for any
    other. *)
Theorem C7_cache_last_write_wins
    (sha256_hexdigest : bytes -> text) (d : db) (Hd : reachable d)
    (content : bytes) (name : text) (data : dict) (now : text) :
  let hash := compute_file_hash sha256_hexdigest content in
  let d' := cache_extraction d hash name data now in
  filter (fun row => file_hash row = hash) (document_cache d')
  = [{| file_hash := hash; filename := name; extracted_data := data;
        cache_created_at := now |}]
  /\ get_cached_extraction d' hash = Some data
  /\ (forall other, other <> hash ->
        filter (fun row => file_hash row = other) (document_cache d')
        = filter (fun row => file_hash row = other) (document_cache d))
  /\ NoDup (file_hash <$> document_cache d')
  /\ (forall name2 data2 now2,
        let d'' := cache_extraction d' hash name2 data2 now2 in
        filter (fun row => file_hash row = hash) (document_cache d'')
        = [{| file_hash := hash; filename := name2; extracted_data := data2;
              cache_created_at := now2 |}]
        /\ get_cached_extraction d'' hash = Some data2)
  /\ (forall udb w upload bytes, snd (post_extract_document udb w d upload bytes) = d).
Proof.
  intros hash d'. pose proof (reachable_inv d Hd) as Hinv.
  split; [|split; [|split; [|split; [|split]]]].
  - apply cache_extraction_rows.
  - unfold get_cached_extraction. subst d'. by rewrite cache_extraction_rows.
  - intros other Hne. subst d'. simpl.
    rewrite filter_app, filter_hash_other, filter_cons_False, filter_nil, app_nil_r; done.
  - apply (inv_cache d'). by apply cache_extraction_inv.
  - intros name2 data2 now2 d''. split; [apply cache_extraction_rows|].
    unfold get_cached_extraction. subst d''. by rewrite cache_extraction_rows.
  - done.
Qed.

Lemma C7_cache_last_write_wins_witness :
  reachable init_database
  /\ get_cached_extraction
       (cache_extraction init_database (compute_file_hash example_digest upload_content)
                         "Offer.PDF" complete_record "2026-01-05T09:00:00")
       (compute_file_hash example_digest upload_content)
     = Some complete_record.
Proof.
  split; [apply reach_init|].
  exact (proj1 (proj2 (C7_cache_last_write_wins example_digest init_database reach_init
                         upload_content "Offer.PDF" complete_record "2026-01-05T09:00:00"))).
Defined.

(** C7, as stated, fails: the upload of a digital PDF is processed, the
    record is returned, and the cache of the database the handler ran
    against holds no entry, under any hash. *)
Lemma C7_upload_writes_no_cache_entry :
  outcome (fst (post_extract_document ascii_only_db digital_world init_database
                  upload_name upload_content))
  = Ok complete_record
  /\ forall hash,
       get_cached_extraction
         (snd (post_extract_document ascii_only_db digital_world init_database
                 upload_name upload_content)) hash
       = None.
Proof.
  split; [|done]. vm_compute. reflexivity.
Qed.
End StoreClaims.

(* ===================================================================== *)
(** * Further properties: the upload endpoint                             *)
(* ===================================================================== *)

Section UploadValidation.
Import Py Ai Spec Props Examples MoreExamples.

Lemma rejected_or_accepted udb w name content :
  accepted udb name content
  \/ (~ accepted udb name content
      /\ exists detail,
           extract_document_endpoint udb w name content
           = (Raise (HTTPException 400 detail), [])).
Proof.
  unfold extract_document_endpoint. destruct name as [f|].
  2:{ right. split; [by intros (f & ? & _)|]. by eexists. }
  destruct (decide (f = [])) as [->|Hf].
  { right. split; [by intros (f & [= <-] & ? & _)|]. by eexists. }
  rewrite (proj2 (truthy_PStr f) Hf). unfold endswith. simpl negb at 1. simpl orb.
  case_bool_decide as Hpdf; simpl negb; cbv iota.
  2:{ right. split; [by intros (f' & [= <-] & _ & ? & _)|]. by eexists. }
  unfold MAX_PDF_SIZE_BYTES.
  destruct (10 * 1024 * 1024 <? N.of_nat (length content))%N eqn:Hsize.
  - right. apply N.ltb_lt in Hsize. split; [|by eexists].
    intros (f' & _ & _ & _ & Hle). lia.
  - left. apply N.ltb_ge in Hsize. by exists f.
Qed.

(** X1.  The upload endpoint opens the PDF exactly when the file name is
    there, ends in .pdf whatever the case, and the content is at most
    10 MiB; any other upload is answered with status 400 before anything
    is called or logged. *)
Theorem upload_validation_guards_calls
    (udb : unicode_db) (w : world) (name : option str) (content : bytes) :
  let run := extract_document_endpoint udb w name content in
  (accepted udb name content <-> CallPdfReader content ∈ trace run)
  /\ (~ accepted udb name content ->
      exists detail, run = (Raise (HTTPException 400 detail), [])).
Proof.
  intros run. subst run.
  destruct (rejected_or_accepted udb w name content) as [Hacc|[Hrej (detail & Hrun)]].
  - split; [|done]. split; [|done]. intros _.
    rewrite (accepted_passes udb w name content Hacc).
    apply trace_bind_incl. rewrite structural_text_trace. left.
  - split; [|by exists detail]. split; [done|]. rewrite Hrun. simpl.
    by intros ?%elem_of_nil.
Qed.
End UploadValidation.

Section UploadOutcomes.
Import Py Ai Spec Props Examples MoreExamples.

Lemma empty_record_falsy : opt_truthy (Some ∅) = false.
Proof. simpl. unfold dict_truthy. by rewrite bool_decide_eq_true_2. Qed.

Lemma candidate_B_some w content B :
  candidate_B w content = Some B ->
  exists ocr_text,
    outcome (extract_text_with_ocr w content) = Ok ocr_text
    /\ chain_invoke w OnOcr ocr_text = Ok B /\ B <> ∅.
Proof.
  unfold candidate_B.
  destruct (outcome (extract_text_with_ocr w content)) as [ocr_text|e]; [|done].
  destruct (chain_invoke w OnOcr ocr_text) as [r|e] eqn:Hr; [|done].
  case_bool_decide; [done|]. intros [= <-]. by exists ocr_text.
Qed.

(** X2.  When the structural candidate A fails the completeness check as
    the gate makes it and the OCR path yields a candidate B, the endpoint
    answers with the field-by-field merge of A (first) and B (second). *)
Theorem both_candidates_are_merged
    (udb : unicode_db) (w : world) (name : option str) (content : bytes) (text : str)
    (A B : dict)
    (Hacc : accepted udb name content)
    (Htext : outcome (structural_text w content) = Ok text)
    (Hwf : forall r, chain_invoke w OnStructural text = Ok r -> lines_wellformed r)
    (HA : candidate_A w text = Some A)
    (Hpoor : ~ passes_gate udb A)
    (HB : candidate_B w content = Some B) :
  outcome (extract_document_endpoint udb w name content) = Ok (merge_results udb A B).
Proof.
  destruct (endpoint_analysis udb w name content text Hacc Htext Hwf)
    as (o & b & Hcand & Hgate & -> & _ & _).
  destruct (candidate_A_some w text o A Hcand HA) as [-> HneA].
  assert (b = true) as ->.
  { destruct b; [done|]. destruct (proj1 Hgate eq_refl) as (r & [= <-] & Hc). done. }
  destruct (candidate_B_some w content B HB) as (ocr_text & Hocr & Hr & HneB).
  rewrite (bind_ok _ _ _ (ocr_extraction_ok udb w content (Some A) ocr_text B Hocr Hr)).
  simpl. by apply select_or_merge_both.
Qed.

Lemma both_candidates_are_merged_witness :
  outcome (extract_document_endpoint ascii_only_db two_path_world upload_name upload_content)
  = Ok (merge_results ascii_only_db record_without_vat complete_record).
Proof.
  apply (both_candidates_are_merged ascii_only_db two_path_world upload_name upload_content
           offer_text record_without_vat complete_record accepted_upload eq_refl).
  - intros r [= <-]. vm_compute. exact I.
  - vm_compute. reflexivity.
  - intros (Hvat & _). apply Hvat. vm_compute. reflexivity.
  - vm_compute. reflexivity.
Defined.

(** X3.  When OCR reads the document but the field extractor returns an
    empty mapping for its text, the empty mapping is no result: a
    structural candidate is returned alone and unmerged, and with no
    structural candidate the upload fails with status 400. *)
Theorem empty_ocr_record_is_no_result
    (udb : unicode_db) (w : world) (name : option str) (content : bytes)
    (text ocr_text : str)
    (Hacc : accepted udb name content)
    (Htext : outcome (structural_text w content) = Ok text)
    (Hwf : forall r, chain_invoke w OnStructural text = Ok r -> lines_wellformed r)
    (Hocr : outcome (extract_text_with_ocr w content) = Ok ocr_text)
    (Hempty : chain_invoke w OnOcr ocr_text = Ok ∅) :
  let run := extract_document_endpoint udb w name content in
  (forall A, candidate_A w text = Some A -> outcome run = Ok A)
  /\ (candidate_A w text = None ->
      outcome run = Raise (HTTPException 400 (lit "Could not extract data from PDF"))).
Proof.
  intros run. subst run.
  destruct (endpoint_analysis udb w name content text Hacc Htext Hwf)
    as (o & b & Hcand & Hgate & -> & _ & _).
  pose proof (ocr_extraction_ok udb w content o ocr_text ∅ Hocr Hempty) as Hrun.
  split.
  - intros A HA. destruct (candidate_A_some w text o A Hcand HA) as [-> HneA].
    destruct b.
    + rewrite (bind_ok _ _ _ Hrun). simpl.
      by rewrite (select_or_merge_left udb A (Some ∅) HneA empty_record_falsy).
    + rewrite ocr_extraction_skipped. simpl.
      by rewrite (select_or_merge_left udb A None HneA eq_refl).
  - intros HnoA. rewrite HnoA in Hcand.
    assert (opt_truthy o = false) as Hfalsy.
    { destruct (opt_truthy o) eqn:Ht; [|done]. by subst o. }
    assert (b = true) as ->.
    { destruct b; [done|]. destruct (proj1 Hgate eq_refl) as (r & -> & Hc).
      apply passes_gate_nonempty in Hc. simpl in Hfalsy. unfold dict_truthy in Hfalsy.
      by rewrite bool_decide_eq_false_2 in Hfalsy. }
    rewrite (bind_ok _ _ _ Hrun). simpl.
    by apply select_or_merge_none; [|apply empty_record_falsy].
Qed.

Lemma empty_ocr_record_is_no_result_witness :
  outcome (extract_document_endpoint ascii_only_db empty_ocr_world upload_name upload_content)
  = Ok record_without_vat.
Proof.
  refine (proj1 (empty_ocr_record_is_no_result ascii_only_db empty_ocr_world upload_name
                   upload_content offer_text offer_text accepted_upload eq_refl _ eq_refl
                   eq_refl) record_without_vat _).
  - intros r [= <-]. vm_compute. exact I.
  - vm_compute. reflexivity.
Defined.
End UploadOutcomes.

Section TextExtractors.
Import Py Ai Spec Props Examples MoreExamples.

Lemma ocr_loop_all_ok (texts all_text : list str) :
  ocr_loop (Ok <$> texts) all_text = (Ok (all_text ++ texts), []).
Proof.
  revert all_text. induction texts as [|t texts IH]; intros all_text; simpl.
  - by rewrite app_nil_r.
  - rewrite IH. simpl. by rewrite <- app_assoc.
Qed.

Lemma ocr_loop_first_error (texts : list str) (e : exn) (rest : list (result str))
      (all_text : list str) :
  ocr_loop ((Ok <$> texts) ++ Raise e :: rest) all_text = (Raise e, []).
Proof.
  revert all_text. induction texts as [|t texts IH]; intros all_text; simpl; [done|].
  by rewrite IH.
Qed.

(** X4.  The OCR extractor returns the page transcriptions in page order,
    joined by the page-break marker (a single page has no marker, no page
    gives the empty text); the first page whose model call raises ends the
    stage with that exception, whatever the later pages would give; a PDF
    that cannot be opened raises Exception with the text Failed to open
    PDF: and the cause.  In each case OCR is called once and nothing is
    logged. *)
Theorem ocr_extractor_joins_pages_or_fails
    (w : world) (content : bytes) :
  (forall texts,
      ocr_pages w content = Ok (Ok <$> texts) ->
      extract_text_with_ocr w content = (Ok (join PAGE_BREAK texts), [CallOcr content]))
  /\ (forall t, ocr_pages w content = Ok [Ok t] ->
                outcome (extract_text_with_ocr w content) = Ok t)
  /\ (forall texts e rest,
        ocr_pages w content = Ok ((Ok <$> texts) ++ Raise e :: rest) ->
        extract_text_with_ocr w content = (Raise e, [CallOcr content]))
  /\ (forall e,
        ocr_pages w content = Raise e ->
        extract_text_with_ocr w content
        = (Raise (Exception (lit "Failed to open PDF: " ++ exn_str e)), [CallOcr content])).
Proof.
  unfold extract_text_with_ocr. repeat split.
  - intros texts ->. simpl. by rewrite ocr_loop_all_ok.
  - intros t ->. done.
  - intros texts e rest ->. simpl. by rewrite ocr_loop_first_error.
  - intros e ->. done.
Qed.

Lemma pypdf_loop_all_ok (texts : list (option str)) (pypdf_text : str) :
  pypdf_loop (Ok <$> texts) pypdf_text
  = (Ok (pypdf_text ++ concat (or_empty <$> texts)), []).
Proof.
  revert pypdf_text. induction texts as [|t texts IH]; intros pypdf_text; simpl.
  - by rewrite app_nil_r.
  - rewrite IH. simpl. by rewrite <- app_assoc.
Qed.

Lemma pypdf_loop_first_error (texts : list (option str)) (e : exn)
      (rest : list (result (option str))) (pypdf_text : str) :
  pypdf_loop ((Ok <$> texts) ++ Raise e :: rest) pypdf_text = (Raise e, []).
Proof.
  revert pypdf_text. induction texts as [|t texts IH]; intros pypdf_text; simpl; [done|].
  by rewrite IH.
Qed.

(** X5.  The structural text is the concatenation, in page order and with
    no separator, of what extract_text() returns for each page, a page
    that returns None adding nothing; an exception of the reader, or of
    extract_text() on any page, leaves the extractor as it is, with the
    text of the pages before it lost. *)
Theorem structural_text_concatenates_pages (w : world) (content : bytes) :
  (forall texts,
      pdf_pages w content = Ok (Ok <$> texts) ->
      structural_text w content
      = (Ok (concat (or_empty <$> texts)), [CallPdfReader content]))
  /\ (forall texts e rest,
        pdf_pages w content = Ok ((Ok <$> texts) ++ Raise e :: rest) ->
        structural_text w content = (Raise e, [CallPdfReader content]))
  /\ (forall e,
        pdf_pages w content = Raise e ->
        structural_text w content = (Raise e, [CallPdfReader content])).
Proof.
  unfold structural_text. repeat split.
  - intros texts ->. simpl. by rewrite pypdf_loop_all_ok.
  - intros texts e rest ->. simpl. by rewrite pypdf_loop_first_error.
  - intros e ->. done.
Qed.
End TextExtractors.

Section GateEdges.
Import Py Ai Spec Props Examples MoreExamples.

Lemma pypdf_extraction_some udb w text r :
  strip text <> [] -> chain_invoke w OnStructural text = Ok r ->
  outcome (pypdf_extraction udb w text) = Ok (Some r)
  /\ forall c, CallOcr c ∉ trace (pypdf_extraction udb w text).
Proof.
  intros Htext Hr. unfold pypdf_extraction.
  rewrite (proj2 (truthy_PStr _) Htext). unfold extract_document. simpl.
  rewrite Hr. simpl. split; [done|]. intros c Hc. set_solver.
Qed.

(** What the fifth test of the gate does with a value that counts as
    true: it asks for its length. *)
Lemma quality_gate_fifth_test udb (r : dict) (v : value) :
  stripped udb r "vat_id" <> [] -> stripped udb r "vendor_name" <> [] ->
  stripped udb r "department" <> [] -> stripped udb r "title" <> [] ->
  r !! "order_lines" = Some v -> truthy v = true ->
  quality_gate udb (Some r)
  = match len v with
    | None => (Raise (TypeError (lit "object has no len()")), [])
    | Some _ => (Ok false, [])
    end.
Proof.
  intros H1 H2 H3 H4 Hv Ht. unfold quality_gate.
  assert (r <> ∅) as Hne by (intros ->; by rewrite lookup_empty in Hv).
  simpl. unfold dict_truthy. rewrite (bool_decide_eq_false_2 _ Hne). simpl.
  rewrite (bool_decide_eq_false_2 _ H1), (bool_decide_eq_false_2 _ H2),
          (bool_decide_eq_false_2 _ H3), (bool_decide_eq_false_2 _ H4). simpl.
  unfold get. rewrite Hv. simpl. rewrite Ht. simpl.
  destruct v as [| | | |s|l|d]; simpl in *; try done.
  - by destruct s.
  - by destruct l.
  - by destruct d.
Qed.

(** X6.  The fifth test of the quality gate reads [order_lines] by its
    truth value and its len() only.  With the four text fields filled, a
    value there that counts as true but has no length (a non-zero number,
    true) makes the endpoint end with a TypeError, a server error, and no
    OCR is tried; a non-empty string or mapping passes for line items, and
    the record is returned as it is without OCR. *)
Theorem order_lines_of_another_type
    (udb : unicode_db) (w : world) (name : option str) (content : bytes) (text : str)
    (r : dict) (v : value)
    (Hacc : accepted udb name content)
    (Htext : outcome (structural_text w content) = Ok text)
    (Hvisible : strip text <> [])
    (Hr : chain_invoke w OnStructural text = Ok r)
    (Hvat : stripped udb r "vat_id" <> [])
    (Hvendor : stripped udb r "vendor_name" <> [])
    (Hdept : stripped udb r "department" <> [])
    (Htitle : stripped udb r "title" <> [])
    (Hv : r !! "order_lines" = Some v)
    (Htrue : truthy v = true) :
  let run := extract_document_endpoint udb w name content in
  (forall c, CallOcr c ∉ trace run)
  /\ (len v = None -> exists msg, outcome run = Raise (TypeError msg))
  /\ (len v <> None -> outcome run = Ok r).
Proof.
  intros run. subst run. rewrite (accepted_passes udb w name content Hacc).
  rewrite (bind_ok _ _ _ Htext), structural_text_trace.
  rewrite (bind_ok (info _) _ tt eq_refl).
  destruct (pypdf_extraction_some udb w text r Hvisible Hr) as [Ho Hquiet].
  rewrite (bind_ok _ _ _ Ho).
  pose proof (quality_gate_fifth_test udb r v Hvat Hvendor Hdept Htitle Hv Htrue) as Hgate.
  assert (r <> ∅) as Hne by (intros ->; by rewrite lookup_empty in Hv).
  destruct (len v) as [n|] eqn:Hlen.
  - rewrite Hgate. simpl. rewrite (select_or_merge_left udb r None Hne eq_refl). simpl.
    split; [|split; [done|done]].
    intros c. rewrite !app_nil_r, !elem_of_cons. intros [?|[?|Hc]]; [done|done|].
    by apply (Hquiet c).
  - rewrite Hgate. simpl. split; [|split; [by eexists|done]].
    intros c. rewrite !app_nil_r, !elem_of_cons. intros [?|[?|Hc]]; [done|done|].
    by apply (Hquiet c).
Qed.

Lemma order_lines_of_another_type_witness :
  exists msg,
    outcome (extract_document_endpoint ascii_only_db count_world upload_name upload_content)
    = Raise (TypeError msg).
Proof.
  refine (proj1 (proj2 (order_lines_of_another_type ascii_only_db count_world upload_name
                          upload_content offer_text record_with_count (PInt 3)
                          accepted_upload eq_refl _ eq_refl _ _ _ _ _ _)) _);
    try (vm_compute; discriminate); reflexivity.
Defined.

(** X7.  The gate tests the text of a field after str(): a JSON null under
    vat_id reads as the text None, so a record with a null VAT ID and the
    other four fields filled passes the gate, is returned as it is with
    the null inside, and no OCR is tried. *)
Theorem null_vat_id_passes_the_gate
    (udb : unicode_db) (w : world) (name : option str) (content : bytes) (text : str)
    (r : dict)
    (Hacc : accepted udb name content)
    (Htext : outcome (structural_text w content) = Ok text)
    (Hwf : forall r', chain_invoke w OnStructural text = Ok r' -> lines_wellformed r')
    (HA : candidate_A w text = Some r)
    (Hnull : r !! "vat_id" = Some PNone)
    (Hvendor : stripped udb r "vendor_name" <> [])
    (Hdept : stripped udb r "department" <> [])
    (Htitle : stripped udb r "title" <> [])
    (Hlines : lines_of r <> []) :
  let run := extract_document_endpoint udb w name content in
  outcome run = Ok r
  /\ get r "vat_id" (PStr []) = PNone
  /\ forall c, CallOcr c ∉ trace run.
Proof.
  intros run. subst run.
  destruct (endpoint_analysis udb w name content text Hacc Htext Hwf)
    as (o & b & Hcand & Hgate & Hout & _ & Hocr).
  destruct (candidate_A_some w text o r Hcand HA) as [-> Hne].
  assert (passes_gate udb r) as Hc.
  { repeat split; try done. unfold stripped, get. rewrite Hnull. by vm_compute. }
  assert (b = false) as -> by (apply Hgate; by exists r).
  rewrite ocr_extraction_skipped in Hout, Hocr. simpl in Hout, Hocr.
  rewrite (select_or_merge_left udb r None Hne eq_refl) in Hout, Hocr.
  split; [done|]. split; [unfold get; by rewrite Hnull|].
  intros c Hcall%Hocr. simpl in Hcall. by apply elem_of_nil in Hcall.
Qed.

Lemma null_vat_id_passes_the_gate_witness :
  outcome (extract_document_endpoint ascii_only_db null_vat_world upload_name upload_content)
  = Ok record_with_null_vat.
Proof.
  refine (proj1 (null_vat_id_passes_the_gate ascii_only_db null_vat_world upload_name
                   upload_content offer_text record_with_null_vat accepted_upload eq_refl
                   _ _ _ _ _ _ _));
    try (vm_compute; discriminate); try reflexivity.
  intros r [= <-]. vm_compute. exact I.
Defined.
(** X23.  For an uploaded PDF whose structural text was read, the OCR
    extractor is called exactly when the structural path produced no
    candidate A (the text is empty or whitespace only, or field extraction
    on it failed or came back empty) or A does not pass the gate as lines
    118-138 test it: one of the four texts str(value).strip() is empty, or
    there is no line item.  A candidate that passes is returned as it is
    and the OCR extractor is never called; a candidate with the four
    fields non-empty after trimming and a line item is one that passes. *)
Theorem ocr_runs_iff_gate_rejects
    (udb : unicode_db) (w : world) (name : option str) (content : bytes) (text : str)
    (Hacc : accepted udb name content)
    (Htext : outcome (structural_text w content) = Ok text)
    (Hwf : forall r, chain_invoke w OnStructural text = Ok r -> lines_wellformed r) :
  let run := extract_document_endpoint udb w name content in
  (CallOcr content ∈ trace run <->
     candidate_A w text = None \/ exists r, candidate_A w text = Some r /\ ~ passes_gate udb r)
  /\ (forall r, candidate_A w text = Some r -> passes_gate udb r ->
        (forall c, CallOcr c ∉ trace run) /\ outcome run = Ok r)
  /\ (forall r, complete udb r -> passes_gate udb r).
Proof.
  intros run. subst run.
  destruct (endpoint_analysis udb w name content text Hacc Htext Hwf)
    as (o & b & Hcand & Hgate & Hout & Hin & Hocr).
  assert (forall r, candidate_A w text = Some r -> o = Some r /\ r <> ∅) as HA.
  { intros r Hr. rewrite Hcand in Hr. destruct o as [r'|]; simpl in *; [|done].
    unfold dict_truthy in Hr. case_bool_decide; simpl in Hr; [done|]. by simplify_eq. }
  assert (forall r, o = Some r -> r <> ∅ -> candidate_A w text = Some r) as HA'.
  { intros r -> Hr. rewrite Hcand. simpl. unfold dict_truthy.
    by rewrite bool_decide_eq_false_2. }
  split; [|split; [|apply complete_passes_gate]].
  - split.
    + intros Hcall. destruct b.
      * destruct (candidate_A w text) as [r|] eqn:HcA; [|by left].
        right. exists r. split; [done|]. intros Hc.
        destruct (HA r eq_refl) as [-> _].
        assert (true = false); [|done]. apply Hgate. by exists r.
      * exfalso. apply Hocr in Hcall. rewrite ocr_extraction_skipped in Hcall.
        simpl in Hcall. destruct (select_or_merge udb o None) as [r t] eqn:Hs.
        simpl in Hcall. apply (select_or_merge_no_ocr udb o None content).
        by rewrite Hs.
    + intros Hneed. destruct b.
      * apply Hin, trace_bind_incl, ocr_extraction_calls.
      * exfalso. destruct (proj1 Hgate eq_refl) as (r & -> & Hc).
        pose proof (HA' r eq_refl (passes_gate_nonempty udb r Hc)) as HcA.
        destruct Hneed as [Hnone|(r' & Hsome & Hnc)]; [congruence|].
        rewrite HcA in Hsome. by simplify_eq.
  - intros r HcA Hc. destruct (HA r HcA) as [-> Hne].
    assert (b = false) as -> by (apply Hgate; by exists r).
    rewrite ocr_extraction_skipped in Hout, Hocr. simpl in Hout, Hocr.
    rewrite (select_or_merge_left udb r None Hne eq_refl) in Hout, Hocr.
    split; [|done]. intros c Hcall. apply Hocr in Hcall. simpl in Hcall.
    by apply elem_of_nil in Hcall.
Qed.

Lemma ocr_runs_iff_gate_rejects_witness :
  (forall c, CallOcr c ∉ trace (extract_document_endpoint ascii_only_db digital_world
                                  upload_name upload_content))
  /\ outcome (extract_document_endpoint ascii_only_db digital_world upload_name upload_content)
     = Ok complete_record.
Proof.
  refine (proj1 (proj2 (ocr_runs_iff_gate_rejects ascii_only_db digital_world
                          upload_name upload_content offer_text accepted_upload eq_refl _))
                complete_record _ _).
  - intros r [= <-]. vm_compute. exact I.
  - vm_compute. reflexivity.
  - vm_compute. repeat split; discriminate.
Defined.
End GateEdges.

Section CallSequence.
Import Py Ai Spec Props Examples MoreExamples.

Lemma calls_app (t1 t2 : list event) : calls (t1 ++ t2) = calls t1 ++ calls t2.
Proof. apply List.filter_app. Qed.

Lemma calls_bind {A B} (c : M A) (f : A -> M B) :
  calls (trace (bind c f))
  = calls (trace c) ++ match outcome c with
                       | Ok a => calls (trace (f a))
                       | Raise _ => []
                       end.
Proof.
  destruct c as [[a|e] t]; simpl.
  - destruct (f a) as [r t']. simpl. apply calls_app.
  - by rewrite app_nil_r.
Qed.

Lemma calls_pypdf_extraction udb w text :
  calls (trace (pypdf_extraction udb w text)) = []
  \/ calls (trace (pypdf_extraction udb w text)) = [CallExtract OnStructural text].
Proof.
  unfold pypdf_extraction. destruct (truthy (PStr (strip text))); [|by left].
  unfold extract_document. simpl.
  destruct (chain_invoke w OnStructural text); simpl; by right.
Qed.

Lemma calls_quality_gate udb o : calls (trace (quality_gate udb o)) = [].
Proof.
  unfold quality_gate. destruct o as [r|]; [|done].
  repeat match goal with
         | |- context [if ?b then _ else _] => destruct b; [done|]
         end.
  destruct (len _) as [n|]; [|done]. by destruct (n =? 0).
Qed.

Lemma calls_select_or_merge udb o1 o2 : calls (trace (select_or_merge udb o1 o2)) = [].
Proof.
  unfold select_or_merge. by destruct (opt_truthy o1), (opt_truthy o2).
Qed.

Lemma calls_ocr_extraction udb w content o b :
  calls (trace (ocr_extraction udb w content o b)) = []
  \/ calls (trace (ocr_extraction udb w content o b)) = [CallOcr content]
  \/ exists ocr_text,
       calls (trace (ocr_extraction udb w content o b))
       = [CallOcr content; CallExtract OnOcr ocr_text].
Proof.
  unfold ocr_extraction. destruct b; [|by left]. simpl.
  rewrite (M_eta (extract_text_with_ocr w content)), extract_text_with_ocr_trace.
  destruct (outcome (extract_text_with_ocr w content)) as [ocr_text|e]; simpl.
  - unfold extract_document. simpl. right. right. exists ocr_text.
    destruct (chain_invoke w OnOcr ocr_text); simpl; [done|].
    by destruct (negb (opt_truthy o)).
  - right. left. by destruct (negb (opt_truthy o)).
Qed.

(** X8.  Whatever the upload and whatever the libraries answer, the calls
    the endpoint makes are, in this order: the PDF reader once (never, for
    a rejected upload); then at most one call of the field extractor, on
    the structural text; then at most one call of the OCR extractor,
    followed by at most one call of the field extractor on the OCR text.
    No service is called twice, and the field extractor is never called
    on OCR text without OCR having run. *)
Theorem upload_call_sequence
    (udb : unicode_db) (w : world) (name : option str) (content : bytes) :
  let made := calls (trace (extract_document_endpoint udb w name content)) in
  made = []
  \/ exists on_text on_ocr,
       made = CallPdfReader content :: on_text ++ on_ocr
       /\ (on_text = [] \/ exists text, on_text = [CallExtract OnStructural text])
       /\ (on_ocr = [] \/ on_ocr = [CallOcr content]
           \/ exists ocr_text, on_ocr = [CallOcr content; CallExtract OnOcr ocr_text]).
Proof.
  intros made. subst made.
  destruct (rejected_or_accepted udb w name content) as [Hacc|[_ (detail & ->)]];
    [|by left].
  right. rewrite (accepted_passes udb w name content Hacc).
  rewrite calls_bind, structural_text_trace. simpl calls at 1.
  destruct (outcome (structural_text w content)) as [text|e].
  2:{ exists [], []. split; [done|]. split; by left. }
  rewrite calls_bind. simpl outcome. cbv iota. simpl calls at 1.
  rewrite calls_bind.
  destruct (pypdf_extraction_spec udb w text) as (o & Ho & _). rewrite Ho.
  exists (calls (trace (pypdf_extraction udb w text))).
  rewrite calls_bind, calls_quality_gate.
  destruct (outcome (quality_gate udb o)) as [b|e].
  2:{ exists []. split; [done|]. split; [|by left].
      destruct (calls_pypdf_extraction udb w text) as [->| ->]; [by left|right; by eexists]. }
  rewrite calls_bind.
  exists (calls (trace (ocr_extraction udb w content o b))). split.
  - simpl. f_equal. f_equal.
    destruct (outcome (ocr_extraction udb w content o b)); simpl;
      by rewrite ?calls_select_or_merge, app_nil_r.
  - split.
    + destruct (calls_pypdf_extraction udb w text) as [->| ->]; [by left|right; by eexists].
    + apply calls_ocr_extraction.
Qed.
End CallSequence.

(* ===================================================================== *)
(** * Further properties: the merge                                       *)
(* ===================================================================== *)

Section MergeExtras.
Import Py Ai Spec Props Examples MoreExamples.

Lemma merge_field_provenance udb (k : string) (a b : value) :
  merge_field udb k a b = a \/ merge_field udb k a b = b
  \/ (k = "order_lines" /\ merge_field udb k a b = PList []).
Proof.
  unfold merge_field. case_bool_decide as Hk.
  - cbv zeta. destruct (is_list a), (is_list b);
      match goal with |- context [if ?c then _ else _] => destruct c end; auto.
  - destruct (_ || _).
    + cbv zeta. destruct (truthy _); auto.
    + cbv zeta. repeat match goal with
                       | |- context [if ?c then _ else _] => destruct c; auto
                       end.
Qed.

(** X9.  The merged record has exactly the keys of the two candidates,
    and every value in it is the structural candidate's or the OCR
    candidate's value for that key (the empty string standing for a key a
    candidate lacks); the one exception is the empty list put under
    order_lines when neither candidate has a list there.  The merge
    neither drops a field nor makes up a value. *)
Theorem merge_keeps_keys_and_values (udb : unicode_db) (A B : dict) :
  dom (merge_results udb A B) = dom A ∪ dom B
  /\ forall k v,
       merge_results udb A B !! k = Some v ->
       v = get A k (PStr []) \/ v = get B k (PStr [])
       \/ (k = "order_lines" /\ v = PList []).
Proof.
  split; [apply merge_results_dom|]. intros k v. rewrite merge_results_lookup.
  destruct (decide (k ∈ dom A ∪ dom B)); [|done]. intros [= <-].
  destruct (merge_field_provenance udb k (get A k (PStr [])) (get B k (PStr [])))
    as [->|[->|[-> ->]]]; auto.
Qed.

Lemma merge_field_same udb (k : string) (v : value) :
  (k = "order_lines" -> is_list v = true) -> merge_field udb k v v = v.
Proof.
  intros Hlist. unfold merge_field. case_bool_decide as Hk.
  - rewrite (Hlist Hk). by rewrite bool_decide_eq_true_2.
  - destruct (_ || _); cbv zeta.
    + by destruct (truthy _).
    + repeat match goal with
             | |- context [if ?c then _ else _] => destruct c; try done
             end.
Qed.

(** X10.  Merging a record with itself gives the record back, provided
    its order_lines, when present, is a list. *)
Theorem merge_with_itself (udb : unicode_db) (A : dict) (Hlist : lines_listed A) :
  merge_results udb A A = A.
Proof.
  apply map_eq. intros k. rewrite merge_results_lookup.
  destruct (decide (k ∈ dom A ∪ dom A)) as [Hin|Hout].
  - assert (k ∈ dom A) as [v Hv]%elem_of_dom by set_solver.
    unfold get. rewrite Hv. simpl. f_equal. apply merge_field_same.
    intros ->. unfold lines_listed in Hlist. rewrite Hv in Hlist. by destruct v.
  - symmetry. apply not_elem_of_dom. set_solver.
Qed.

Lemma merge_with_itself_witness :
  merge_results ascii_only_db complete_record complete_record = complete_record.
Proof.
  apply (merge_with_itself ascii_only_db complete_record). vm_compute. exact I.
Defined.

(** X11.  A field that only one candidate has.  Outside order_lines, a
    field only the structural candidate has is kept as it is; a field only
    the OCR candidate has is kept when its trimmed string form is not
    empty, and otherwise (null, 0, false, blank text, empty list) the
    merged record holds the empty string in its place.  A list of line
    items that only one candidate has is kept. *)
Theorem merge_one_sided_fields (udb : unicode_db) (A B : dict) (k : string) (v : value) :
  (k <> "order_lines" -> A !! k = Some v -> B !! k = None ->
   merge_results udb A B !! k = Some v)
  /\ (k <> "order_lines" -> A !! k = None -> B !! k = Some v ->
      merge_results udb A B !! k
      = Some (if bool_decide (trimmed udb v = []) then PStr [] else v))
  /\ (forall l, A !! "order_lines" = Some (PList l) -> B !! "order_lines" = None ->
                merge_results udb A B !! "order_lines" = Some (PList l))
  /\ (forall l, A !! "order_lines" = None -> B !! "order_lines" = Some (PList l) ->
                merge_results udb A B !! "order_lines" = Some (PList l)).
Proof.
  repeat split.
  - intros Hk HA HB. rewrite merge_results_lookup, decide_True.
    2:{ apply elem_of_union. left. apply elem_of_dom. by eexists. }
    unfold get. rewrite HA, HB. simpl. f_equal. unfold merge_field.
    rewrite (bool_decide_eq_false_2 _ Hk). destruct (_ || _); cbv zeta.
    + done.
    + rewrite !str_or_empty_trimmed. change (trimmed udb (PStr [])) with (@nil N).
      rewrite (proj2 (truthy_PStr_false []) eq_refl), andb_false_r. simpl negb.
      rewrite andb_true_l. destruct (truthy (PStr (trimmed udb v))); [done|].
      rewrite bool_decide_eq_false_2; [done|]. simpl. lia.
  - intros Hk HA HB. rewrite merge_results_lookup, decide_True.
    2:{ apply elem_of_union. right. apply elem_of_dom. by eexists. }
    unfold get. rewrite HA, HB. simpl. f_equal. unfold merge_field.
    rewrite (bool_decide_eq_false_2 _ Hk). destruct (_ || _); cbv zeta.
    + rewrite !str_or_empty_trimmed.
      case_bool_decide as Hv.
      * by rewrite (proj2 (truthy_PStr_false _) Hv).
      * by rewrite (proj2 (truthy_PStr _) Hv).
    + rewrite !str_or_empty_trimmed. change (trimmed udb (PStr [])) with (@nil N).
      rewrite (proj2 (truthy_PStr_false []) eq_refl). simpl negb. rewrite andb_true_l.
      case_bool_decide as Hv.
      * rewrite (proj2 (truthy_PStr_false _) Hv), Hv. simpl.
        rewrite ?bool_decide_eq_false_2 by lia. done.
      * by rewrite (proj2 (truthy_PStr _) Hv).
  - intros l HA HB. rewrite merge_results_lookup, decide_True.
    2:{ apply elem_of_union. left. apply elem_of_dom. by eexists. }
    rewrite merge_field_order_lines. unfold lines_of. rewrite HA, HB.
    by rewrite bool_decide_eq_true_2 by (simpl; lia).
  - intros l HA HB. rewrite merge_results_lookup, decide_True.
    2:{ apply elem_of_union. right. apply elem_of_dom. by eexists. }
    rewrite merge_field_order_lines. unfold lines_of. rewrite HA, HB.
    destruct l as [|x l]; [by rewrite bool_decide_eq_true_2|].
    by rewrite bool_decide_eq_false_2 by (simpl; lia).
Qed.
End MergeExtras.

(* ===================================================================== *)
(** * Further properties: the VAT ID validator                            *)
(* ===================================================================== *)

Section VatExtras.
Import Py Re Models Spec Props Examples MoreExamples.

Lemma vat_shape_chars (s : str) :
  vat_shape s -> 4 <= length s <= 15 /\ Forall vat_char s.
Proof.
  intros [(a & b & rest & -> & Ha & Hb & Hl & Hall)
         |[(front & back & -> & Hl1 & Ha1 & Hl2 & Ha2)|[Hl Hall]]].
  - split; [simpl; lia|]. repeat apply Forall_cons_2.
    + left. by left.
    + left. by left.
    + eapply Forall_impl; [exact Hall|]. intros c Hc. by left.
  - split; [rewrite length_app; simpl; lia|]. apply Forall_app. split.
    + eapply Forall_impl; [exact Ha1|]. intros c Hc. left. by right.
    + apply Forall_cons_2; [by right|].
      eapply Forall_impl; [exact Ha2|]. intros c Hc. left. by right.
  - split; [lia|]. eapply Forall_impl; [exact Hall|]. intros c Hc. left. by right.
Qed.

Ltac decide_comparisons :=
  repeat match goal with
         | |- context [(?a <=? ?b)%N] => destruct (N.leb_spec a b); try lia
         | |- context [(?a <? ?b)%N] => destruct (N.ltb_spec a b); try lia
         | |- context [(?a =? ?b)%N] => destruct (N.eqb_spec a b); try lia
         end.

Lemma vat_char_plain (c : N) :
  vat_char c ->
  isspace c = false /\ (c <? 128)%N = true /\ ascii_upper c = c /\ (c =? 0x20)%N = false.
Proof.
  unfold vat_char, alphanumeric, letter, numeric, isspace, ascii_upper.
  intros [[Hc|Hc]| ->]; [| |by vm_compute]; repeat split; decide_comparisons; done.
Qed.

Lemma lstrip_plain (s : str) : Forall vat_char s -> lstrip s = s.
Proof.
  intros Hs. destruct Hs as [|c s Hc _]; [done|]. simpl.
  by rewrite (proj1 (vat_char_plain c Hc)).
Qed.

(** Text made of the characters of VAT IDs is left as it is by the
    normalisation. *)
Lemma clean_plain udb (s : str) : Forall vat_char s -> clean udb s = s.
Proof.
  intros Hs. unfold clean, strip, rstrip. rewrite (lstrip_plain s Hs).
  rewrite lstrip_plain by by apply Forall_rev. rewrite rev_involutive.
  assert (upper udb s = s) as ->.
  { unfold upper. induction Hs as [|c s Hc _ IH]; [done|]. simpl. rewrite IH.
    destruct (vat_char_plain c Hc) as (_ & -> & -> & _). done. }
  unfold replace1. induction Hs as [|c s Hc _ IH]; [done|]. simpl. rewrite IH.
  destruct (vat_char_plain c Hc) as (_ & _ & _ & ->). done.
Qed.

(** X12.  A VAT ID the validator accepts comes back as 4 to 15 characters,
    every one of them a capital letter A-Z, a digit or a hyphen: no
    whitespace, no lower-case letter, and always short enough for the
    20-character limit of the field. *)
Theorem accepted_vat_id_shape
    (udb : unicode_db) (Hsane : upper_sane udb) (v w : str)
    (Hok : validate_vat_id udb v = Ok w) :
  4 <= length w <= 15 /\ Forall vat_char w.
Proof.
  destruct (validate_vat_id_spec udb Hsane v) as [[Hs Hv]|[_ Hv]];
    rewrite Hv in Hok; [|done].
  injection Hok as <-. by apply vat_shape_chars.
Qed.

Lemma ascii_only_sane : upper_sane ascii_only_db.
Proof.
  intros c Hc. simpl. split; [done|].
  split; intros H%list_elem_of_singleton; lia.
Defined.

Lemma accepted_vat_id_shape_witness :
  4 <= length (lit "ATU12345678") <= 15 /\ Forall vat_char (lit "ATU12345678").
Proof.
  exact (accepted_vat_id_shape ascii_only_db ascii_only_sane (lit " atu 1234 5678 ")
           (lit "ATU12345678") eq_refl).
Defined.

(** X13.  Validation is idempotent: a value the validator returned is
    accepted again and comes back unchanged, by the validator and by the
    whole field (length limits included).  What is stored can be
    validated again without change. *)
Theorem validated_vat_id_is_stable
    (udb : unicode_db) (Hsane : upper_sane udb) (v w : str)
    (Hok : validate_vat_id udb v = Ok w) :
  validate_vat_id udb w = Ok w /\ vat_id_field udb w = Some w.
Proof.
  destruct (validate_vat_id_spec udb Hsane v) as [[Hs Hv]|[_ Hv]];
    rewrite Hv in Hok; [|done].
  injection Hok as <-. set (w := clean udb v) in *.
  destruct (vat_shape_chars w Hs) as [Hlen Hchars].
  pose proof (clean_plain udb w Hchars) as Hfix.
  assert (validate_vat_id udb w = Ok w) as Hagain.
  { destruct (validate_vat_id_spec udb Hsane w) as [[_ Hw]|[Hn _]].
    - by rewrite Hw, Hfix.
    - by rewrite Hfix in Hn. }
  split; [done|]. unfold vat_id_field. rewrite Hagain.
  destruct (length w <? 1) eqn:H1; [apply Nat.ltb_lt in H1; lia|].
  destruct (20 <? length w) eqn:H2; [apply Nat.ltb_lt in H2; lia|]. done.
Qed.

Lemma validated_vat_id_is_stable_witness :
  validate_vat_id ascii_only_db (lit "ATU12345678") = Ok (lit "ATU12345678")
  /\ vat_id_field ascii_only_db (lit "ATU12345678") = Some (lit "ATU12345678").
Proof.
  exact (validated_vat_id_is_stable ascii_only_db ascii_only_sane (lit " atu 1234 5678 ")
           (lit "ATU12345678") eq_refl).
Defined.

(** X14.  The compiled pattern by itself accepts more than the three
    formats: because of the final dollar sign, VAT_ID_PATTERN.match also
    accepts a text of one of the formats followed by one line feed, and
    nothing else.  The validator is not affected: it strips the input
    first, and for such an input returns the text without the line
    feed. *)
Theorem pattern_allows_final_line_feed :
  (forall s, match_anchored VAT_ID_PATTERN s = true <->
             vat_shape s \/ exists s', s = s' ++ [0x0A%N] /\ vat_shape s')
  /\ match_anchored VAT_ID_PATTERN (lit "DE123456789" ++ [0x0A%N]) = true
  /\ forall udb, validate_vat_id udb (lit "DE123456789" ++ [0x0A%N])
                 = Ok (lit "DE123456789").
Proof.
  split; [|split; [reflexivity|reflexivity]].
  intros s. rewrite match_anchored_spec, lang_VAT_ID_PATTERN. split.
  - intros [H|(s' & -> & H)]; [by left|right]. exists s'. split; [done|].
    by apply lang_VAT_ID_PATTERN.
  - intros [H|(s' & -> & H)]; [by left|right]. exists s'. split; [done|].
    by apply lang_VAT_ID_PATTERN.
Qed.
End VatExtras.

(* ===================================================================== *)
(** * Further properties: the request store                               *)
(* ===================================================================== *)

Section RequestIds.
Import Py Models Database App Requests Spec Props Examples MoreExamples.

Lemma length_append_text (s t : text) :
  String.length (s +:+ t) = String.length s + String.length t.
Proof. induction s as [|a s IH]; simpl; [done|]. by rewrite <- IH. Qed.

Lemma length_zeros (n : nat) : String.length (zeros n) = n.
Proof. induction n as [|n IH]; simpl; [done|]. by rewrite IH. Qed.

(** X15.  A request id is the text REQ- followed by the number in decimal,
    zero-padded to four digits and never cut: the digits read back as the
    number, so different numbers give different ids, also beyond 9999. *)
Theorem request_id_format (k : N) :
  (exists digits,
      format_request_id k = "REQ-" +:+ digits
      /\ 4 <= String.length digits
      /\ N.of_uint <$> NilEmpty.uint_of_string digits = Some k)
  /\ (forall k', format_request_id k = format_request_id k' -> k = k')
  /\ format_request_id 1 = "REQ-0001"
  /\ format_request_id 12345 = "REQ-12345".
Proof.
  split; [|split; [|split; reflexivity]].
  - exists (pad4 (decimal k)). split; [done|]. split.
    + unfold pad4. rewrite length_append_text, length_zeros. lia.
    + unfold pad4, decimal.
      destruct (zeros_parse (4 - String.length (NilEmpty.string_of_uint (N.to_uint k)))
                  _ _ (NilEmpty.usu (N.to_uint k))) as (u & -> & Hu).
      simpl. by rewrite Hu, DecimalN.Unsigned.of_to.
  - intros k'. apply format_request_id_inj.
Qed.

Lemma filter_unknown_id (rows : list request_row) (request_id : text) :
  request_id ∉ req_id <$> rows -> filter (fun r => req_id r = request_id) rows = [].
Proof.
  intros Hnew. induction rows as [|r rows IH]; [done|].
  rewrite fmap_cons in Hnew. apply not_elem_of_cons in Hnew as [Hne Hnew].
  rewrite filter_cons_False by done. by apply IH.
Qed.

(** X16.  In every reachable state with n requests the stored ids are
    REQ-0001 ... up to the n-th, in the order of creation and without
    repetition, the next request gets the number n+1, and the
    get-by-id handler answers 404 exactly for the ids that are not among
    them. *)
Theorem stored_ids_are_sequential (d : db) (Hd : reachable d) :
  let n := length (procurement_requests d) in
  req_id <$> procurement_requests d
  = (fun k => format_request_id (N.of_nat k)) <$> seq 1 n
  /\ NoDup (req_id <$> procurement_requests d)
  /\ get_next_request_id d = format_request_id (N.of_nat (S n))
  /\ (forall k, 1 <= k <= n ->
        exists found,
          get_request_endpoint d (format_request_id (N.of_nat k)) = Ok found
          /\ rec_id found = format_request_id (N.of_nat k))
  /\ (forall request_id,
        get_request_endpoint d request_id = Raise not_found
        <-> ~ exists k, 1 <= k <= n /\ request_id = format_request_id (N.of_nat k)).
Proof.
  intros n. pose proof (reachable_inv d Hd) as Hinv.
  assert (forall request_id,
             request_id ∈ req_id <$> procurement_requests d
             <-> exists k, 1 <= k <= n /\ request_id = format_request_id (N.of_nat k))
    as Hknown.
  { intros request_id. rewrite (inv_ids d Hinv), list_elem_of_fmap. fold n. split.
    - intros (k & -> & Hk%elem_of_seq). exists k. split; [lia|done].
    - intros (k & Hk & ->). exists k. split; [done|]. apply elem_of_seq. lia. }
  split; [apply (inv_ids d Hinv)|]. split; [by apply ids_NoDup|]. split.
  { unfold get_next_request_id. f_equal. fold n. lia. }
  split.
  - intros k Hk. unfold get_request_endpoint.
    destruct (proj2 (get_request_known d (format_request_id (N.of_nat k)))) as [found Hf].
    { apply Hknown. by exists k. }
    rewrite Hf. exists found. split; [done|].
    by destruct (get_request_view d _ found Hinv Hf) as (-> & _).
  - intros request_id. rewrite <- Hknown, <- get_request_known.
    unfold get_request_endpoint. destruct (get_request d request_id) as [found|].
    + split; [done|]. intros H. destruct H. by eexists.
    + split; [|done]. intros _ [? ?]. done.
Qed.

Lemma stored_ids_are_sequential_witness :
  reachable (apply_op init_database (CreateRequest example_request "2026-01-05T09:00:00"))
  /\ req_id <$> procurement_requests
                  (apply_op init_database (CreateRequest example_request "2026-01-05T09:00:00"))
     = ["REQ-0001"].
Proof.
  split; [apply reach_step, reach_init|].
  exact (proj1 (stored_ids_are_sequential _ (reach_step _ _ reach_init))).
Defined.
End RequestIds.

Section RequestData.
Import Py Models Database App Requests Spec Props Examples MoreExamples.

(** The rows INSERT INTO order_lines adds for the lines of one request. *)
Lemma insert_order_lines_rows (request_id : text) (lines : list order_line) (d : db) :
  exists new,
    order_lines (foldl (insert_order_line request_id) d lines) = order_lines d ++ new
    /\ Forall (fun row => ol_request_id row = request_id) new
    /\ (fun row => {| description := ol_description row; unit_price := ol_unit_price row;
                      amount := ol_amount row; line_unit := ol_unit row;
                      total_price := ol_total_price row |}) <$> new = lines.
Proof.
  revert d. induction lines as [|line lines IH]; intros d; simpl.
  - exists []. by rewrite app_nil_r.
  - destruct (IH (insert_order_line request_id d line)) as (new & -> & Hall & Hback).
    simpl. eexists (_ :: new). rewrite <- app_assoc. split; [done|]. split.
    + by apply Forall_cons_2.
    + rewrite fmap_cons, Hback. by destruct line.
Qed.

Lemma filter_all {A} (P : A -> Prop) `{forall x, Decision (P x)} (l : list A) :
  Forall P l -> filter P l = l.
Proof.
  induction 1 as [|x l Hx _ IH]; [done|]. by rewrite filter_cons_True, IH.
Qed.

Lemma filter_none {A} (P : A -> Prop) `{forall x, Decision (P x)} (l : list A) :
  Forall (fun x => ~ P x) l -> filter P l = [].
Proof.
  induction 1 as [|x l Hx _ IH]; [done|]. by rewrite filter_cons_False, IH.
Qed.

(** Creation and status update keep every order line with its request. *)
Lemma create_request_lines_owned (d : db) (data : request_data) (now : text) :
  lines_owned d -> lines_owned (snd (create_request d data now)).
Proof.
  intros Hown. destruct (storable_dec data) as [Hfit|Hbig].
  2:{ by destruct (create_request_unstorable d data now Hbig) as [e ->]. }
  rewrite (create_request_storable _ _ _ Hfit). cbv zeta. case_bool_decide; [done|]. simpl.
  set (d1 := insert_request _ d).
  destruct (insert_order_lines_other (get_next_request_id d) (data_order_lines data) d1)
    as (Hrows & _).
  destruct (insert_order_lines_rows (get_next_request_id d) (data_order_lines data) d1)
    as (new & Hlines & Hall & _).
  unfold lines_owned. simpl. rewrite Hrows, Hlines. simpl. rewrite fmap_app.
  apply Forall_app. split.
  - eapply Forall_impl; [exact Hown|]. simpl. intros row Hrow. apply elem_of_app. by left.
  - eapply Forall_impl; [exact Hall|]. simpl. intros row ->. apply elem_of_app.
    right. simpl. left.
Qed.

Lemma update_request_status_lines_owned (d : db) (request_id st now : text) :
  lines_owned d -> lines_owned (snd (update_request_status d request_id st now)).
Proof.
  intros Hown. unfold update_request_status.
  destruct (filter (fun r => req_id r = request_id) (procurement_requests d))
    as [|found rest]; [done|].
  unfold lines_owned. simpl. rewrite <- list_fmap_compose.
  erewrite list_fmap_ext; [exact Hown|]. intros i x _. simpl. apply req_id_set_status.
Qed.

Lemma reachable_lines_owned (d : db) : reachable d -> lines_owned d.
Proof.
  induction 1 as [|d o _ IH]; [constructor|]. destruct o; simpl.
  - by apply create_request_lines_owned.
  - by apply update_request_status_lines_owned.
  - done.
Qed.

(** X17.  Round trip: in every reachable state, creating a request whose
    amounts fit the INTEGER column (64 bits with sign) and reading what
    create_request returns (or get_request for its id) gives back every
    submitted field and every line item, in order and unchanged.  A
    request with an amount outside that range is not stored at all:
    create_request raises OverflowError, the database stays as it was and
    the id is still unknown. *)
Theorem created_request_reads_back
    (d : db) (Hd : reachable d) (data : request_data) (now : text) :
  (storable data ->
   exists rec d',
     create_request d data now = (Ok (Some rec), d')
     /\ get_request d' (get_next_request_id d) = Some rec
     /\ rec_data rec = data)
  /\ (~ storable data ->
      create_request d data now = (Raise too_large, d)
      /\ get_request d (get_next_request_id d) = None).
Proof.
  pose proof (reachable_inv d Hd) as Hinv.
  pose proof (reachable_lines_owned d Hd) as Hown.
  pose proof (next_request_id_fresh d Hinv) as Hfresh.
  split.
  2:{ intros Hbig. split; [by apply create_request_overflow|].
      destruct (get_request d (get_next_request_id d)) as [rec|] eqn:Hrec; [|done].
      destruct Hfresh. apply get_request_known. by eexists. }
  intros Hfit. rewrite (create_request_storable _ _ _ Hfit).
  cbv zeta. rewrite (bool_decide_eq_false_2 _ Hfresh).
  set (request_id := get_next_request_id d) in *.
  set (row := {| req_id := request_id |}). set (d1 := insert_request row d).
  destruct (insert_order_lines_other request_id (data_order_lines data) d1)
    as (Hrows & _).
  destruct (insert_order_lines_rows request_id (data_order_lines data) d1)
    as (new & Hlines & Hall & Hback).
  set (d3 := insert_status_history _ _ _ _).
  assert (filter (fun r => req_id r = request_id) (procurement_requests d3) = [row]) as Hrow.
  { subst d3. simpl. rewrite Hrows. subst d1. simpl.
    rewrite filter_app, (filter_unknown_id _ _ Hfresh). simpl.
    rewrite filter_cons_True by reflexivity. by rewrite filter_nil. }
  assert (filter (fun line => ol_request_id line = request_id) (order_lines d3) = new) as Hnew.
  { subst d3. simpl. rewrite Hlines. subst d1. simpl. rewrite filter_app, (filter_all _ _ Hall).
    rewrite filter_none; [done|]. eapply Forall_impl; [exact Hown|]. simpl.
    intros line Hline Heq. apply Hfresh. by rewrite <- Heq. }
  assert (exists rec, get_request d3 request_id = Some rec /\ rec_data rec = data)
    as (rec & Hget & Hdata).
  { unfold get_request. rewrite Hrow, Hnew, Hback. eexists. split; [done|].
    simpl. by destruct data. }
  exists rec, d3. by rewrite Hget.
Qed.

Lemma created_request_reads_back_witness :
  reachable init_database
  /\ storable example_request
  /\ (exists rec d',
        create_request init_database example_request "2026-01-05T09:00:00" = (Ok (Some rec), d')
        /\ get_request d' "REQ-0001" = Some rec
        /\ rec_data rec = example_request)
  /\ ~ storable big_request
  /\ create_request init_database big_request "2026-01-05T09:00:00"
     = (Raise too_large, init_database).
Proof.
  split; [apply reach_init|]. split; [exact example_request_storable|]. split.
  - exact (proj1 (created_request_reads_back init_database reach_init example_request
                    "2026-01-05T09:00:00") example_request_storable).
  - split; [exact big_request_not_storable|].
    exact (proj1 (proj2 (created_request_reads_back init_database reach_init big_request
                           "2026-01-05T09:00:00") big_request_not_storable)).
Defined.

(** X18.  What was submitted stays as it was: no later write (creating
    another request, any status update, a cache write) changes the id, the
    data fields, the line items or the creation time that get_request
    reports for a stored request. *)
Theorem stored_request_data_is_immutable
    (d : db) (Hd : reachable d) (o : op) (request_id : text) (old : request_record)
    (Hold : get_request d request_id = Some old) :
  exists new,
    get_request (apply_op d o) request_id = Some new
    /\ rec_id new = rec_id old
    /\ rec_data new = rec_data old
    /\ rec_created_at new = rec_created_at old.
Proof.
  pose proof (reachable_inv d Hd) as Hinv.
  assert (request_id ∈ req_id <$> procurement_requests d) as Hknown
    by (apply get_request_known; by eexists).
  destruct o as [data now|other st now|hash name data now]; simpl.
  - pose proof (next_request_id_fresh d Hinv) as Hfresh.
    assert (get_next_request_id d <> request_id) as Hne by (intros Heq; by rewrite Heq in Hfresh).
    destruct (storable_dec data) as [Hfit|Hbig].
    2:{ destruct (create_request_unstorable d data now Hbig) as [e ->]. by exists old. }
    rewrite (create_request_storable _ _ _ Hfit).
    cbv zeta. rewrite (bool_decide_eq_false_2 _ Hfresh). simpl.
    set (row := {| req_id := get_next_request_id d |}). set (d1 := insert_request row d).
    destruct (insert_order_lines_other (get_next_request_id d) (data_order_lines data) d1)
      as (Hrows & _).
    destruct (insert_order_lines_rows (get_next_request_id d) (data_order_lines data) d1)
      as (new & Hlines & Hall & _).
    unfold get_request in *. simpl. rewrite Hrows, Hlines. subst d1. simpl.
    rewrite !filter_app, (filter_cons_False _ row) by done. rewrite filter_nil, app_nil_r.
    rewrite (filter_none (fun line => ol_request_id line = request_id) new).
    2:{ eapply Forall_impl; [exact Hall|]. simpl. intros line -> ?. done. }
    rewrite app_nil_r.
    destruct (filter (fun r => req_id r = request_id) (procurement_requests d))
      as [|found rest]; [done|].
    injection Hold as <-. eexists. split; [done|]. done.
  - destruct (decide (other = request_id)) as [->|Hne].
    + destruct (update_request_status_spec d request_id st now old Hinv Hold)
        as (new & d' & -> & Hnew & _ & _ & Hid & Hdata & Hat).
      by exists new.
    + pose proof (update_request_status_order_lines d other st now) as Hlines.
      destruct (update_request_status_shape d other st now)
        as [[_ Hrun]|(_ & d' & Hrun & Hrows & Hhist & _)];
        rewrite Hrun in Hlines |- *; simpl in *.
      * by exists old.
      * unfold get_request in *. rewrite Hrows, Hlines, (filter_other_status _ _ _ _ Hne).
        destruct (filter (fun r => req_id r = request_id) (procurement_requests d))
          as [|found rest]; [done|].
        injection Hold as <-. eexists. split; [done|]. done.
  - exists old. done.
Qed.

Lemma stored_request_data_is_immutable_witness :
  exists new,
    get_request
      (apply_op (apply_op init_database (CreateRequest example_request "2026-01-05T09:00:00"))
                (UpdateStatus "REQ-0001" "Closed" "2026-01-09T16:45:00"))
      "REQ-0001" = Some new
    /\ rec_data new = example_request.
Proof.
  destruct (stored_request_data_is_immutable
              (apply_op init_database (CreateRequest example_request "2026-01-05T09:00:00"))
              (reach_step _ _ reach_init)
              (UpdateStatus "REQ-0001" "Closed" "2026-01-09T16:45:00") "REQ-0001"
              _ eq_refl) as (new & Hnew & _ & Hdata & _).
  exists new. split; [exact Hnew|exact Hdata].
Defined.
End RequestData.

Section AllRequests.
Import Py Models Database App Requests Spec Props Examples MoreExamples.

Lemma insert_by_created_at_perm (r : request_row) (l : list request_row) :
  insert_by_created_at r l ≡ₚ r :: l.
Proof.
  induction l as [|x l IH]; simpl; [done|].
  destruct (String.ltb _ _); [|done]. rewrite IH. apply Permutation_swap.
Qed.

Lemma order_by_created_at_desc_perm (l : list request_row) :
  order_by_created_at_desc l ≡ₚ l.
Proof.
  induction l as [|x l IH]; simpl; [done|].
  rewrite insert_by_created_at_perm. by rewrite IH.
Qed.

(** Not before: the creation time of [b] is not greater than that of [a]. *)
Lemma ltb_leb (s t : text) : String.ltb s t = true -> String.leb s t = true.
Proof. unfold String.ltb, String.leb. by destruct (String.compare s t). Qed.

Lemma not_ltb_leb (s t : text) : String.ltb s t = false -> String.leb t s = true.
Proof.
  unfold String.ltb, String.leb. rewrite (String.compare_antisym t s).
  by destruct (String.compare s t).
Qed.

Lemma insert_by_created_at_sorted (r : request_row) (l : list request_row) :
  Sorted (fun a b => String.leb (req_created_at b) (req_created_at a) = true) l ->
  Sorted (fun a b => String.leb (req_created_at b) (req_created_at a) = true)
         (insert_by_created_at r l).
Proof.
  induction 1 as [|x l Hl IH Hx]; simpl; [by repeat constructor|].
  destruct (String.ltb (req_created_at r) (req_created_at x)) eqn:Hlt.
  - constructor; [done|]. destruct l as [|y l]; simpl.
    + constructor. by apply ltb_leb.
    + destruct (String.ltb (req_created_at r) (req_created_at y)) eqn:Hlt'.
      * constructor. by inversion Hx.
      * constructor. by apply ltb_leb.
  - constructor; [by constructor|]. constructor. by apply not_ltb_leb.
Qed.

Lemma order_by_created_at_desc_sorted (l : list request_row) :
  Sorted (fun a b => String.leb (req_created_at b) (req_created_at a) = true)
         (order_by_created_at_desc l).
Proof.
  induction l as [|x l IH]; simpl; [constructor|]. by apply insert_by_created_at_sorted.
Qed.

Lemma row_of_id (d : db) (row : request_row) :
  store_inv d -> row ∈ procurement_requests d ->
  exists rec, get_request d (req_id row) = Some rec
              /\ rec_id rec = req_id row /\ rec_created_at rec = req_created_at row.
Proof.
  intros Hinv Hrow.
  destruct (proj2 (get_request_known d (req_id row))) as [rec Hrec].
  { by apply list_elem_of_fmap_2. }
  exists rec. split; [done|].
  destruct (get_request_view d _ rec Hinv Hrec) as (Hid & _ & row' & Hrow' & Hid' & _ & Hat).
  split; [done|]. rewrite Hat. f_equal.
  pose proof (ids_NoDup d Hinv) as Hnd. clear -Hrow Hrow' Hid' Hnd.
  induction (procurement_requests d) as [|x l IH]; [by apply elem_of_nil in Hrow|].
  rewrite fmap_cons in Hnd. apply NoDup_cons in Hnd as [Hx Hnd].
  apply elem_of_cons in Hrow as [->|Hrow], Hrow' as [->|Hrow']; try done.
  - destruct Hx. rewrite <- Hid'. by apply list_elem_of_fmap_2.
  - destruct Hx. rewrite Hid'. by apply list_elem_of_fmap_2.
  - by apply IH.
Qed.

Lemma records_of_rows (d : db) (rows : list request_row) :
  store_inv d ->
  Forall (fun row => row ∈ procurement_requests d) rows ->
  Sorted (fun a b => String.leb (req_created_at b) (req_created_at a) = true) rows ->
  exists recs,
    get_request d <$> (req_id <$> rows) = Some <$> recs
    /\ rec_id <$> recs = req_id <$> rows
    /\ Sorted (fun a b => String.leb (rec_created_at b) (rec_created_at a) = true) recs
    /\ (forall row rest, rows = row :: rest ->
          exists rec recs', recs = rec :: recs' /\ rec_created_at rec = req_created_at row).
Proof.
  intros Hinv Hall Hsorted. induction Hsorted as [|row rows Hrows IH Hhd].
  - exists []. repeat split; [constructor|done].
  - apply Forall_cons in Hall as [Hrow Hall].
    destruct (IH Hall) as (recs & Hget & Hids & Hsort & Hhead).
    destruct (row_of_id d row Hinv Hrow) as (rec & Hrec & Hid & Hat).
    exists (rec :: recs). rewrite !fmap_cons, Hget, Hrec, Hid, Hids.
    repeat split; try done.
    + constructor; [done|]. destruct Hhd as [|row' rest Hle].
      * destruct recs; [constructor|done].
      * destruct (Hhead row' rest eq_refl) as (rec' & recs' & -> & Hat').
        constructor. by rewrite Hat, Hat'.
    + intros row0 rest [= <- <-]. by exists rec, recs.
Qed.

(** X19.  In every reachable state the list endpoint returns every stored
    request, each exactly once and none as a missing value, ordered by
    creation time with the latest first. *)
Theorem all_requests_once_latest_first (d : db) (Hd : reachable d) :
  exists recs,
    get_requests d = Some <$> recs
    /\ rec_id <$> recs ≡ₚ req_id <$> procurement_requests d
    /\ length recs = length (procurement_requests d)
    /\ Sorted (fun a b => String.leb (rec_created_at b) (rec_created_at a) = true) recs.
Proof.
  pose proof (reachable_inv d Hd) as Hinv.
  unfold get_requests, get_all_requests. cbv zeta.
  pose proof (order_by_created_at_desc_perm (procurement_requests d)) as Hperm.
  destruct (records_of_rows d (order_by_created_at_desc (procurement_requests d)) Hinv)
    as (recs & Hget & Hids & Hsort & _).
  { apply Forall_forall. intros row Hrow. by rewrite <- Hperm. }
  { apply order_by_created_at_desc_sorted. }
  exists recs. rewrite Hget, Hids. split; [done|]. split; [by rewrite Hperm|].
  split; [|done].
  rewrite <- (length_fmap rec_id recs), Hids, length_fmap. by rewrite Hperm.
Qed.

Lemma all_requests_once_latest_first_witness :
  reachable two_requests
  /\ exists recs,
       get_requests two_requests = Some <$> recs
       /\ rec_id <$> recs ≡ₚ ["REQ-0001"; "REQ-0002"]
       /\ length recs = 2
       /\ Sorted (fun a b => String.leb (rec_created_at b) (rec_created_at a) = true) recs
       /\ rec_id <$> recs = ["REQ-0002"; "REQ-0001"]
       /\ rec_created_at <$> recs = ["2026-01-06T10:30:00"; "2026-01-05T09:00:00"].
Proof.
  assert (reachable two_requests) as Hd by (do 2 apply reach_step; apply reach_init).
  split; [exact Hd|].
  destruct (all_requests_once_latest_first two_requests Hd)
    as (recs & Hget & Hperm & Hlen & Hsorted).
  exists recs. split; [exact Hget|]. split; [exact Hperm|]. split; [exact Hlen|].
  split; [exact Hsorted|].
  destruct recs as [|r1 [|r2 [|r3 recs]]]; try discriminate Hlen.
  vm_compute in Hget. injection Hget as <- <-. split; reflexivity.
Defined.
End AllRequests.

Section WorkflowStatus.
Import Py Models Database App Requests Spec Props Examples MoreExamples.

Lemma status_text_workflow (update : StatusUpdate) : workflow_status (status_text update).
Proof. destruct update; unfold workflow_status; simpl; auto. Qed.

Lemma update_status_db (d : db) (request_id : text) (update : StatusUpdate) (now : text) :
  snd (update_status d request_id update now)
  = snd (update_request_status d request_id (status_text update) now).
Proof.
  unfold update_status.
  by destruct (update_request_status d request_id (status_text update) now) as [[?|] ?].
Qed.

Lemma served_reachable (d : db) : served d -> reachable d.
Proof.
  induction 1 as [|d request now _ IH|d request_id update now _ IH].
  - apply reach_init.
  - apply (reach_step d (CreateRequest request now) IH).
  - rewrite update_status_db.
    apply (reach_step d (UpdateStatus request_id (status_text update) now) IH).
Qed.

(** Every status column, of a request and of a history row, holds one of
    the three values. *)
Lemma served_statuses (d : db) :
  served d ->
  Forall (fun row => workflow_status (req_status row)) (procurement_requests d)
  /\ Forall (fun h => workflow_status (h_status h)) (status_history d).
Proof.
  induction 1 as [|d request now Hd [IHr IHh]|d request_id update now Hd [IHr IHh]].
  - split; constructor.
  - pose proof (reachable_inv d (served_reachable d Hd)) as Hinv.
    unfold create_request_endpoint. destruct (storable_dec request) as [Hfit|Hbig].
    2:{ by destruct (create_request_unstorable d request now Hbig) as [e ->]. }
    destruct (create_request_shape d request now Hinv Hfit)
      as (d' & row & Hrun & Hrows & _ & Hst & _ & Hhist & _).
    rewrite Hrun. simpl. rewrite Hrows, Hhist. split.
    + apply Forall_app. split; [done|]. apply Forall_singleton. rewrite Hst. by left.
    + apply Forall_app. split; [done|]. apply Forall_singleton. by left.
  - rewrite update_status_db.
    destruct (update_request_status_shape d request_id (status_text update) now)
      as [[_ Hrun]|(_ & d' & Hrun & Hrows & Hhist & _)]; rewrite Hrun; [done|].
    simpl. rewrite Hrows, Hhist. split.
    + apply Forall_fmap. eapply Forall_impl; [exact IHr|]. simpl. intros row Hrow.
      unfold set_status. case_bool_decide; [|done]. simpl. apply status_text_workflow.
    + apply Forall_app. split; [done|]. apply Forall_singleton. simpl.
      apply status_text_workflow.
Qed.

(** X20.  Through the HTTP handlers (create, status update with a body
    that passed the validation of StatusUpdate) the store only ever holds
    the three statuses of the workflow: whatever request is read, its
    status and every entry of its status history is Open, In Progress or
    Closed. *)
Theorem served_requests_have_workflow_statuses
    (d : db) (Hd : served d) (request_id : text) (rec : request_record)
    (Hrec : get_request d request_id = Some rec) :
  workflow_status (rec_status rec)
  /\ Forall (fun entry => workflow_status (status entry)) (rec_status_history rec).
Proof.
  pose proof (reachable_inv d (served_reachable d Hd)) as Hinv.
  destruct (served_statuses d Hd) as [Hrows Hhist].
  destruct (get_request_view d _ rec Hinv Hrec) as (_ & -> & row & Hrow & _ & -> & _).
  split.
  - by apply (proj1 (Forall_forall _ _) Hrows).
  - apply Forall_fmap, Forall_forall. intros h [_ Hh]%list_elem_of_filter. simpl.
    by apply (proj1 (Forall_forall _ _) Hhist).
Qed.

Lemma served_requests_have_workflow_statuses_witness :
  exists rec,
    get_request (snd (create_request_endpoint init_database example_request
                        "2026-01-05T09:00:00")) "REQ-0001" = Some rec
    /\ workflow_status (rec_status rec).
Proof.
  eexists. split; [reflexivity|].
  exact (proj1 (served_requests_have_workflow_statuses _
                  (served_create _ example_request "2026-01-05T09:00:00" served_init)
                  "REQ-0001" _ eq_refl)).
Defined.

(** X21.  The status-update handler answers 404 exactly for an id that is
    not stored, and then leaves the database as it was (no history row is
    written); for a stored id it answers with the record whose status is
    the new value, whatever the status was before: no transition is
    refused. *)
Theorem update_status_handler
    (d : db) (Hd : reachable d) (request_id : text) (update : StatusUpdate) (now : text) :
  (get_request d request_id = None ->
   update_status d request_id update now = (Raise not_found, d))
  /\ (forall old, get_request d request_id = Some old ->
        exists new d',
          update_status d request_id update now = (Ok new, d')
          /\ get_request d' request_id = Some new
          /\ rec_status new = status_text update
          /\ rec_status_history new
             = rec_status_history old
               ++ [{| status := status_text update; timestamp := now |}]).
Proof.
  pose proof (reachable_inv d Hd) as Hinv. unfold update_status. split.
  - intros Hnone. by rewrite (update_request_status_unknown d request_id _ now Hnone).
  - intros old Hold.
    destruct (update_request_status_spec d request_id (status_text update) now old Hinv Hold)
      as (new & d' & -> & Hnew & Hst & Hh & _).
    by exists new, d'.
Qed.

Lemma update_status_handler_witness :
  reachable init_database
  /\ update_status init_database "REQ-0001" StatusClosed "2026-01-09T16:45:00"
     = (Raise not_found, init_database).
Proof.
  split; [apply reach_init|].
  exact (proj1 (update_status_handler init_database reach_init "REQ-0001" StatusClosed
                  "2026-01-09T16:45:00") eq_refl).
Defined.
End WorkflowStatus.

Section CacheRuns.
Import Py Models Database App Requests Spec Props Examples MoreExamples.

Lemma create_request_cache (d : db) (data : request_data) (now : text) :
  document_cache (snd (create_request d data now)) = document_cache d.
Proof.
  destruct (storable_dec data) as [Hfit|Hbig].
  2:{ by destruct (create_request_unstorable d data now Hbig) as [e ->]. }
  rewrite (create_request_storable _ _ _ Hfit). cbv zeta. case_bool_decide; [done|]. simpl.
  by destruct (insert_order_lines_other (get_next_request_id d) (data_order_lines data)
                 (insert_request
                    {| req_id := get_next_request_id d;
                       req_requestor_name := requestor_name data;
                       req_title := title data;
                       req_vendor_name := vendor_name data;
                       req_vat_id := vat_id data;
                       req_commodity_group_id := commodity_group_id data;
                       req_total_cost := total_cost data;
                       req_department := department data;
                       req_status := "Open";
                       req_created_at := now |} d)) as (_ & _ & _ & ->).
Qed.

Lemma update_request_status_cache (d : db) (request_id st now : text) :
  document_cache (snd (update_request_status d request_id st now)) = document_cache d.
Proof.
  unfold update_request_status.
  by destruct (filter (fun r => req_id r = request_id) (procurement_requests d)).
Qed.

Lemma get_cached_after_op (d : db) (o : op) (hash : text) :
  get_cached_extraction (apply_op d o) hash
  = match last_cached hash [o] with
    | Some data => Some data
    | None => get_cached_extraction d hash
    end.
Proof.
  unfold get_cached_extraction. destruct o as [data now|request_id st now|h name data now];
    simpl.
  - by rewrite create_request_cache.
  - by rewrite update_request_status_cache.
  - case_bool_decide as Hh.
    + subst h. change (filter ?P (_ ++ _)) with
        (filter P (document_cache (cache_extraction d hash name data now))).
      by rewrite cache_extraction_rows.
    + by rewrite filter_app, filter_hash_other, filter_cons_False, filter_nil, app_nil_r.
Qed.

Lemma get_cached_after_run (ops : list op) (d : db) (hash : text) :
  get_cached_extraction (run_ops d ops) hash
  = match last_cached hash ops with
    | Some data => Some data
    | None => get_cached_extraction d hash
    end.
Proof.
  revert d. induction ops as [|o ops IH]; intros d; [done|].
  unfold run_ops in *. simpl. rewrite IH.
  destruct (last_cached hash ops) as [data|]; [done|].
  rewrite get_cached_after_op. simpl. by destruct o; try case_bool_decide.
Qed.

(** X22.  For any run of store operations from the initialised database,
    reading the cache for a hash gives the data of the last cache write
    for that hash in the run, and nothing if there was none: creating
    requests, updating statuses and cache writes for other hashes never
    change or remove a cached extraction. *)
Theorem cache_read_is_last_write (ops : list op) (hash : text) :
  get_cached_extraction (run_ops init_database ops) hash = last_cached hash ops.
Proof.
  rewrite get_cached_after_run. by destruct (last_cached hash ops).
Qed.
End CacheRuns.
